(** * Tic-tac-toe session plugin: a shallow embedding of [src/app/app.ts]

    The class [TicTacToe] keeps one mutable [SaveBundle] and talks to the
    messaging host through [discordApi].  The embedding keeps the bundle as
    a record, threads it through a small state-and-exception monad, records
    every host request in issue order and keeps the [.then] callbacks that
    are still waiting for the host as defunctionalised continuations. *)

From Stdlib Require Import ZArith String Ascii List DecimalString DecimalZ Lia Bool.
From stdpp Require Import base numbers list.
Import ListNotations.
Local Open Scope Z_scope.

(** ** JavaScript values *)

(** A JavaScript string is a sequence of UTF-16 code units. *)
Abbreviation jsstring := (list N).

(** ASCII literal of the source, one code unit per character. *)
Definition lit (s : string) : jsstring :=
  map N_of_ascii (list_ascii_of_string s).

(** The escape [\n] of the source's template literals. *)
Definition NL : jsstring := [10%N].

(** [Number.prototype.toString] on an integer. *)
Definition toString (n : Z) : jsstring :=
  lit (NilZero.string_of_int (Z.to_int n)).

(** A value of type [string] that is [undefined] at run time prints as
    the word undefined inside a template literal. *)
Definition tpl (o : option jsstring) : jsstring :=
  match o with Some s => s | None => lit "undefined" end.

(** *** [parseInt] without a radix

    Leading white space is dropped, a sign is read, a [0x]/[0X] prefix
    switches to radix 16, and the longest prefix of digits is converted.
    [None] is [NaN].  The result is kept exact; JavaScript rounds integers
    beyond 2^53 to a double, which never moves a value into or out of the
    range 0..8 that the caller tests.  [-0] is [0]. *)

Definition isWhiteSpace (c : N) : bool :=
  existsb (N.eqb c)
    [9; 10; 11; 12; 13; 32; 160; 5760; 8232; 8233; 8239; 8287; 12288; 65279]%N
  || ((8192 <=? c)%N && (c <=? 8202)%N).

Fixpoint trimStart (s : jsstring) : jsstring :=
  match s with
  | c :: r => if isWhiteSpace c then trimStart r else s
  | [] => []
  end.

Definition digitValue (c : N) : option Z :=
  if ((48 <=? c) && (c <=? 57))%N then Some (Z.of_N c - 48)
  else if ((97 <=? c) && (c <=? 122))%N then Some (Z.of_N c - 97 + 10)
  else if ((65 <=? c) && (c <=? 90))%N then Some (Z.of_N c - 65 + 10)
  else None.

Fixpoint parseDigits (R : Z) (s : jsstring) (acc : option Z) : option Z :=
  match s with
  | [] => acc
  | c :: r =>
      match digitValue c with
      | Some d =>
          if d <? R
          then parseDigits R r (Some (match acc with Some a => a | None => 0 end * R + d))
          else acc
      | None => acc
      end
  end.

Definition parseInt (input : jsstring) : option Z :=
  let str := trimStart input in
  let '(sign, str) :=
    match str with
    | 45%N :: r => (-1, r)
    | 43%N :: r => (1, r)
    | _ => (1, str)
    end in
  let '(R, str) :=
    match str with
    | 48%N :: 120%N :: r => (16, r)
    | 48%N :: 88%N :: r => (16, r)
    | _ => (10, str)
    end in
  match parseDigits R str None with
  | Some mathInt => Some (sign * mathInt)
  | None => None
  end.

(** ** Data model *)

(** The literal type [0|1]. *)
Inductive PlayerIndex := P0 | P1.

Definition indexZ (p : PlayerIndex) : Z :=
  match p with P0 => 0 | P1 => 1 end.

Definition indexOfZ (z : Z) : PlayerIndex :=
  if z =? 0 then P0 else P1.

Global Instance PlayerIndex_eq_dec : EqDecision PlayerIndex.
Proof. solve_decision. Defined.

(** [GameUser] and [MessageDescriptor] are declared by the host API; the
    program reads only these fields. *)
Record GameUser := { user_id : jsstring }.

Record MessageDescriptor := { md_channelId : jsstring; md_messageId : jsstring }.

(** [playerIcons]; [None] is [undefined], which slot 1 holds when the
    constructor's argument contains no space. *)
Record Icons := { icon0 : option jsstring; icon1 : option jsstring }.

Definition iconOf (i : Icons) (p : PlayerIndex) : option jsstring :=
  match p with P0 => icon0 i | P1 => icon1 i end.

(** A cell of [boardStates]: [0|1|undefined]. *)
Abbreviation Cell := (option PlayerIndex).

Record SaveBundle := {
  started : bool;
  stale : bool;
  channelId : jsstring;
  gameBoardMessageDescriptor : option MessageDescriptor;
  currentPlayerIndex : option PlayerIndex;
  lastTurnMessageId : option jsstring;
  acceptSelection : bool;
  possibleTurnsCount : Z;
  gameSize : Z;
  players : list GameUser;
  boardStates : list (list Cell);
  playerIcons : Icons
}.

(** Assignments to single fields of [this.state]. *)
Definition set_started (v : bool) (s : SaveBundle) : SaveBundle :=
  {| started := v; stale := stale s; channelId := channelId s;
     gameBoardMessageDescriptor := gameBoardMessageDescriptor s;
     currentPlayerIndex := currentPlayerIndex s;
     lastTurnMessageId := lastTurnMessageId s;
     acceptSelection := acceptSelection s;
     possibleTurnsCount := possibleTurnsCount s; gameSize := gameSize s;
     players := players s; boardStates := boardStates s;
     playerIcons := playerIcons s |}.

Definition set_stale (v : bool) (s : SaveBundle) : SaveBundle :=
  {| started := started s; stale := v; channelId := channelId s;
     gameBoardMessageDescriptor := gameBoardMessageDescriptor s;
     currentPlayerIndex := currentPlayerIndex s;
     lastTurnMessageId := lastTurnMessageId s;
     acceptSelection := acceptSelection s;
     possibleTurnsCount := possibleTurnsCount s; gameSize := gameSize s;
     players := players s; boardStates := boardStates s;
     playerIcons := playerIcons s |}.

Definition set_gameBoardMessageDescriptor (v : option MessageDescriptor)
    (s : SaveBundle) : SaveBundle :=
  {| started := started s; stale := stale s; channelId := channelId s;
     gameBoardMessageDescriptor := v;
     currentPlayerIndex := currentPlayerIndex s;
     lastTurnMessageId := lastTurnMessageId s;
     acceptSelection := acceptSelection s;
     possibleTurnsCount := possibleTurnsCount s; gameSize := gameSize s;
     players := players s; boardStates := boardStates s;
     playerIcons := playerIcons s |}.

Definition set_currentPlayerIndex (v : option PlayerIndex)
    (s : SaveBundle) : SaveBundle :=
  {| started := started s; stale := stale s; channelId := channelId s;
     gameBoardMessageDescriptor := gameBoardMessageDescriptor s;
     currentPlayerIndex := v;
     lastTurnMessageId := lastTurnMessageId s;
     acceptSelection := acceptSelection s;
     possibleTurnsCount := possibleTurnsCount s; gameSize := gameSize s;
     players := players s; boardStates := boardStates s;
     playerIcons := playerIcons s |}.

Definition set_lastTurnMessageId (v : option jsstring)
    (s : SaveBundle) : SaveBundle :=
  {| started := started s; stale := stale s; channelId := channelId s;
     gameBoardMessageDescriptor := gameBoardMessageDescriptor s;
     currentPlayerIndex := currentPlayerIndex s;
     lastTurnMessageId := v;
     acceptSelection := acceptSelection s;
     possibleTurnsCount := possibleTurnsCount s; gameSize := gameSize s;
     players := players s; boardStates := boardStates s;
     playerIcons := playerIcons s |}.

Definition set_acceptSelection (v : bool) (s : SaveBundle) : SaveBundle :=
  {| started := started s; stale := stale s; channelId := channelId s;
     gameBoardMessageDescriptor := gameBoardMessageDescriptor s;
     currentPlayerIndex := currentPlayerIndex s;
     lastTurnMessageId := lastTurnMessageId s;
     acceptSelection := v;
     possibleTurnsCount := possibleTurnsCount s; gameSize := gameSize s;
     players := players s; boardStates := boardStates s;
     playerIcons := playerIcons s |}.

Definition set_possibleTurnsCount (v : Z) (s : SaveBundle) : SaveBundle :=
  {| started := started s; stale := stale s; channelId := channelId s;
     gameBoardMessageDescriptor := gameBoardMessageDescriptor s;
     currentPlayerIndex := currentPlayerIndex s;
     lastTurnMessageId := lastTurnMessageId s;
     acceptSelection := acceptSelection s;
     possibleTurnsCount := v; gameSize := gameSize s;
     players := players s; boardStates := boardStates s;
     playerIcons := playerIcons s |}.

Definition set_players (v : list GameUser) (s : SaveBundle) : SaveBundle :=
  {| started := started s; stale := stale s; channelId := channelId s;
     gameBoardMessageDescriptor := gameBoardMessageDescriptor s;
     currentPlayerIndex := currentPlayerIndex s;
     lastTurnMessageId := lastTurnMessageId s;
     acceptSelection := acceptSelection s;
     possibleTurnsCount := possibleTurnsCount s; gameSize := gameSize s;
     players := v; boardStates := boardStates s;
     playerIcons := playerIcons s |}.

Definition set_boardStates (v : list (list Cell)) (s : SaveBundle) : SaveBundle :=
  {| started := started s; stale := stale s; channelId := channelId s;
     gameBoardMessageDescriptor := gameBoardMessageDescriptor s;
     currentPlayerIndex := currentPlayerIndex s;
     lastTurnMessageId := lastTurnMessageId s;
     acceptSelection := acceptSelection s;
     possibleTurnsCount := possibleTurnsCount s; gameSize := gameSize s;
     players := players s; boardStates := v;
     playerIcons := playerIcons s |}.

(** The spec's [phase], read off the two flags. *)
Inductive Phase := Lobby | Active | Stale.

Definition phase (s : SaveBundle) : Phase :=
  if stale s then Stale else if started s then Active else Lobby.

(** ** Arrays indexed by numbers *)

(** [a[i]]: [None] is [undefined] (negative or past the end). *)
Definition at_ {A} (a : list A) (i : Z) : option A :=
  if i <? 0 then None else a !! Z.to_nat i.

(** [row[i] = v] on an array of cells: inside the array the slot is
    replaced, past the end JavaScript extends the array and the holes read
    as [undefined].  A negative [i] would set a property that is not an
    element; the handlers never compute one (see [getCoordFromIndex]). *)
Definition assign (row : list Cell) (i : Z) (v : Cell) : list Cell :=
  if i <? 0 then row
  else if (Z.to_nat i <? length row)%nat then <[Z.to_nat i := v]> row
  else row ++ replicate (Z.to_nat i - length row)%nat None ++ [v].

(** The loop header [for (let i = 0; i < n; i++)]. *)
Definition range (n : Z) : list Z :=
  map Z.of_nat (seq 0 (Z.to_nat n)).

Definition isDefined {A} (v : option A) : bool :=
  match v with Some _ => true | None => false end.

(** ** Exceptions *)

(** A handler either returns or throws (a [TypeError] from reading a
    property of [undefined]). *)
Inductive Outcome (A : Type) := Return (a : A) | Throw.
Arguments Return {A} a.
Arguments Throw {A}.

Definition obind {A B} (m : Outcome A) (k : A -> Outcome B) : Outcome B :=
  match m with Return a => k a | Throw => Throw end.

(** [o.f] where [o] may be [undefined]. *)
Definition deref {A} (o : option A) : Outcome A :=
  match o with Some a => Return a | None => Throw end.

Declare Scope outcome_scope.
Delimit Scope outcome_scope with outcome.
Notation "'do' x <- m ; k" := (obind m (fun x => k))
  (at level 10, x name, m at level 100, k at level 200) : outcome_scope.
Local Open Scope outcome_scope.

Fixpoint omap {A B} (f : A -> Outcome B) (l : list A) : Outcome (list B) :=
  match l with
  | [] => Return []
  | a :: r => do b <- f a; do bs <- omap f r; Return (b :: bs)
  end.

(** [boardStates[row][index]]: a missing row throws, a missing slot reads
    as [undefined]. *)
Definition cell (b : list (list Cell)) (row index : Z) : Outcome Cell :=
  do r <- deref (at_ b row);
  Return (match at_ r index with Some c => c | None => None end).

(** ** Controls and host requests *)

Inductive ButtonStyle := Primary | Secondary | Success.

Record Button := {
  style : ButtonStyle;
  label : option jsstring;
  emoji : option jsstring;
  custom_id : jsstring;
  disabled : bool
}.

Definition set_style (v : ButtonStyle) (b : Button) : Button :=
  {| style := v; label := label b; emoji := emoji b;
     custom_id := custom_id b; disabled := disabled b |}.

(** [ActionRow<Button>]: its [components]. *)
Abbreviation ActionRow := (list Button).

Record MessageOptions := {
  components : option (list ActionRow);
  allowedMentions : option (list jsstring)
}.

Definition noOptions : MessageOptions :=
  {| components := None; allowedMentions := None |}.

(** The methods of [discordApi] the program calls. *)
Inductive HostRequest :=
| createChannel (name : jsstring)
| sendPrivateMessage (userId text : jsstring)
| addUserToChannel (userId channel : jsstring) (muted : bool)
| removeUserFromChannel (userId channel : jsstring)
| sendMessage (text channel : jsstring) (options : MessageOptions)
| deleteMessage (channel : jsstring) (message : option jsstring)
| replaceControl (channel message controlId : jsstring) (control : Button)
| editMessage (channel message text : jsstring) (options : MessageOptions).

Inductive GameEvent :=
| JoinGameEvent (user : GameUser)
| LeaveGameEvent (user : GameUser)
| ButtonClickGameEvent (user : GameUser) (buttonId : jsstring)
| OtherGameEvent.

(** ** The instance, the host's log and the callbacks in flight *)

(** The callback that both callers chain on [sendTurnNotification()]. *)
Inductive Then := ThenAcceptSelection.

(** The [.then] and [setTimeout] callbacks of the source, one constructor
    per callback, with the variables it captures. *)
Inductive Cont :=
| K_channelCreated                       (* initialize: channelId => this.state = {...} *)
| K_boardSent                            (* startGame: the two callbacks after sendMessage,
                                            which run back to back *)
| K_turnRetracted (k : Then)             (* sendTurnNotification: () => sendMessage(...) *)
| K_turnSent (k : Then)                  (* sendTurnNotification: md => lastTurnMessageId = ... *)
| K_noticeSent                           (* handleButtonClick: md => setTimeout(...) *)
| K_noticeTimeout (md : MessageDescriptor) (* handleButtonClick: the timer's callback *)
| K_controlReplaced                      (* handleUserTurn: callback after replaceControl *)
| K_drawRetracted                        (* endGameDraw: callback after deleteMessage *)
| K_winRetracted (winRow : list Z)       (* renderWinMessage: first callback *)
| K_winEdited (winRow : list Z).         (* renderWinMessage: second callback *)

(** What a callback waits for. *)
Inductive Trigger := HostReply | Timer (ms : Z).

Record World := {
  this_gameSize : Z;                     (* this.gameSize *)
  this_playerIcons : Icons;              (* this.playerIcons *)
  this_state : option SaveBundle;        (* this.state, undefined before initialize *)
  requests : list HostRequest;           (* calls on discordApi, oldest first *)
  pending : list (Trigger * Cont);       (* callbacks not yet run, oldest first *)
  console : list jsstring                (* console.warn *)
}.

Definition with_state (v : option SaveBundle) (w : World) : World :=
  {| this_gameSize := this_gameSize w; this_playerIcons := this_playerIcons w;
     this_state := v; requests := requests w; pending := pending w;
     console := console w |}.

Definition with_requests (v : list HostRequest) (w : World) : World :=
  {| this_gameSize := this_gameSize w; this_playerIcons := this_playerIcons w;
     this_state := this_state w; requests := v; pending := pending w;
     console := console w |}.

Definition with_pending (v : list (Trigger * Cont)) (w : World) : World :=
  {| this_gameSize := this_gameSize w; this_playerIcons := this_playerIcons w;
     this_state := this_state w; requests := requests w; pending := v;
     console := console w |}.

Definition with_console (v : list jsstring) (w : World) : World :=
  {| this_gameSize := this_gameSize w; this_playerIcons := this_playerIcons w;
     this_state := this_state w; requests := requests w; pending := pending w;
     console := v |}.

(** Code that runs on the instance: it may throw, and what it did before
    throwing stays done. *)
Definition M (A : Type) := World -> Outcome A * World.

Definition ret {A} (a : A) : M A := fun w => (Return a, w).

Definition bind {A B} (m : M A) (k : A -> M B) : M B :=
  fun w => match m w with
           | (Return a, w') => k a w'
           | (Throw, w') => (Throw, w')
           end.

Declare Scope m_scope.
Delimit Scope m_scope with M.
Notation "'do' x <- m ; k" := (bind m (fun x => k))
  (at level 10, x name, m at level 100, k at level 200) : m_scope.
Notation "m ;; k" := (bind m (fun _ => k))
  (at level 100, k at level 200, right associativity) : m_scope.

Definition lift {A} (o : Outcome A) : M A := fun w => (o, w).

(** A read of [this.state]. *)
Definition getState : M SaveBundle := fun w => (deref (this_state w), w).

(** An assignment to a field of [this.state]. *)
Definition modify (f : SaveBundle -> SaveBundle) : M unit :=
  fun w => match this_state w with
           | Some s => (Return tt, with_state (Some (f s)) w)
           | None => (Throw, w)
           end.

(** A call on [discordApi] whose promise is dropped. *)
Definition call (r : HostRequest) : M unit :=
  fun w => (Return tt, with_requests (requests w ++ [r]) w).

(** A call on [discordApi] followed by [.then(k)]. *)
Definition await (r : HostRequest) (k : Cont) : M unit :=
  fun w => (Return tt,
            with_pending (pending w ++ [(HostReply, k)])
              (with_requests (requests w ++ [r]) w)).

Definition setTimeout (k : Cont) (ms : Z) : M unit :=
  fun w => (Return tt, with_pending (pending w ++ [(Timer ms, k)]) w).

Definition console_warn (text : jsstring) : M unit :=
  fun w => (Return tt, with_console (console w ++ [text]) w).

(** ** Rendering and win detection: readers of [this.state] *)

Section Plugin.

(** [SystemButtonIds.LEAVE_SESSION], a constant of the host API. *)
Variable LEAVE_SESSION : jsstring.

Definition LEAVE_BUTTON : Button :=
  {| style := Primary; label := Some (lit "Leave game"); emoji := None;
     custom_id := LEAVE_SESSION; disabled := false |}.

Definition getCellIcon (st : SaveBundle) (row index : Z)
    : Outcome (jsstring * bool) :=
  do selection <- cell (boardStates st) row index;
  match selection with
  | Some p =>
      do icon <- deref (iconOf (playerIcons st) p);
      Return (icon, 1 <? Z.of_nat (length icon))
  | None => Return (lit " ", false)
  end.

Definition buildButton (st : SaveBundle) (rowIndex index : Z)
    (disabled : bool) : Outcome Button :=
  do iconEmoji <- getCellIcon st rowIndex index;
  let '(icon, useEmoji) := iconEmoji in
  do dis <- (if disabled then Return true
             else do c <- cell (boardStates st) rowIndex index;
                  Return (isDefined c));
  Return {| style := Secondary;
            label := if useEmoji then None else Some icon;
            emoji := if useEmoji then Some icon else None;
            custom_id := toString (rowIndex * gameSize st + index);
            disabled := dis |}.

Definition buildTicTacToe (st : SaveBundle) (disabled : bool)
    : Outcome (list ActionRow) :=
  omap (fun rowIndex =>
          omap (fun index => buildButton st rowIndex index disabled)
               (range (gameSize st)))
       (range (gameSize st)).

(** [Math.floor(buttonId / gameSize)] is not finite when [gameSize] is 0;
    every caller then indexes an array with it, reads [undefined] and
    throws, which is also what the out-of-range index [-1] does.  The source
    divides, multiplies and subtracts in binary64: for a cell number from 0
    up to, but not including, 2^53 these operations are exact and give the
    integer quotient and remainder below; [handleButtonClick] only passes
    the numbers 0..8. *)
Definition getCoordFromIndex (st : SaveBundle) (buttonId : Z) : Z * Z :=
  let rowIndex := if gameSize st =? 0 then -1 else buttonId / gameSize st in
  (rowIndex, buttonId - rowIndex * gameSize st).

(** The row loop of [checkForWin], with its early [return]. *)
Fixpoint checkRows (st : SaveBundle) (rowIndexes : list Z)
    : Outcome (option (list Z)) :=
  match rowIndexes with
  | [] => Return None
  | rowIndex :: rest =>
      do row <- deref (at_ (boardStates st) rowIndex);
      let c i := match at_ row i with Some c => c | None => None end in
      if isDefined (c 0) && bool_decide (c 0 = c 1) && bool_decide (c 1 = c 2)
      then Return (Some [rowIndex * gameSize st;
                         rowIndex * gameSize st + 1;
                         rowIndex * gameSize st + 2])
      else checkRows st rest
  end.

(** [a && b && c] on three cells of the board, each read only if the
    operands before it are true. *)
Definition sameOwner (st : SaveBundle) (a b c : Z * Z) : Outcome bool :=
  let get p := cell (boardStates st) (fst p) (snd p) in
  do x <- get a;
  if isDefined x then
    do x1 <- get a; do y <- get b;
    if bool_decide (x1 = y) then
      do y1 <- get b; do z <- get c;
      Return (bool_decide (y1 = z))
    else Return false
  else Return false.

(** The column loop of [checkForWin]. *)
Fixpoint checkCols (st : SaveBundle) (colIndexes : list Z)
    : Outcome (option (list Z)) :=
  match colIndexes with
  | [] => Return None
  | colIndex :: rest =>
      do won <- sameOwner st (0, colIndex) (1, colIndex) (2, colIndex);
      if won
      then Return (Some [colIndex; colIndex + gameSize st;
                         colIndex + 2 * gameSize st])
      else checkCols st rest
  end.

Definition checkForWin (st : SaveBundle) : Outcome (option (list Z)) :=
  do r <- checkRows st (range (gameSize st));
  match r with
  | Some line => Return (Some line)
  | None =>
      do r <- checkCols st (range (gameSize st));
      match r with
      | Some line => Return (Some line)
      | None =>
          do d1 <- sameOwner st (0, 0) (1, 1) (2, 2);
          if d1 then Return (Some [0; gameSize st + 1; 2 * gameSize st + 2])
          else
            do d2 <- sameOwner st (2, 0) (1, 1) (0, 2);
            if d2
            then Return (Some [2 * gameSize st; gameSize st + 1; gameSize st - 1])
            else Return None
      end
  end.

(** ** The class [TicTacToe] *)

(** [String.prototype.split] with a separator of one code unit. *)
Fixpoint split (sep : N) (s : jsstring) : list jsstring :=
  match s with
  | [] => [[]]
  | c :: r =>
      if (c =? sep)%N then [] :: split sep r
      else match split sep r with
           | h :: t => (c :: h) :: t
           | [] => [[c]]
           end
  end.

Definition defaultIcons : Icons :=
  {| icon0 := Some [10060%N]; icon1 := Some [11093%N] |}.

(** [constructor(args ?: string)]. *)
Definition constructor (args : option jsstring) : World :=
  {| this_gameSize := 3;
     this_playerIcons :=
       match args with
       | Some a =>
           let icons := split 32%N a in
           {| icon0 := at_ icons 0; icon1 := at_ icons 1 |}
       | None => defaultIcons
       end;
     this_state := None; requests := []; pending := []; console := [] |}.

(** The bundle built by the callback of [initialize]. *)
Definition freshState (w : World) (channel : jsstring) : SaveBundle :=
  {| started := false;
     stale := false;
     channelId := channel;
     gameBoardMessageDescriptor := None;
     currentPlayerIndex := None;
     lastTurnMessageId := None;
     acceptSelection := false;
     possibleTurnsCount := this_gameSize w ^ 2;
     players := [];
     gameSize := this_gameSize w;
     boardStates := [[None; None; None];
                     [None; None; None];
                     [None; None; None]];
     playerIcons := this_playerIcons w |}.

Definition initialize (saveBundle : option SaveBundle) : M unit :=
  match saveBundle with
  | Some b => fun w => (Return tt, with_state (Some b) w)
  | None => await (createChannel (lit "Tic tac toe")) K_channelCreated
  end.

(** [destroy]: [None] is the promise resolved with no value. *)
Definition destroy : M (option SaveBundle) :=
  (do st <- getState;
   if negb (stale st) then ret (Some st) else ret None)%M.

(** [players[currentPlayerIndex!]], then a property of it. *)
Definition currentPlayer (st : SaveBundle) : Outcome GameUser :=
  deref (match currentPlayerIndex st with
         | Some i => at_ (players st) (indexZ i)
         | None => None
         end).

(** The callback [() => sendMessage(...)] of [sendTurnNotification]. *)
Definition sendTurn (k : Then) : M unit :=
  (do st <- getState;
   do p <- lift (currentPlayer st);
   await (sendMessage (lit "<@" ++ user_id p ++ lit ">, it's your turn!")
            (channelId st)
            {| components := None; allowedMentions := Some [user_id p] |})
         (K_turnSent k))%M.

(** [if (s)] on a string: the empty string is false. *)
Definition truthy (s : option jsstring) : bool :=
  match s with Some (_ :: _) => true | _ => false end.

(** [sendTurnNotification().then(k)].  Without a message to delete the
    promise is already resolved, and its callback runs before any other
    event is handled: the call is the last statement of both callers. *)
Definition sendTurnNotification (k : Then) : M unit :=
  (do st <- getState;
   if truthy (lastTurnMessageId st)
   then await (deleteMessage (channelId st) (lastTurnMessageId st))
              (K_turnRetracted k)
   else sendTurn k)%M.

Definition run_then (k : Then) : M unit :=
  match k with
  | ThenAcceptSelection => modify (set_acceptSelection true)
  end.

(** The text shared by [startGame] and [renderWinMessage]. *)
Definition iconsText (st : SaveBundle) : Outcome jsstring :=
  do p0 <- deref (at_ (players st) 0);
  do p1 <- deref (at_ (players st) 1);
  Return (lit "<@" ++ user_id p0 ++ lit "> will use "
            ++ tpl (icon0 (playerIcons st)) ++ NL
            ++ lit "<@" ++ user_id p1 ++ lit "> will use "
            ++ tpl (icon1 (playerIcons st))).

Definition startGame : M unit :=
  (modify (set_started true);;
   do st <- getState;
   do text <- lift (iconsText st);
   do board <- lift (buildTicTacToe st false);
   await (sendMessage text (channelId st)
            {| components := Some board; allowedMentions := None |})
         K_boardSent)%M.

Definition handleJoin (user : GameUser) : M unit :=
  (do st <- getState;
   if started st then
     call (sendPrivateMessage (user_id user)
             (lit "The game was already started - no new joins allowed."))
   else if stale st then
     call (sendPrivateMessage (user_id user)
             (lit "The game was already finished - no new joins allowed."))
   else
     modify (fun s => set_players (players s ++ [user]) s);;
     do st <- getState;
     call (addUserToChannel (user_id user) (channelId st) true);;
     if (length (players st) =? 1)%nat then
       call (sendMessage
               (lit "<@" ++ user_id user ++ lit "> joined the game." ++ NL
                  ++ lit "Waiting for one more player...")
               (channelId st) noOptions)
     else if (length (players st) =? 2)%nat then
       call (sendMessage
               (lit "<@" ++ user_id user ++ lit "> joined the game." ++ NL
                  ++ lit "Starting game...")
               (channelId st) noOptions);;
       startGame
     else ret tt)%M.

(** [Array.prototype.indexOf]: [-1] when absent. *)
Fixpoint indexOf (l : list jsstring) (x : jsstring) : Z :=
  match l with
  | [] => -1
  | y :: r =>
      if bool_decide (y = x) then 0
      else let i := indexOf r x in if i =? -1 then -1 else i + 1
  end.

(** [a.splice(i, 1)] for an index [i] inside the array. *)
Definition splice1 {A} (a : list A) (i : Z) : list A :=
  take (Z.to_nat i) a ++ drop (S (Z.to_nat i)) a.

Definition handleLeave (user : GameUser) : M unit :=
  (do st <- getState;
   let userIndex := indexOf (map user_id (players st)) (user_id user) in
   if negb (userIndex =? -1) then
     modify (fun s => set_players (splice1 (players s) userIndex) s);;
     do st <- getState;
     (if (0 <? length (players st))%nat then
        (if negb (stale st) then
           call (sendMessage
                   (lit "User <@" ++ user_id user ++ lit "> has left the game."
                      ++ NL ++ lit "This game session become stale." ++ NL
                      ++ lit "Leave the session.")
                   (channelId st)
                   {| components := Some [[LEAVE_BUTTON]];
                      allowedMentions := None |})
         else ret tt);;
        call (removeUserFromChannel (user_id user) (channelId st))
      else ret tt);;
     modify (set_stale true)
   else ret tt)%M.

Definition leaveRow : MessageOptions :=
  {| components := Some [[LEAVE_BUTTON]]; allowedMentions := None |}.

Definition endGameDraw : M unit :=
  (do st <- getState;
   await (deleteMessage (channelId st) (lastTurnMessageId st))
         K_drawRetracted)%M.

Definition renderWinMessage (winRow : list Z) : M unit :=
  (modify (set_stale true);;
   do st <- getState;
   await (deleteMessage (channelId st) (lastTurnMessageId st))
         (K_winRetracted winRow))%M.

(** [(currentPlayerIndex! + 1) % 2].  On [undefined] JavaScript computes
    [NaN]; like [undefined] it selects no player and no icon, and no
    handler stores it in a cell, so it is kept as [None]. *)
Definition nextPlayer (i : option PlayerIndex) : option PlayerIndex :=
  match i with
  | Some p => Some (indexOfZ ((indexZ p + 1) mod 2))
  | None => None
  end.

Definition handleUserTurn (buttonId : Z) : M unit :=
  (do st <- getState;
   let '(rowIndex, index) := getCoordFromIndex st buttonId in
   do c <- lift (cell (boardStates st) rowIndex index);
   if isDefined c then
     console_warn (lit "Wrong turn - that cell was already selected.")
   else
     modify (fun s => set_possibleTurnsCount (possibleTurnsCount s - 1) s);;
     do st <- getState;
     do row <- lift (deref (at_ (boardStates st) rowIndex));
     modify (set_boardStates
               (<[Z.to_nat rowIndex :=
                    assign row index (currentPlayerIndex st)]> (boardStates st)));;
     do st <- getState;
     do winRow <- lift (checkForWin st);
     match winRow with
     | Some line => renderWinMessage line
     | None =>
         modify (set_acceptSelection false);;
         do st <- getState;
         do md <- lift (deref (gameBoardMessageDescriptor st));
         do control <- lift (buildButton st rowIndex index false);
         await (replaceControl (channelId st) (md_messageId md)
                  (toString buttonId) control)
               K_controlReplaced
     end)%M.

(** The test of [handleButtonClick] on a [buttonId] that is a number. *)
Definition clickable (st : SaveBundle) (buttonId : Z) : bool :=
  negb (stale st) && (0 <=? buttonId) && (buttonId <=? 8)
  && isDefined (gameBoardMessageDescriptor st).

Definition notice (user : GameUser) (text : string) (st : SaveBundle) : M unit :=
  await (sendMessage (lit "<@" ++ user_id user ++ lit text) (channelId st) noOptions)
        K_noticeSent.

(** [NaN] fails both comparisons of the test. *)
Definition handleButtonClick (user : GameUser) (buttonId : jsstring) : M unit :=
  let parsed := parseInt buttonId in
  (do st <- getState;
   match parsed with
   | Some buttonId =>
       if clickable st buttonId then
         do p <- lift (currentPlayer st);
         if negb (bool_decide (user_id user = user_id p)) then
           notice user ">, it's not your turn now." st
         else if negb (acceptSelection st) then
           notice user ">, you already made your choise." st
         else
           handleUserTurn buttonId
       else ret tt
   | None => ret tt
   end)%M.

Definition onEvent (event : GameEvent) : M unit :=
  match event with
  | JoinGameEvent user => handleJoin user
  | LeaveGameEvent user => handleLeave user
  | ButtonClickGameEvent user buttonId => handleButtonClick user buttonId
  | OtherGameEvent => ret tt
  end.

(** ** Callbacks *)

(** The loop of [renderWinMessage] that restyles the winning controls. *)
Fixpoint highlight (st : SaveBundle) (winRow : list Z) (board : list ActionRow)
    : Outcome (list ActionRow) :=
  match winRow with
  | [] => Return board
  | buttonId :: rest =>
      let '(rowIndex, index) := getCoordFromIndex st buttonId in
      do row <- deref (at_ board rowIndex);
      do control <- deref (at_ row index);
      highlight st rest
        (<[Z.to_nat rowIndex :=
             <[Z.to_nat index := set_style Success control]> row]> board)
  end.

(** What the host answers: nothing, a message descriptor or a channel id. *)
Inductive Response :=
| Void
| Message (md : MessageDescriptor)
| Channel (channel : jsstring).

(** The body of each callback.  [coin] is what
    [Math.round(Math.random())] yields if the callback draws it.  A
    response of the wrong shape for the request is no behaviour of the
    typed host API. *)
Definition resume (k : Cont) (r : Response) (coin : PlayerIndex)
    : option (M unit) :=
  match k, r with
  | K_channelCreated, Channel channel =>
      Some (fun w => (Return tt, with_state (Some (freshState w channel)) w))
  | K_boardSent, Message md =>
      Some (modify (set_gameBoardMessageDescriptor (Some md));;
            modify (set_currentPlayerIndex (Some coin));;
            sendTurnNotification ThenAcceptSelection)%M
  | K_turnRetracted k, Void => Some (sendTurn k)
  | K_turnSent k, Message md =>
      Some (modify (set_lastTurnMessageId (Some (md_messageId md)));;
            run_then k)%M
  | K_noticeSent, Message md => Some (setTimeout (K_noticeTimeout md) 3000)
  | K_controlReplaced, Void =>
      Some (do st <- getState;
            if possibleTurnsCount st =? 0 then endGameDraw
            else
              modify (fun s =>
                set_currentPlayerIndex (nextPlayer (currentPlayerIndex s)) s);;
              sendTurnNotification ThenAcceptSelection)%M
  | K_drawRetracted, Void =>
      Some (modify (set_stale true);;
            do st <- getState;
            call (sendMessage
                    (lit "The game was ended in a draw." ++ NL
                       ++ lit "Leave the session")
                    (channelId st) leaveRow))%M
  | K_winRetracted winRow, Void =>
      Some (do st <- getState;
            do board <- lift (buildTicTacToe st true);
            do board <- lift (highlight st winRow board);
            do md <- lift (deref (gameBoardMessageDescriptor st));
            do text <- lift (iconsText st);
            await (editMessage (md_channelId md) (md_messageId md) text
                     {| components := Some board; allowedMentions := None |})
                  (K_winEdited winRow))%M
  | K_winEdited winRow, Void =>
      Some (do st <- getState;
            do first <- lift (deref (at_ winRow 0));
            let '(rowIndex, index) := getCoordFromIndex st first in
            do owner <- lift (cell (boardStates st) rowIndex index);
            do winner <- lift (deref (match owner with
                                      | Some i => at_ (players st) (indexZ i)
                                      | None => None
                                      end));
            call (sendMessage
                    (lit "User <@" ++ user_id winner ++ lit "> won the game!"
                       ++ NL ++ lit "Game over." ++ NL ++ lit "Leave the session")
                    (channelId st)
                    {| components := Some [[LEAVE_BUTTON]];
                       allowedMentions := Some [user_id winner] |}))%M
  | _, _ => None
  end.

(** The callback of [setTimeout]. *)
Definition fire (k : Cont) : option (M unit) :=
  match k with
  | K_noticeTimeout md =>
      Some (call (deleteMessage (md_channelId md) (Some (md_messageId md))))
  | _ => None
  end.

(** ** The session as a transition system *)

Inductive Label :=
| Deliver (event : GameEvent)                         (* the host calls onEvent *)
| Resolve (i : nat) (r : Response) (coin : PlayerIndex) (* request i is fulfilled *)
| Reject (i : nat)                                    (* request i fails *)
| Elapse (i : nat)                                    (* timer i expires *)
| Reload (args : option jsstring).                    (* destroy, then a new instance
                                                         initialised from the saved
                                                         bundle; the callbacks of the
                                                         old instance are gone *)

Definition exec (m : M unit) (w : World) : World := snd (m w).

Definition step (l : Label) (w : World) : option World :=
  match l with
  | Deliver event => Some (exec (onEvent event) w)
  | Resolve i r coin =>
      match pending w !! i with
      | Some (HostReply, k) =>
          match resume k r coin with
          | Some m => Some (exec m (with_pending (delete i (pending w)) w))
          | None => None
          end
      | _ => None
      end
  | Reject i =>
      match pending w !! i with
      | Some (HostReply, _) => Some (with_pending (delete i (pending w)) w)
      | _ => None
      end
  | Elapse i =>
      match pending w !! i with
      | Some (Timer _, k) =>
          match fire k with
          | Some m => Some (exec m (with_pending (delete i (pending w)) w))
          | None => None
          end
      | _ => None
      end
  | Reload args =>
      match destroy w with
      | (Return (Some bundle), _) =>
          Some (exec (initialize (Some bundle)) (constructor args))
      | _ => None
      end
  end.

(** The instance right after [new TicTacToe(args)] and [initialize()]. *)
Definition boot (args : option jsstring) : World :=
  exec (initialize None) (constructor args).

Inductive reachable (args : option jsstring) : World -> Prop :=
| reach_boot : reachable args (boot args)
| reach_step w l w' :
    reachable args w -> step l w = Some w' -> reachable args w'.

Fixpoint run (ls : list Label) (w : World) : option World :=
  match ls with
  | [] => Some w
  | l :: rest =>
      match step l w with
      | Some w' => run rest w'
      | None => None
      end
  end.

(** ** Winning lines, as the specification words them *)

(** The cell with index [row * 3 + column]. *)
Definition ownerOf (st : SaveBundle) (i : Z) : Cell :=
  match at_ (boardStates st) (i / 3) with
  | Some row => match at_ row (i mod 3) with Some c => c | None => None end
  | None => None
  end.

(** Rows top to bottom, columns left to right, then the two diagonals. *)
Definition winningLines : list (list Z) :=
  map (fun r => [3 * r; 3 * r + 1; 3 * r + 2]) [0; 1; 2]
  ++ map (fun c => [c; c + 3; c + 6]) [0; 1; 2]
  ++ [[0; 4; 8]; [6; 4; 2]].

(** Every cell of the line is occupied, all by the same player. *)
Definition fullyOwned (st : SaveBundle) (line : list Z) : Prop :=
  exists p : PlayerIndex, Forall (fun i => ownerOf st i = Some p) line.

Definition fullyOwnedb (st : SaveBundle) (line : list Z) : bool :=
  match line with
  | [] => true
  | i :: rest =>
      isDefined (ownerOf st i)
      && forallb (fun j => bool_decide (ownerOf st j = ownerOf st i)) rest
  end.

(** The first line of the scan order that is fully owned. *)
Definition firstOwned (st : SaveBundle) : option (list Z) :=
  find (fullyOwnedb st) winningLines.

(** The board is 3 by 3 and [gameSize] says so. *)
Definition board3x3 (st : SaveBundle) : Prop :=
  gameSize st = 3
  /\ length (boardStates st) = 3%nat
  /\ Forall (fun row => length row = 3%nat) (boardStates st).

(** *** Checking all boards by evaluation *)

Definition all_cells (f : Cell -> bool) : bool :=
  f None && f (Some P0) && f (Some P1).

(** [st] with [gameSize] 3 and the nine given cells. *)
Definition on3x3 (st : SaveBundle) (a b c d e f g h i : Cell) : SaveBundle :=
  {| started := started st; stale := stale st; channelId := channelId st;
     gameBoardMessageDescriptor := gameBoardMessageDescriptor st;
     currentPlayerIndex := currentPlayerIndex st;
     lastTurnMessageId := lastTurnMessageId st;
     acceptSelection := acceptSelection st;
     possibleTurnsCount := possibleTurnsCount st; gameSize := 3;
     players := players st;
     boardStates := [[a; b; c]; [d; e; f]; [g; h; i]];
     playerIcons := playerIcons st |}.

Global Instance Outcome_eq_dec {A} `{EqDecision A} : EqDecision (Outcome A).
Proof. solve_decision. Defined.

(** [p] holds of every choice of nine cells. *)
Definition all_boards (p : Cell -> Cell -> Cell -> Cell -> Cell -> Cell ->
                           Cell -> Cell -> Cell -> bool) : bool :=
  all_cells (fun a => all_cells (fun b => all_cells (fun c =>
  all_cells (fun d => all_cells (fun e => all_cells (fun f =>
  all_cells (fun g => all_cells (fun h => all_cells (fun i =>
    p a b c d e f g h i))))))))).

(** ** Invariants of the session *)

(** The callbacks of the turn cycle: from the board message of
    [startGame], or from [replaceControl] after a move, up to the callback
    that sets [acceptSelection]. *)
Definition turnCycle (k : Cont) : bool :=
  match k with
  | K_boardSent | K_turnRetracted _ | K_turnSent _ | K_controlReplaced => true
  | _ => false
  end.

(** How many turn-cycle callbacks are waiting. *)
Definition inFlight (l : list (Trigger * Cont)) : nat :=
  length (List.filter (fun tk => turnCycle (snd tk)) l).

(** The number of occupied cells. *)
Definition occupied (b : list (list Cell)) : Z :=
  Z.of_nat (length (List.filter isDefined (concat b))).

Record wf_state (st : SaveBundle) : Prop := {
  wf_board : board3x3 st;
  wf_count : possibleTurnsCount st + occupied (boardStates st) = gameSize st ^ 2;
  wf_players : (length (players st) <= 2)%nat;
  wf_lobby : started st = false -> stale st = false ->
             (length (players st) <= 1)%nat;
  wf_active : started st = true -> stale st = false ->
              length (players st) = 2%nat;
  wf_descriptor : isDefined (gameBoardMessageDescriptor st) = true ->
                  started st = true /\ isDefined (currentPlayerIndex st) = true;
  wf_lobby_board : started st = false ->
                   boardStates st = [[None; None; None];
                                     [None; None; None];
                                     [None; None; None]]
}.

Definition Inv (w : World) : Prop :=
  this_gameSize w = 3
  /\ (inFlight (pending w) <= 1)%nat
  /\ match this_state w with
     | None => pending w = [] \/ pending w = [(HostReply, K_channelCreated)]
     | Some st =>
         wf_state st
         /\ (forall t, ~ In (t, K_channelCreated) (pending w))
         /\ (acceptSelection st = true -> inFlight (pending w) = 0%nat)
         /\ (started st = false ->
             acceptSelection st = false /\ inFlight (pending w) = 0%nat)
     end.

(** ** Accepted moves *)

(** The click of [user] on [buttonId] passes every test of
    [handleButtonClick] and [handleUserTurn]: it is a move of player [p]
    on cell [n]. *)
Definition accepted (st : SaveBundle) (user : GameUser) (buttonId : jsstring)
    (n : Z) (p : PlayerIndex) : Prop :=
  parseInt buttonId = Some n
  /\ clickable st n = true
  /\ currentPlayerIndex st = Some p
  /\ (exists u, at_ (players st) (indexZ p) = Some u
                /\ user_id user = user_id u)
  /\ acceptSelection st = true
  /\ cell (boardStates st) (fst (getCoordFromIndex st n))
          (snd (getCoordFromIndex st n)) = Return None.

(** The two assignments of [handleUserTurn] that place the mark. *)
Definition marked (st : SaveBundle) (n : Z) : SaveBundle :=
  let rowIndex := fst (getCoordFromIndex st n) in
  let index := snd (getCoordFromIndex st n) in
  let row := match at_ (boardStates st) rowIndex with
             | Some row => row
             | None => []
             end in
  set_boardStates
    (<[Z.to_nat rowIndex := assign row index (currentPlayerIndex st)]>
       (boardStates st))
    (set_possibleTurnsCount (possibleTurnsCount st - 1) st).

(** ** Who moved *)

(** The step from [w] to [w'] placed a mark (the counter of free cells
    changed): the player whose turn it was. *)
Definition moved (w w' : World) : option PlayerIndex :=
  match this_state w, this_state w' with
  | Some st, Some st' =>
      if possibleTurnsCount st' =? possibleTurnsCount st then None
      else currentPlayerIndex st
  | _, _ => None
  end.

(** The players of the accepted moves of an execution, in order. *)
Fixpoint movers (ls : list Label) (w : World) : list PlayerIndex :=
  match ls with
  | [] => []
  | l :: rest =>
      match step l w with
      | Some w' =>
          match moved w w' with
          | Some p => p :: movers rest w'
          | None => movers rest w'
          end
      | None => []
      end
  end.


(** What the turn cycle knows about the player [last] of the latest
    accepted move. *)
Definition AltInv (last : option PlayerIndex) (w : World) : Prop :=
  match this_state w with
  | None => last = None
  | Some st =>
      (started st = false -> last = None)
      /\ (forall t, In (t, K_boardSent) (pending w) -> last = None)
      /\ (forall t, In (t, K_controlReplaced) (pending w) ->
          forall q, last = Some q -> currentPlayerIndex st = Some q)
      /\ (forall t k, In (t, K_turnRetracted k) (pending w) ->
          forall q, last = Some q ->
                    currentPlayerIndex st = nextPlayer (Some q))
      /\ (forall t k, In (t, K_turnSent k) (pending w) ->
          forall q, last = Some q ->
                    currentPlayerIndex st = nextPlayer (Some q))
      /\ (stale st = false -> acceptSelection st = true ->
          forall q, last = Some q ->
                    currentPlayerIndex st = nextPlayer (Some q))
  end.

(** ** Game starts of an execution *)

Global Instance Phase_eq_dec : EqDecision Phase.
Proof. solve_decision. Defined.

(** The step from [w] to [w'] takes the session from Lobby to Active. *)
Definition lobbyToActive (w w' : World) : bool :=
  match this_state w, this_state w' with
  | Some st, Some st' =>
      bool_decide (phase st = Lobby) && bool_decide (phase st' = Active)
  | _, _ => false
  end.

(** How many steps of the execution take the session from Lobby to
    Active. *)
Fixpoint starts (ls : list Label) (w : World) : nat :=
  match ls with
  | [] => 0
  | l :: rest =>
      match step l w with
      | Some w' => ((if lobbyToActive w w' then 1 else 0) + starts rest w')%nat
      | None => 0
      end
  end.

(** One join event per user, in order. *)
Definition joins (users : list GameUser) : list Label :=
  map (fun u => Deliver (JoinGameEvent u)) users.

Definition blankBoard : list (list Cell) :=
  [[None; None; None]; [None; None; None]; [None; None; None]].

(** The two private notices of [handleJoin]. *)
Definition startedText : jsstring :=
  lit "The game was already started - no new joins allowed.".

Definition finishedText : jsstring :=
  lit "The game was already finished - no new joins allowed.".

(** The turn message of [sendTurnNotification] for player [p]. *)
Definition turnMessage (st : SaveBundle) (p : GameUser) : HostRequest :=
  sendMessage (lit "<@" ++ user_id p ++ lit ">, it's your turn!")
    (channelId st)
    {| components := None; allowedMentions := Some [user_id p] |}.

(** ** A sample session *)

Definition alice : GameUser := {| user_id := lit "alice" |}.
Definition bob : GameUser := {| user_id := lit "bob" |}.

Definition boardMessage : MessageDescriptor :=
  {| md_channelId := lit "chan"; md_messageId := lit "board" |}.

Definition firstTurnMessage : MessageDescriptor :=
  {| md_channelId := lit "chan"; md_messageId := lit "turn1" |}.

(** Start-up, up to the creation of the channel. *)
Definition toLobby : list Label := [Resolve 0 (Channel (lit "chan")) P0].

(** Both players have joined, the board is shown and the first turn has
    been announced to player 0. *)
Definition toPlay : list Label :=
  toLobby
    ++ [Deliver (JoinGameEvent alice); Deliver (JoinGameEvent bob);
        Resolve 0 (Message boardMessage) P0;
        Resolve 0 (Message firstTurnMessage) P0].

(** A player joined and left again. *)
Definition toStale : list Label :=
  toLobby ++ [Deliver (JoinGameEvent alice); Deliver (LeaveGameEvent alice)].

(** The world after the execution [ls] from start-up without icons
    argument. *)
Definition after (ls : list Label) : World :=
  match run ls (boot None) with
  | Some w => w
  | None => boot None
  end.

Definition stateOf (w : World) : SaveBundle :=
  match this_state w with
  | Some st => st
  | None => freshState w []
  end.

(** Player 0 owns the top row. *)
Definition topRowBoard : SaveBundle :=
  on3x3 (freshState (constructor None) (lit "chan"))
    (Some P0) (Some P0) (Some P0) None (Some P1) (Some P1) None None None.

(** A move of [user] on cell [n] with every request answered: the control
    is replaced, the old turn message deleted and the new one sent. *)
Definition moveOf (user : GameUser) (n : Z) (turn : jsstring) : list Label :=
  [Deliver (ButtonClickGameEvent user (toString n));
   Resolve 0 Void P0; Resolve 0 Void P0;
   Resolve 0 (Message {| md_channelId := lit "chan"; md_messageId := turn |}) P0].

(** Player 0 takes the centre and player 1 is told to play. *)
Definition oneMove : list Label := toPlay ++ moveOf alice 4 (lit "turn2").

(** Then player 1 takes the top-left corner. *)
Definition twoMoves : list Label :=
  oneMove ++ [Deliver (ButtonClickGameEvent bob (lit "0"))].

(** Player 0 completes the top row against cells 3 and 4; the three
    requests of the win are answered. *)
Definition topRowGame : list Label :=
  toPlay
    ++ moveOf alice 0 (lit "turn2") ++ moveOf bob 3 (lit "turn3")
    ++ moveOf alice 1 (lit "turn4") ++ moveOf bob 4 (lit "turn5")
    ++ [Deliver (ButtonClickGameEvent alice (lit "2"));
        Resolve 0 Void P0; Resolve 0 Void P0].

(** ** Controls of a rendered board *)

(** [board[rowIndex].components[index]]. *)
Definition controlAt (board : list ActionRow) (rowIndex index : Z)
    : option Button :=
  match at_ board rowIndex with
  | Some row => at_ row index
  | None => None
  end.

(** ** Where a waiting callback comes from *)

(** The step [l] taken in the world [w] with state [st] is the one in
    which the source registers the callback [k]. *)
Definition registers (l : Label) (w : World) (st : SaveBundle) (k : Cont)
    : Prop :=
  match k with
  | K_channelCreated => False
  | K_boardSent =>
      exists u, l = Deliver (JoinGameEvent u) /\ phase st = Lobby
  | K_turnRetracted _ =>
      exists i r coin k0,
        l = Resolve i r coin
        /\ pending w !! i = Some (HostReply, k0)
        /\ (k0 = K_boardSent \/ k0 = K_controlReplaced)
  | K_turnSent _ =>
      exists i r coin k0,
        l = Resolve i r coin
        /\ pending w !! i = Some (HostReply, k0)
        /\ (k0 = K_boardSent \/ k0 = K_controlReplaced
            \/ exists k1, k0 = K_turnRetracted k1)
  | K_noticeSent =>
      exists u b,
        l = Deliver (ButtonClickGameEvent u b)
        /\ forall n p, ~ accepted st u b n p
  | K_noticeTimeout md =>
      exists i coin,
        l = Resolve i (Message md) coin
        /\ pending w !! i = Some (HostReply, K_noticeSent)
  | K_controlReplaced =>
      exists u b n p,
        l = Deliver (ButtonClickGameEvent u b)
        /\ accepted st u b n p
        /\ checkForWin (marked st n) = Return None
  | K_drawRetracted =>
      exists i coin,
        l = Resolve i Void coin
        /\ pending w !! i = Some (HostReply, K_controlReplaced)
        /\ possibleTurnsCount st = 0
  | K_winRetracted line =>
      exists u b n p,
        l = Deliver (ButtonClickGameEvent u b)
        /\ accepted st u b n p
        /\ checkForWin (marked st n) = Return (Some line)
  | K_winEdited line =>
      exists i coin,
        l = Resolve i Void coin
        /\ pending w !! i = Some (HostReply, K_winRetracted line)
  end.

(** ** The line on the board *)

(** What the session knows about the board: as long as it is not stale
    and while the callback of [replaceControl] or of the draw waits, no
    line is owned; the callbacks of a win wait only on a stale session
    whose board shows their line, the first one owned. *)
Definition WinInv (w : World) : Prop :=
  match this_state w with
  | None => True
  | Some st =>
      (stale st = false -> firstOwned st = None)
      /\ (forall t, In (t, K_controlReplaced) (pending w) ->
          firstOwned st = None)
      /\ (forall t, In (t, K_drawRetracted) (pending w) ->
          firstOwned st = None /\ possibleTurnsCount st = 0)
      /\ (forall t line,
            In (t, K_winRetracted line) (pending w)
            \/ In (t, K_winEdited line) (pending w) ->
            firstOwned st = Some line
            /\ stale st = true
            /\ isDefined (gameBoardMessageDescriptor st) = true)
  end.

(** ** The marks of each player *)

(** How many of the nine cells belong to player [p]. *)
Definition marksOf (st : SaveBundle) (p : PlayerIndex) : Z :=
  Z.of_nat (length (List.filter
                      (fun m => bool_decide (ownerOf st m = Some p))
                      (range 9))).

Definition opponent (p : PlayerIndex) : PlayerIndex :=
  match p with P0 => P1 | P1 => P0 end.

(** The player of the latest accepted move has as many marks as the
    opponent, or one more. *)
Definition Balanced (last : option PlayerIndex) (st : SaveBundle) : Prop :=
  match last with
  | None => marksOf st P0 = 0 /\ marksOf st P1 = 0
  | Some q =>
      marksOf st q = marksOf st (opponent q)
      \/ marksOf st q = marksOf st (opponent q) + 1
  end.

(** ** What the turn cycle relies on *)

(** The fields that the source reads with a non-null assertion are
    defined where it reads them: while a click can be accepted, and while
    a callback that reads them waits. *)
Definition CbInv (w : World) : Prop :=
  match this_state w with
  | None => True
  | Some st =>
      (acceptSelection st = true ->
       isDefined (lastTurnMessageId st) = true
       /\ isDefined (currentPlayerIndex st) = true
       /\ isDefined (gameBoardMessageDescriptor st) = true)
      /\ (forall t, In (t, K_controlReplaced) (pending w) ->
          isDefined (lastTurnMessageId st) = true
          /\ isDefined (currentPlayerIndex st) = true
          /\ isDefined (gameBoardMessageDescriptor st) = true)
      /\ (forall t k, In (t, K_turnRetracted k) (pending w) ->
          isDefined (currentPlayerIndex st) = true
          /\ isDefined (gameBoardMessageDescriptor st) = true)
      /\ (forall t k, In (t, K_turnSent k) (pending w) ->
          isDefined (currentPlayerIndex st) = true
          /\ isDefined (gameBoardMessageDescriptor st) = true)
  end.

(** ** More of the sample session *)

(** The control of cell 5 on [topRowBoard], which player 1 owns. *)
Definition sampleControl : Button :=
  {| style := Secondary; label := Some [11093%N]; emoji := None;
     custom_id := toString 5; disabled := true |}.

(** [topRowBoard] rendered with every control disabled, and the same with
    the top row marked. *)
Definition sampleBoard : list ActionRow :=
  match buildTicTacToe topRowBoard true with
  | Return board => board
  | Throw => []
  end.

Definition sampleWinBoard : list ActionRow :=
  match highlight topRowBoard [0; 1; 2] sampleBoard with
  | Return board => board
  | Throw => []
  end.

(** Both players have joined and the host fails the board message. *)
Definition toFrozen : list Label :=
  toLobby
    ++ [Deliver (JoinGameEvent alice); Deliver (JoinGameEvent bob); Reject 0].

(** Both players have joined; the board message is not yet answered. *)
Definition toBoard : list Label :=
  toLobby ++ [Deliver (JoinGameEvent alice); Deliver (JoinGameEvent bob)].

(** Player 0 holds cells 0 and 1, player 1 cells 3 and 4, and it is the
    turn of player 0. *)
Definition beforeWin : list Label :=
  toPlay
    ++ moveOf alice 0 (lit "turn2") ++ moveOf bob 3 (lit "turn3")
    ++ moveOf alice 1 (lit "turn4") ++ moveOf bob 4 (lit "turn5").

(** Player 0 completes the top row; then the host deletes the turn
    message. *)
Definition toWin : list Label :=
  beforeWin ++ [Deliver (ButtonClickGameEvent alice (lit "2"))].

Definition toWinShown : list Label := toWin ++ [Resolve 0 Void P0].

(** Eight moves without a line; cell 8 is free and it is the turn of
    player 0. *)
Definition beforeLast : list Label :=
  toPlay
    ++ moveOf alice 0 (lit "turn2") ++ moveOf bob 1 (lit "turn3")
    ++ moveOf alice 2 (lit "turn4") ++ moveOf bob 4 (lit "turn5")
    ++ moveOf alice 3 (lit "turn6") ++ moveOf bob 5 (lit "turn7")
    ++ moveOf alice 7 (lit "turn8") ++ moveOf bob 6 (lit "turn9").

(** The ninth move; the control of the last cell is not yet replaced. *)
Definition toLastMove : list Label :=
  beforeLast ++ [Deliver (ButtonClickGameEvent alice (lit "8"))].

(** The control is replaced and the draw waits for the deletion of the
    turn message. *)
Definition toDraw : list Label := toLastMove ++ [Resolve 0 Void P0].

(** One player waits in the lobby. *)
Definition toWaiting : list Label := toLobby ++ [Deliver (JoinGameEvent alice)].

(** A constructor argument that names one icon only: [args.split(" ")] has
    one element and [icons[1]] is [undefined]. *)
Definition oneIconArgs : option jsstring := Some (lit "X").

(** Both players have joined, the coin gave the first turn to player 1,
    and the first turn has been announced. *)
Definition toSecondPlayersTurn : list Label :=
  toLobby
    ++ [Deliver (JoinGameEvent alice); Deliver (JoinGameEvent bob);
        Resolve 0 (Message boardMessage) P1;
        Resolve 0 (Message firstTurnMessage) P0].

(** The world after [toSecondPlayersTurn] on an instance constructed with
    [oneIconArgs]. *)
Definition oneIconWorld : World :=
  match run toSecondPlayersTurn (boot oneIconArgs) with
  | Some w => w
  | None => boot oneIconArgs
  end.

(** * Properties *)

(** ** Win check *)

Lemma all_cells_true f : all_cells f = true -> forall c, f c = true.
Proof.
  unfold all_cells. intros H c.
  apply andb_true_iff in H as [H H1]. apply andb_true_iff in H as [HN H0].
  destruct c as [[|]|]; assumption.
Qed.

Lemma all_boards_true p :
  all_boards p = true -> forall a b c d e f g h i, p a b c d e f g h i = true.
Proof.
  unfold all_boards. intros H a b c d e f g h i.
  apply all_cells_true with (c := a) in H. apply all_cells_true with (c := b) in H.
  apply all_cells_true with (c := c) in H. apply all_cells_true with (c := d) in H.
  apply all_cells_true with (c := e) in H. apply all_cells_true with (c := f) in H.
  apply all_cells_true with (c := g) in H. apply all_cells_true with (c := h) in H.
  apply all_cells_true with (c := i) in H. exact H.
Qed.

Lemma scanAgrees st :
  all_boards (fun a b c d e f g h i =>
    bool_decide (checkForWin (on3x3 st a b c d e f g h i)
                 = Return (firstOwned (on3x3 st a b c d e f g h i)))) = true.
Proof. vm_compute. reflexivity. Qed.

Lemma board3x3_shape st :
  board3x3 st ->
  exists a b c d e f g h i, st = on3x3 st a b c d e f g h i.
Proof.
  intros (Hg & Hl & Hr). destruct st as [s1 s2 s3 s4 s5 s6 s7 s8 gs s10 b s12].
  simpl in *. subst gs.
  destruct b as [|r0 [|r1 [|r2 [|]]]]; try discriminate.
  apply Forall_cons in Hr as [H0 Hr]. apply Forall_cons in Hr as [H1 Hr].
  apply Forall_cons in Hr as [H2 _].
  destruct r0 as [|a [|b [|c [|]]]]; try discriminate.
  destruct r1 as [|d [|e [|f [|]]]]; try discriminate.
  destruct r2 as [|g [|h [|i [|]]]]; try discriminate.
  exists a, b, c, d, e, f, g, h, i. reflexivity.
Qed.

Lemma checkForWin_on3x3 st a b c d e f g h i :
  checkForWin (on3x3 st a b c d e f g h i)
  = Return (firstOwned (on3x3 st a b c d e f g h i)).
Proof.
  apply (proj1 (bool_decide_eq_true _)).
  exact (all_boards_true _ (scanAgrees st) a b c d e f g h i).
Qed.

Lemma checkForWin_firstOwned st :
  board3x3 st -> checkForWin st = Return (firstOwned st).
Proof.
  intros H.
  destruct (board3x3_shape st H) as (a & b & c & d & e & f & g & h & i & Heq).
  rewrite Heq. apply checkForWin_on3x3.
Qed.

Lemma fullyOwnedb_spec st line :
  line <> [] -> fullyOwnedb st line = true <-> fullyOwned st line.
Proof.
  destruct line as [|i rest]; [congruence|]. intros _. unfold fullyOwned. simpl.
  rewrite andb_true_iff, forallb_forall. split.
  - intros [Hd Hall]. destruct (ownerOf st i) as [p|] eqn:Hi; [|discriminate].
    exists p. constructor; [assumption|].
    apply List.Forall_forall. intros j Hj. apply Hall in Hj.
    apply bool_decide_eq_true in Hj. assumption.
  - intros [p Hp]. apply Forall_cons in Hp as [Hi Hrest]. rewrite Hi. split; [reflexivity|].
    intros j Hj. apply bool_decide_eq_true.
    rewrite List.Forall_forall in Hrest. apply Hrest. assumption.
Qed.

Lemma winningLines_nonempty line : In line winningLines -> line <> [].
Proof.
  unfold winningLines. simpl. intros H.
  repeat (destruct H as [<-|H]; [discriminate|]). destruct H.
Qed.

(** C1: on a 3x3 board, [checkForWin] returns the first line of the scan
    order (rows top to bottom, columns left to right, the two diagonals)
    all of whose cells one player occupies, and nothing when there is no
    such line; so it returns a line exactly when some row, column or
    diagonal is fully occupied by a single player, and the line it returns
    is such a line. *)
Theorem checkForWin_spec st :
  board3x3 st ->
  checkForWin st = Return (find (fullyOwnedb st) winningLines)
  /\ ((exists line, checkForWin st = Return (Some line))
      <-> (exists line, In line winningLines /\ fullyOwned st line))
  /\ (forall line, checkForWin st = Return (Some line) ->
        In line winningLines /\ fullyOwned st line)
  /\ (checkForWin st = Return None <->
        forall line, In line winningLines -> ~ fullyOwned st line).
Proof.
  intros H. pose proof (checkForWin_firstOwned st H) as Hc. unfold firstOwned in Hc.
  assert (Hsome : forall line, checkForWin st = Return (Some line) ->
                    In line winningLines /\ fullyOwned st line).
  { intros line Hl. rewrite Hc in Hl.
    assert (Hf : find (fullyOwnedb st) winningLines = Some line) by congruence.
    apply find_some in Hf as [Hin Hb]. split; [assumption|].
    apply fullyOwnedb_spec; [apply winningLines_nonempty|]; assumption. }
  assert (Hnone : checkForWin st = Return None <->
                    forall line, In line winningLines -> ~ fullyOwned st line).
  { rewrite Hc. split.
    - intros Hn line Hin Hown.
      assert (Hf : find (fullyOwnedb st) winningLines = None) by congruence.
      apply (find_none _ _ Hf) in Hin as Hb.
      apply fullyOwnedb_spec in Hown; [congruence|].
      apply winningLines_nonempty; assumption.
    - intros Hno. destruct (find (fullyOwnedb st) winningLines) as [l|] eqn:Hf; [|reflexivity].
      apply find_some in Hf as [Hin Hb]. exfalso. apply (Hno l Hin).
      apply fullyOwnedb_spec; [apply winningLines_nonempty|]; assumption. }
  split; [assumption|]. split; [|split; assumption]. split.
  - intros [line Hl]. exists line. apply Hsome. assumption.
  - intros (line & Hin & Hown).
    destruct (find (fullyOwnedb st) winningLines) as [l|] eqn:Hf.
    + exists l. assumption.
    + exfalso. apply (proj1 Hnone Hc line Hin Hown).
Qed.

(** ** Symbolic execution of handlers *)

Arguments checkForWin : simpl never.
Arguments buildButton : simpl never.
Arguments buildTicTacToe : simpl never.
Arguments highlight : simpl never.
Arguments parseInt : simpl never.
Arguments toString : simpl never.
Arguments lit : simpl never.
Arguments getCoordFromIndex : simpl never.
Arguments indexOf : simpl never.
Arguments splice1 : simpl never.
Arguments inFlight : simpl never.
Arguments at_ : simpl never.
Arguments assign : simpl never.
Arguments clickable : simpl never.
Arguments currentPlayer : simpl never.
Arguments iconsText : simpl never.
Arguments Inv : simpl never.
Arguments AltInv : simpl never.
Arguments moved : simpl never.
Arguments nextPlayer : simpl never.

Ltac munfold :=
  unfold exec, onEvent, handleJoin, handleLeave, handleButtonClick,
    handleUserTurn, startGame, sendTurnNotification, sendTurn, endGameDraw,
    renderWinMessage, notice, run_then, destroy, initialize, bind, ret, lift,
    getState, modify, call, await, setTimeout, console_warn, cell,
    obind, deref.

Ltac wsimpl :=
  unfold with_state, with_requests, with_pending, with_console; cbn.

Ltac break_match :=
  match goal with
  | H : ?x = _ |- context [match ?x with _ => _ end] => rewrite H
  | |- context [match ?x with _ => _ end] =>
      lazymatch x with
      | context [match _ with _ => _ end] => fail
      | _ => destruct x eqn:?
      end
  end.

(** Runs the handler in the goal [P (exec m w)], one goal per path. *)
Ltac mrun := munfold; wsimpl; repeat (break_match; wsimpl).

(** The same, with the property of the final world kept folded. *)
Ltac mrun_post :=
  match goal with
  | |- context [exec ?m ?w] =>
      pattern (exec m w);
      match goal with
      | |- ?P _ =>
          let Q := fresh "Q" in
          let HQ := fresh "HQ" in
          remember P as Q eqn:HQ; mrun; subst Q; cbv beta
      end
  end.

Ltac props :=
  repeat match goal with
    | H : (_ =? _)%nat = true |- _ => apply Nat.eqb_eq in H
    | H : (_ =? _)%nat = false |- _ => apply Nat.eqb_neq in H
    | H : (_ <? _)%nat = true |- _ => apply Nat.ltb_lt in H
    | H : (_ <? _)%nat = false |- _ => apply Nat.ltb_ge in H
    | H : (_ =? _) = true |- _ => apply Z.eqb_eq in H
    | H : (_ =? _) = false |- _ => apply Z.eqb_neq in H
    | H : negb _ = true |- _ => apply negb_true_iff in H
    | H : negb _ = false |- _ => apply negb_false_iff in H
    end.

Lemma Inv_boot args : Inv (boot args).
Proof.
  unfold boot, constructor. mrun; unfold Inv; cbn; auto.
Qed.

Lemma currentPlayer_Return st u :
  currentPlayer st = Return u ->
  exists p, currentPlayerIndex st = Some p /\ at_ (players st) (indexZ p) = Some u.
Proof.
  unfold currentPlayer, deref. destruct (currentPlayerIndex st) as [p|]; [|discriminate].
  destruct (at_ (players st) (indexZ p)) eqn:H; [|discriminate].
  intros [= ->]. eauto.
Qed.

Lemma click_summary w st user buttonId :
  this_state w = Some st ->
  let w' := exec (handleButtonClick user buttonId) w in
  this_gameSize w' = this_gameSize w
  /\ this_playerIcons w' = this_playerIcons w
  /\ ((this_state w' = Some st
       /\ (pending w' = pending w
           \/ pending w' = pending w ++ [(HostReply, K_noticeSent)])
       /\ (forall n p, ~ accepted st user buttonId n p))
      \/ (exists n p,
            accepted st user buttonId n p
            /\ ((exists line,
                   checkForWin (marked st n) = Return (Some line)
                   /\ this_state w' = Some (set_stale true (marked st n))
                   /\ pending w' = pending w ++ [(HostReply, K_winRetracted line)])
                \/ (checkForWin (marked st n) = Return None
                    /\ this_state w'
                       = Some (set_acceptSelection false (marked st n))
                    /\ (pending w' = pending w
                        \/ pending w' = pending w ++ [(HostReply, K_controlReplaced)]))
                \/ (checkForWin (marked st n) = Throw
                    /\ this_state w' = Some (marked st n)
                    /\ pending w' = pending w)))).
Proof.
  intros Hst. destruct w as [gs icons s reqs pend cons]. cbn in Hst. subst s.
  mrun.
  all: split; [reflexivity|]; split; [reflexivity|].
  all: try (left; split; [reflexivity|]; split; [auto|];
            intros n' p' (B1 & B2 & B3 & (u' & B4 & B5) & B6 & B7);
            unfold currentPlayer, cell, obind, deref in *;
            rewrite ?B3, ?B4 in *;
            repeat match goal with
              | H : parseInt _ = Some _, H' : parseInt _ = _ |- _ =>
                  rewrite H in H'; first [discriminate H' | injection H' as <-]
              | H : Some _ = Some _ |- _ => injection H as ->
              | H : Return _ = Return _ |- _ => injection H as <-
              end;
            rewrite ?Heqp in *; cbn [fst snd] in *;
            rewrite ?Heqo1, ?Heqo2 in *;
            props;
            try match goal with
              | H : bool_decide _ = false |- _ => apply bool_decide_eq_false in H
              end;
            try congruence;
            match goal with
            | H : isDefined ?c = true, H' : Return ?c = Return None |- _ =>
                injection H' as ->; discriminate H
            end).
  all: right.
  all: apply currentPlayer_Return in Heqo0 as (p & Hp & Hu).
  all: exists z, p.
  all: apply negb_false_iff, bool_decide_eq_true in Heqb0.
  all: apply negb_false_iff in Heqb1.
  all: try match goal with
           | H : isDefined ?o = false |- _ => destruct o; [discriminate H|]
           end.
  all: assert (Hacc : accepted st user buttonId z p)
         by (unfold accepted, cell, obind, deref; rewrite Heqp; cbn;
             rewrite ?Heqo1, ?Heqo2;
             split; [assumption|]; split; [assumption|]; split; [assumption|];
             split; [exists a; split; assumption|]; split; [assumption|reflexivity]).
  all: split; [exact Hacc|].
  all: unfold marked; rewrite Heqp; cbn; rewrite ?Heqo1.
  all: first
         [ left; eexists; split; [eassumption | split; reflexivity]
         | right; left; split; [assumption | split; [reflexivity | auto]]
         | right; right; split; [assumption | split; reflexivity] ].
Qed.

(** ** Placing a mark *)

Lemma at_Some {A} (l : list A) i x :
  at_ l i = Some x <-> 0 <= i /\ l !! Z.to_nat i = Some x.
Proof.
  unfold at_. destruct (i <? 0) eqn:H.
  - apply Z.ltb_lt in H. split; [discriminate|]. intros [? _]. lia.
  - apply Z.ltb_ge in H. tauto.
Qed.

Lemma at_lt {A} (l : list A) i x :
  at_ l i = Some x -> 0 <= i < Z.of_nat (length l).
Proof.
  intros H. apply at_Some in H as [H0 H]. apply lookup_lt_Some in H. lia.
Qed.

Lemma assign_in_range row i v :
  0 <= i < Z.of_nat (length row) -> assign row i v = <[Z.to_nat i := v]> row.
Proof.
  intros H. unfold assign.
  destruct (i <? 0) eqn:H0; [apply Z.ltb_lt in H0; lia|].
  destruct (Z.to_nat i <? length row)%nat eqn:H1; [reflexivity|].
  apply Nat.ltb_ge in H1. lia.
Qed.

Lemma getCoordFromIndex_3 st n :
  gameSize st = 3 -> getCoordFromIndex st n = (n / 3, n mod 3).
Proof.
  intros H. unfold getCoordFromIndex. rewrite H. cbn.
  f_equal. rewrite Z.mod_eq by lia. lia.
Qed.

Lemma board3x3_row st r row :
  board3x3 st -> at_ (boardStates st) r = Some row ->
  0 <= r < 3 /\ length row = 3%nat.
Proof.
  intros (_ & Hl & Hr) H. split.
  - apply at_lt in H. lia.
  - apply at_Some in H as [_ H]. rewrite List.Forall_forall in Hr.
    apply Hr. apply list_elem_of_In. eapply list_elem_of_lookup_2. exact H.
Qed.

Lemma ownerOf_cell st n :
  board3x3 st -> 0 <= n <= 8 ->
  cell (boardStates st) (n / 3) (n mod 3) = Return (ownerOf st n).
Proof.
  intros Hb Hn. unfold cell, ownerOf, obind, deref.
  destruct (at_ (boardStates st) (n / 3)) eqn:H; [reflexivity|].
  exfalso. destruct Hb as (_ & Hl & _). unfold at_ in H.
  assert (Hq : 0 <= n / 3 < 3) by (split; [apply Z.div_pos|apply Z.div_lt_upper_bound]; lia).
  destruct (n / 3 <? 0) eqn:H0; [apply Z.ltb_lt in H0; lia|].
  apply lookup_ge_None in H. lia.
Qed.

Lemma occupied_insert (b : list (list Cell)) r c row p :
  b !! r = Some row -> row !! c = Some None ->
  occupied (<[r := <[c := Some p]> row]> b) = occupied b + 1.
Proof.
  intros Hr Hc. unfold occupied.
  rewrite (insert_take_drop b) by (eapply lookup_lt_Some; eassumption).
  rewrite (insert_take_drop row) by (eapply lookup_lt_Some; eassumption).
  pose proof (take_drop_middle b r row Hr) as Eb.
  pose proof (take_drop_middle row c None Hc) as Er.
  set (b1 := take r b) in *. set (b2 := drop (S r) b) in *.
  set (r1 := take c row) in *. set (r2 := drop (S c) row) in *.
  clearbody b1 b2 r1 r2. clear Hr Hc. subst row. subst b.
  rewrite !concat_app. cbn [concat].
  repeat rewrite ?List.filter_app, ?List.length_app; cbn [List.filter isDefined length].
  repeat rewrite ?List.filter_app, ?List.length_app; cbn [List.filter isDefined length].
  lia.
Qed.

Lemma clickable_true st n :
  clickable st n = true <->
  stale st = false /\ 0 <= n <= 8
  /\ isDefined (gameBoardMessageDescriptor st) = true.
Proof.
  unfold clickable. rewrite !andb_true_iff, negb_true_iff, !Z.leb_le. tauto.
Qed.

Lemma marked_facts st user buttonId n p :
  board3x3 st -> accepted st user buttonId n p ->
  0 <= n <= 8
  /\ ownerOf st n = None
  /\ board3x3 (marked st n)
  /\ occupied (boardStates (marked st n)) = occupied (boardStates st) + 1
  /\ ownerOf (marked st n) n = Some p
  /\ (forall m, m <> n -> ownerOf (marked st n) m = ownerOf st m).
Proof.
  intros Hb (Hparse & Hclick & Hp & _ & _ & Hcell).
  apply clickable_true in Hclick as (_ & Hn & _).
  pose proof Hb as (Hg & Hlen & Hrows).
  unfold marked. rewrite getCoordFromIndex_3 in * by assumption. cbn [fst snd] in *.
  rewrite ownerOf_cell in Hcell by assumption.
  assert (Hown : ownerOf st n = None) by congruence.
  unfold ownerOf in Hown |- *. cbn [boardStates set_boardStates set_possibleTurnsCount].
  destruct (at_ (boardStates st) (n / 3)) as [row|] eqn:Hrow.
  2:{ exfalso. pose proof (ownerOf_cell st n Hb Hn) as Hc.
      unfold cell, obind, deref in Hc. rewrite Hrow in Hc. discriminate. }
  destruct (board3x3_row st _ _ Hb Hrow) as [Hr Hrl].
  assert (Hc : 0 <= n mod 3 < 3) by (apply Z.mod_pos_bound; lia).
  rewrite assign_in_range by lia. rewrite Hp.
  apply at_Some in Hrow as [_ Hrow].
  assert (Hcl : row !! Z.to_nat (n mod 3) = Some None).
  { destruct (at_ row (n mod 3)) as [c|] eqn:Hcc.
    - apply at_Some in Hcc as [_ Hcc]. congruence.
    - unfold at_ in Hcc. destruct (n mod 3 <? 0) eqn:H0; [apply Z.ltb_lt in H0; lia|].
      apply lookup_ge_None in Hcc. lia. }
  split; [assumption|]. split; [exact Hown|]. split; [|split; [|split]].
  - unfold board3x3. cbn. split; [assumption|]. split.
    + rewrite length_insert. assumption.
    + apply List.Forall_forall. intros x Hx. apply list_elem_of_In in Hx.
      apply list_elem_of_lookup in Hx as [i Hi].
      destruct (decide (Z.to_nat (n / 3) = i)) as [<-|Hne].
      * rewrite list_lookup_insert_eq in Hi by (eapply lookup_lt_Some; eassumption).
        injection Hi as <-. rewrite length_insert. assumption.
      * rewrite list_lookup_insert_ne in Hi by assumption.
        rewrite List.Forall_forall in Hrows. apply Hrows.
        apply list_elem_of_In. eapply list_elem_of_lookup_2. eassumption.
  - apply occupied_insert; assumption.
  - unfold at_. destruct (n / 3 <? 0) eqn:H0; [apply Z.ltb_lt in H0; lia|].
    rewrite list_lookup_insert_eq by (eapply lookup_lt_Some; eassumption).
    destruct (n mod 3 <? 0) eqn:H1; [apply Z.ltb_lt in H1; lia|].
    rewrite list_lookup_insert_eq by lia. reflexivity.
  - intros m Hm. unfold at_.
    destruct (m / 3 <? 0) eqn:H0; [reflexivity|]. apply Z.ltb_ge in H0.
    destruct (decide (Z.to_nat (n / 3) = Z.to_nat (m / 3))) as [Heq|Hne].
    + assert (Hq : n / 3 = m / 3) by lia. rewrite <- Heq.
      rewrite list_lookup_insert_eq by (eapply lookup_lt_Some; eassumption).
      rewrite Hrow.
      assert (Hmod : 0 <= m mod 3 < 3) by (apply Z.mod_pos_bound; lia).
      destruct (m mod 3 <? 0) eqn:H1; [apply Z.ltb_lt in H1; lia|].
      rewrite list_lookup_insert_ne; [reflexivity|].
      intros Hc'. apply Hm.
      rewrite (Z.div_mod m 3), (Z.div_mod n 3) by lia. lia.
    + rewrite list_lookup_insert_ne by assumption. reflexivity.
Qed.

(** ** Callbacks in flight *)

Lemma inFlight_app l1 l2 : inFlight (l1 ++ l2) = (inFlight l1 + inFlight l2)%nat.
Proof. unfold inFlight. rewrite List.filter_app, List.length_app. reflexivity. Qed.

Lemma inFlight_delete l i t k :
  l !! i = Some (t, k) ->
  inFlight l = (inFlight (delete i l) + if turnCycle k then 1 else 0)%nat.
Proof.
  intros H. rewrite <- (take_drop_middle l i _ H) at 1.
  rewrite delete_take_drop, !inFlight_app.
  change ((t, k) :: drop (S i) l) with ([(t, k)] ++ drop (S i) l).
  rewrite inFlight_app. unfold inFlight at 2. cbn.
  destruct (turnCycle k); cbn; lia.
Qed.

Lemma inFlight_zero l t k :
  inFlight l = 0%nat -> In (t, k) l -> turnCycle k = false.
Proof.
  unfold inFlight. intros H Hin.
  destruct (turnCycle k) eqn:Hk; [|reflexivity].
  assert (Hf : In (t, k) (List.filter (fun tk => turnCycle (snd tk)) l))
    by (apply List.filter_In; auto).
  destruct (List.filter _ l); [destruct Hf | discriminate].
Qed.

Lemma In_delete {A} (l : list A) i x : In x (delete i l) -> In x l.
Proof.
  intros H. apply list_elem_of_In. apply list_elem_of_In in H.
  eapply elem_of_sublist; [exact H | apply sublist_delete].
Qed.

(** ** Every step keeps the invariants *)

Lemma inFlight_nil : inFlight [] = 0%nat.
Proof. reflexivity. Qed.

Lemma inFlight_one t k : inFlight [(t, k)] = if turnCycle k then 1%nat else 0%nat.
Proof. unfold inFlight. cbn. destruct (turnCycle k); reflexivity. Qed.

Lemma moved_same w w' st st' :
  this_state w = Some st -> this_state w' = Some st' ->
  possibleTurnsCount st' = possibleTurnsCount st -> moved w w' = None.
Proof. intros H H' Hc. unfold moved. rewrite H, H', Hc, Z.eqb_refl. reflexivity. Qed.

Ltac inv_start :=
  match goal with
  | Hi : Inv ?w, Ha : AltInv _ ?w, Hs : this_state ?w = Some ?st |- _ =>
      destruct w as [gs icons s reqs pend cons]; cbn in Hs; subst s;
      destruct Hi as (Hgs & Hfl & Hwf & Hnc & Hacc & Hlob);
      unfold AltInv in Ha; cbn in Ha, Hgs, Hfl, Hnc, Hacc, Hlob;
      destruct Ha as (A1 & A2 & A3 & A4 & A4' & A5)
  end.

(** A turn-cycle callback cannot wait when none is in flight. *)
Ltac no_flight :=
  match goal with
  | H : In (_, ?k) ?l, H0 : inFlight ?l = 0%nat |- _ =>
      let E := fresh in
      pose proof (inFlight_zero _ _ _ H0 H) as E; discriminate E
  end.

Ltac split_in :=
  repeat match goal with
    | H : In _ (_ ++ _) |- _ => apply List.in_app_or in H; destruct H as [H|H]
    | H : In _ [_] |- _ => destruct H as [H|[]]; try discriminate H
    | H : In _ [] |- _ => destruct H
    | H : In _ (delete _ _) |- _ =>
        first [ exfalso; no_flight | apply In_delete in H ]
    | H : _ \/ _ |- _ => destruct H as [H|H]
    end.

Ltac fin :=
  unfold Inv, AltInv, moved, board3x3 in *; cbn; props;
  rewrite ?inFlight_app, ?inFlight_one, ?inFlight_nil in *; cbn;
  rewrite ?length_app in *; cbn [length] in *;
  rewrite ?Z.eqb_refl;
  repeat match goal with
    | |- _ /\ _ => split
    | |- wf_state _ => constructor; cbn
    | |- ~ _ => intro
    | |- _ -> _ => intro
    | |- forall _, _ => intro
    end;
  split_in;
  rewrite ?length_app in *; cbn [length] in *;
  try solve [ assumption | reflexivity | discriminate | lia | congruence
            | no_flight | eauto 4 with nocore
            | match goal with
              | H : ?x = None, H' : isDefined ?x = true |- _ =>
                  rewrite H in H'; discriminate H'
              end
            | match goal with
              | |- nextPlayer _ = nextPlayer _ => f_equal; eauto 4 with nocore
              end
            | intuition (try lia; try congruence); eauto 4 with nocore ].

Lemma join_good last w st user :
  Inv w -> AltInv last w -> this_state w = Some st ->
  Inv (exec (handleJoin user) w)
  /\ AltInv last (exec (handleJoin user) w)
  /\ moved w (exec (handleJoin user) w) = None.
Proof.
  intros Hi Ha Hs. inv_start. destruct Hwf as [Wb Wc Wp Wl Wa Wd We].
  mrun_post; fin.
Qed.

Lemma indexOf_cons y l x :
  indexOf (y :: l) x
  = if bool_decide (y = x) then 0
    else if indexOf l x =? -1 then -1 else indexOf l x + 1.
Proof. reflexivity. Qed.

Lemma indexOf_spec l x :
  (indexOf l x = -1 /\ ~ In x l)
  \/ (0 <= indexOf l x < Z.of_nat (length l)
      /\ l !! Z.to_nat (indexOf l x) = Some x
      /\ forall j, (j < Z.to_nat (indexOf l x))%nat -> l !! j <> Some x).
Proof.
  induction l as [|y l IH]; [left; split; [reflexivity|intros []]|].
  rewrite indexOf_cons. destruct (bool_decide (y = x)) eqn:Hyx.
  - apply bool_decide_eq_true in Hyx. subst y. right. cbn [length].
    split; [lia|]. split; [reflexivity|]. intros j Hj. change (Z.to_nat 0) with 0%nat in Hj. lia.
  - apply bool_decide_eq_false in Hyx. destruct IH as [[Hi Hn]|(Hr & Hl & Hf)].
    + left. rewrite Hi. cbn. split; [reflexivity|]. intros [H|H]; auto.
    + right. destruct (indexOf l x =? -1) eqn:He; [apply Z.eqb_eq in He; lia|].
      cbn [length]. split; [lia|].
      replace (Z.to_nat (indexOf l x + 1)) with (S (Z.to_nat (indexOf l x))) by lia.
      split; [exact Hl|]. intros [|j] Hj; cbn; [congruence|]. apply Hf. lia.
Qed.

Lemma splice1_length {A} (a : list A) i :
  0 <= i < Z.of_nat (length a) -> S (length (splice1 a i)) = length a.
Proof.
  intros H. unfold splice1. rewrite length_app, length_take, length_drop. lia.
Qed.

Lemma leave_good last w st user :
  Inv w -> AltInv last w -> this_state w = Some st ->
  Inv (exec (handleLeave user) w)
  /\ AltInv last (exec (handleLeave user) w)
  /\ moved w (exec (handleLeave user) w) = None.
Proof.
  intros Hi Ha Hs. inv_start. destruct Hwf as [Wb Wc Wp Wl Wa Wd We].
  destruct (indexOf_spec (map user_id (players st)) (user_id user))
    as [[Hi _]|(Hr & _)].
  - mrun_post; fin.
  - rewrite length_map in Hr. pose proof (splice1_length _ _ Hr).
    mrun_post; fin.
Qed.

Lemma nextPlayer_ne p q : Some p = nextPlayer (Some q) -> q <> p.
Proof. destruct p, q; cbv; congruence. Qed.

Lemma moved_marked w w' st x p :
  this_state w = Some st -> this_state w' = Some x ->
  possibleTurnsCount x = possibleTurnsCount st - 1 ->
  currentPlayerIndex st = Some p ->
  moved w w' = Some p.
Proof.
  intros H H' Hc Hp. unfold moved. rewrite H, H', Hc.
  destruct (possibleTurnsCount st - 1 =? possibleTurnsCount st) eqn:E;
    [apply Z.eqb_eq in E; lia | assumption].
Qed.

Lemma marked_fields st n :
  started (marked st n) = started st
  /\ stale (marked st n) = stale st
  /\ gameBoardMessageDescriptor (marked st n) = gameBoardMessageDescriptor st
  /\ currentPlayerIndex (marked st n) = currentPlayerIndex st
  /\ acceptSelection (marked st n) = acceptSelection st
  /\ players (marked st n) = players st
  /\ gameSize (marked st n) = gameSize st
  /\ possibleTurnsCount (marked st n) = possibleTurnsCount st - 1.
Proof. unfold marked. cbn. repeat split. Qed.

Lemma click_good last w st user buttonId :
  Inv w -> AltInv last w -> this_state w = Some st ->
  forall w', w' = exec (handleButtonClick user buttonId) w ->
  Inv w'
  /\ AltInv (match moved w w' with Some p => Some p | None => last end) w'
  /\ (forall p q, moved w w' = Some p -> last = Some q -> q <> p).
Proof.
  intros Hi Ha Hs w' Hw'.
  pose proof (click_summary w st user buttonId Hs) as Hsum. rewrite <- Hw' in Hsum.
  cbv zeta in Hsum. destruct Hsum as (Sg & _ & Hsum). clear Hw'.
  destruct w' as [gs' icons' s' reqs' pend' cons'].
  inv_start. cbn in Sg, Hsum. subst gs'.
  destruct Hwf as [Wb Wc Wp Wl Wa Wd We].
  destruct Hsum as [(-> & Hp & _) | (n & p & Hmove & Hsum)].
  - assert (Hm : moved {| this_gameSize := gs; this_playerIcons := icons;
                          this_state := Some st; requests := reqs;
                          pending := pend; console := cons |}
                       {| this_gameSize := gs; this_playerIcons := icons';
                          this_state := Some st; requests := reqs';
                          pending := pend'; console := cons' |} = None)
      by (eapply moved_same; reflexivity).
    rewrite Hm. destruct Hp as [-> | ->]; fin.
  - pose proof (marked_facts st user buttonId n p Wb Hmove)
      as (Hn & Hfree & Mb & Mo & _ & _).
    pose proof Hmove as (_ & Hclick & Hcp & _ & Haccept & _).
    apply clickable_true in Hclick as (Hstale & _ & Hdesc).
    destruct (Wd Hdesc) as [Hstarted _].
    specialize (Hacc Haccept).
    pose proof (checkForWin_firstOwned _ Mb) as Hwin.
    assert (Hm : forall x, s' = Some x ->
                 possibleTurnsCount x = possibleTurnsCount st - 1 ->
                 moved {| this_gameSize := gs; this_playerIcons := icons;
                          this_state := Some st; requests := reqs;
                          pending := pend; console := cons |}
                       {| this_gameSize := gs; this_playerIcons := icons';
                          this_state := s'; requests := reqs';
                          pending := pend'; console := cons' |} = Some p).
    { intros x -> Hx. eapply moved_marked; cbn; eauto. }
    assert (Hq : forall q, last = Some q -> q <> p).
    { intros q Hq. apply nextPlayer_ne. rewrite <- Hcp. apply A5; assumption. }
    pose proof (marked_fields st n) as (F1 & F2 & F3 & F4 & F5 & F6 & F7 & F8).
    set (m := marked st n) in *. clearbody m.
    destruct m as [m1 m2 m3 m4 m5 m6 m7 m8 m9 m10 m11 m12]. cbn in *. subst.
    destruct Hsum as [(line & Hl & -> & ->) | [(Hl & -> & Hp) | (Hl & _)]].
    + rewrite (Hm _ eq_refl eq_refl).
      split; [|split; [|intros p0 q [= <-]; apply Hq]].
      * fin.
      * fin.
    + rewrite (Hm _ eq_refl eq_refl).
      split; [|split; [|intros p0 q [= <-]; apply Hq]].
      * destruct Hp as [-> | ->]; fin.
      * destruct Hp as [-> | ->]; fin.
    + congruence.
Qed.

Lemma lookup_In {A} (l : list A) i x : l !! i = Some x -> In x l.
Proof. intros H. apply list_elem_of_In. eapply list_elem_of_lookup_2. exact H. Qed.

Lemma resolve_good last w st i k r coin m :
  Inv w -> AltInv last w -> this_state w = Some st ->
  pending w !! i = Some (HostReply, k) ->
  resume k r coin = Some m ->
  forall w', w' = exec m (with_pending (delete i (pending w)) w) ->
  Inv w' /\ AltInv last w' /\ moved w w' = None.
Proof.
  intros Hi Ha Hs Hk Hr w' ->. inv_start. cbn in Hk.
  pose proof (lookup_In _ _ _ Hk) as Hin.
  pose proof (inFlight_delete _ _ _ _ Hk) as Hd.
  destruct Hwf as [Wb Wc Wp Wl Wa Wd We].
  assert (Hflag : turnCycle k = true ->
                  acceptSelection st = false /\ started st = true
                  /\ inFlight (delete i pend) = 0%nat).
  { intros Ht. rewrite Ht in Hd.
    destruct (acceptSelection st); [specialize (Hacc eq_refl); lia|].
    destruct (started st); [|destruct (Hlob eq_refl); lia].
    repeat split. lia. }
  destruct k, r; try discriminate Hr; cbn in Hr; injection Hr as <-.
  all: try (exfalso; eapply Hnc; eassumption).
  all: try (destruct (Hflag eq_refl) as (Hf1 & Hf2 & Hf3)).
  all: clear Hflag; cbn [turnCycle] in Hd.
  all: assert (Hnp : isDefined (currentPlayerIndex st) = true ->
                     isDefined (nextPlayer (currentPlayerIndex st)) = true)
         by (destruct (currentPlayerIndex st); [reflexivity | discriminate]).
  all: try pose proof (A2 _ Hin) as Hlast.
  all: try pose proof (A3 _ Hin) as Hlast.
  all: try pose proof (A4 _ _ Hin) as Hlast.
  all: try pose proof (A4' _ _ Hin) as Hlast.
  all: mrun_post; fin.
Qed.

Lemma exec_uninitialised w event :
  this_state w = None -> exec (onEvent event) w = w.
Proof.
  intros H. destruct w as [gs icons s reqs pend cons]. cbn in H. subst s.
  destruct event; mrun; reflexivity.
Qed.

Lemma moved_uninitialised w w' : this_state w = None -> moved w w' = None.
Proof. intros H. unfold moved. rewrite H. reflexivity. Qed.

Lemma reload_world args w st w' :
  this_state w = Some st -> step (Reload args) w = Some w' ->
  stale st = false
  /\ w' = with_state (Some st) (constructor args).
Proof.
  intros Hs. destruct w as [gs icons s reqs pend cons]. cbn in Hs. subst s.
  cbn [step]. mrun; intros [= <-]; props; split; solve [assumption | reflexivity].
Qed.

Lemma step_good last l w w' :
  Inv w -> AltInv last w -> step l w = Some w' ->
  Inv w'
  /\ AltInv (match moved w w' with Some p => Some p | None => last end) w'
  /\ (forall p q, moved w w' = Some p -> last = Some q -> q <> p).
Proof.
  intros Hi Ha Hstep.
  assert (Hnone : forall x, Inv x /\ AltInv last x /\ moved w x = None ->
            Inv x
            /\ AltInv (match moved w x with Some p => Some p | None => last end) x
            /\ (forall p q, moved w x = Some p -> last = Some q -> q <> p)).
  { intros x (H1 & H2 & H3). rewrite H3. split; [assumption|]. split; [assumption|].
    intros p q Hp. discriminate Hp. }
  destruct (this_state w) as [st|] eqn:Hs.
  - destruct l as [event | i r coin | i | i | args]; cbn [step] in Hstep.
    + injection Hstep as <-. destruct event; cbn [onEvent].
      * apply Hnone. eapply join_good; eassumption.
      * apply Hnone. eapply leave_good; eassumption.
      * eapply click_good; try eassumption. reflexivity.
      * apply Hnone. inv_start. destruct Hwf as [Wb Wc Wp Wl Wa Wd We]. mrun_post; fin.
    + destruct (pending w !! i) as [[[|ms] k]|] eqn:Hk; try discriminate.
      destruct (resume k r coin) as [m|] eqn:Hr; [|discriminate].
      injection Hstep as <-. apply Hnone. eapply resolve_good; try eassumption. reflexivity.
    + destruct (pending w !! i) as [[[|ms] k]|] eqn:Hk; try discriminate.
      injection Hstep as <-. apply Hnone.
      pose proof (inFlight_delete _ _ _ _ Hk) as Hd.
      inv_start. destruct Hwf as [Wb Wc Wp Wl Wa Wd We]. cbn in Hk, Hd. fin.
    + destruct (pending w !! i) as [[[|ms] k]|] eqn:Hk; try discriminate.
      destruct (fire k) as [m|] eqn:Hf; [|discriminate].
      injection Hstep as <-. apply Hnone.
      pose proof (inFlight_delete _ _ _ _ Hk) as Hd.
      destruct k; try discriminate Hf. cbn in Hf. injection Hf as <-.
      inv_start. destruct Hwf as [Wb Wc Wp Wl Wa Wd We]. cbn in Hk, Hd.
      mrun_post; fin.
    + apply (reload_world _ _ _ _ Hs) in Hstep as [Hstale ->].
      apply Hnone. inv_start. destruct Hwf as [Wb Wc Wp Wl Wa Wd We].
      unfold constructor, with_state. cbn. fin.
  - apply Hnone. rewrite (moved_uninitialised _ _ Hs).
    destruct l as [event | i r coin | i | i | args]; cbn [step] in Hstep.
    + injection Hstep as <-. rewrite exec_uninitialised by assumption. auto.
    + destruct Hi as (Hgs & Hfl & Hp). rewrite Hs in Hp.
      unfold AltInv in Ha. rewrite Hs in Ha.
      destruct w as [gs icons s reqs pend cons]. cbn in *. subst s.
      destruct Hp as [-> | ->]; [destruct i; discriminate|].
      destruct i as [|i]; [|destruct i; discriminate]. cbn in Hstep.
      destruct r; try discriminate. cbn in Hstep. injection Hstep as <-.
      subst. unfold exec, freshState. wsimpl. fin.
      all: try (repeat constructor).
    + destruct Hi as (Hgs & Hfl & Hp). rewrite Hs in Hp.
      unfold AltInv in Ha. rewrite Hs in Ha.
      destruct w as [gs icons s reqs pend cons]. cbn in *. subst s.
      destruct Hp as [-> | ->]; [destruct i; discriminate|].
      destruct i as [|i]; [|destruct i; discriminate]. cbn in Hstep.
      injection Hstep as <-. fin.
    + destruct Hi as (Hgs & Hfl & Hp). rewrite Hs in Hp.
      destruct w as [gs icons s reqs pend cons]. cbn in *. subst s.
      destruct Hp as [-> | ->]; [destruct i; discriminate|].
      destruct i as [|i]; [|destruct i; discriminate]. discriminate Hstep.
    + destruct w as [gs icons s reqs pend cons]. cbn in *. subst s.
      discriminate Hstep.
Qed.

(** ** What a step can change *)

Ltac ffin :=
  cbn; props;
  repeat match goal with
    | |- _ /\ _ => split
    | |- _ -> _ => intro
    end;
  rewrite ?length_app in *; cbn [length] in *;
  try solve [ reflexivity | assumption | congruence | lia
            | exfalso;
              match goal with
              | H : forall _, _ <> _ |- _ => eapply H; reflexivity
              | H : forall _ _, _ <> _ |- _ => eapply H; reflexivity
              end
            | eauto 8 with nocore ].

Lemma step_frame l w w' st :
  Inv w -> this_state w = Some st -> step l w = Some w' ->
  exists st',
    this_state w' = Some st'
    /\ gameSize st' = gameSize st
    /\ (started st = true -> started st' = true)
    /\ (stale st = true -> stale st' = true)
    /\ ((forall u b, l <> Deliver (ButtonClickGameEvent u b)) ->
        boardStates st' = boardStates st
        /\ possibleTurnsCount st' = possibleTurnsCount st)
    /\ ((forall u, l <> Deliver (JoinGameEvent u)) ->
        (length (players st') <= length (players st))%nat)
    /\ (acceptSelection st = false -> acceptSelection st' = true ->
        exists i md coin k,
          l = Resolve i (Message md) coin
          /\ pending w !! i = Some (HostReply, K_turnSent k))
    /\ playerIcons st' = playerIcons st.
Proof.
  intros Hi Hs Hstep.
  destruct l as [event | i r coin | i | i | args]; cbn [step] in Hstep.
  - injection Hstep as <-. destruct event as [u|u|u b|]; cbn [onEvent].
    + destruct w as [gs icons s reqs pend cons]. cbn in Hs. subst s.
      mrun_post.
      all: eexists; (split; [reflexivity|]); ffin.
    + destruct w as [gs icons s reqs pend cons]. cbn in Hs. subst s.
      destruct (indexOf_spec (map user_id (players st)) (user_id u))
        as [[Hx _]|(Hr & _)].
      * mrun_post.
        all: eexists; (split; [reflexivity|]); ffin.
      * rewrite length_map in Hr. pose proof (splice1_length _ _ Hr).
        mrun_post.
        all: eexists; (split; [reflexivity|]); ffin.
    + pose proof (click_summary w st u b Hs) as Hsum. cbv zeta in Hsum.
      destruct Hsum as (_ & _ & [(Hst & _ & _) | (n & p & Hmove & Hsum)]).
      * exists st. split; [assumption|]. ffin.
      * pose proof (marked_fields st n) as (F1 & F2 & F3 & F4 & F5 & F6 & F7 & F8).
        destruct Hmove as (_ & _ & _ & _ & Haccept & _).
        destruct Hsum as [(line & _ & Hst & _) | [(_ & Hst & _) | (_ & Hst & _)]];
          eexists; (split; [exact Hst|]); ffin.
    + exists st. split; [assumption|]. ffin.
  - destruct (pending w !! i) as [[[|ms] k]|] eqn:Hk; try discriminate.
    destruct (resume k r coin) as [m|] eqn:Hr; [|discriminate].
    injection Hstep as <-.
    destruct Hi as (_ & _ & Hi). rewrite Hs in Hi. destruct Hi as (_ & Hnc & _).
    pose proof (lookup_In _ _ _ Hk) as Hin.
    destruct w as [gs icons s reqs pend cons]. cbn in Hs, Hk, Hnc, Hin. subst s.
    destruct k, r; try discriminate Hr; cbn in Hr; injection Hr as <-.
    all: try (exfalso; eapply Hnc; eassumption).
    all: mrun_post.
    all: eexists; (split; [reflexivity|]); ffin.
    do 4 eexists. split; [reflexivity | eassumption].
  - destruct (pending w !! i) as [[[|ms] k]|] eqn:Hk; try discriminate.
    injection Hstep as <-. exists st. split; [assumption|]. ffin.
  - destruct (pending w !! i) as [[[|ms] k]|] eqn:Hk; try discriminate.
    destruct (fire k) as [m|] eqn:Hf; [|discriminate].
    injection Hstep as <-.
    destruct k; try discriminate Hf. cbn in Hf. injection Hf as <-.
    destruct w as [gs icons s reqs pend cons]. cbn in Hs. subst s.
    mrun_post.
    all: eexists; (split; [reflexivity|]); ffin.
  - apply (reload_world _ _ _ _ Hs) in Hstep as [Hstale ->].
    exists st. split; [reflexivity|]. ffin.
Qed.

(** ** Reachable worlds *)

Lemma AltInv_boot args : AltInv None (boot args).
Proof. unfold boot, constructor. mrun; reflexivity. Qed.

Lemma reachable_Inv args w : reachable args w -> Inv w.
Proof.
  induction 1 as [|w l w' _ IH Hstep]; [apply Inv_boot|].
  destruct (this_state w) as [st|] eqn:Hs.
  - assert (Ha : AltInv None w).
    { unfold AltInv. rewrite Hs.
      repeat split; intros; try reflexivity; discriminate. }
    eapply step_good; eassumption.
  - eapply (step_good None); try eassumption. unfold AltInv. rewrite Hs. reflexivity.
Qed.

Lemma run_reachable args ls : forall w w',
  reachable args w -> run ls w = Some w' -> reachable args w'.
Proof.
  induction ls as [|l ls IH]; intros w w' Hr Hrun; cbn in Hrun.
  - injection Hrun as <-. assumption.
  - destruct (step l w) as [w1|] eqn:Hs; [|discriminate].
    eapply IH; [|eassumption]. eapply reach_step; eassumption.
Qed.

Lemma occupied_le st : board3x3 st -> 0 <= occupied (boardStates st) <= 9.
Proof.
  intros H. destruct (board3x3_shape st H) as (a & b & c & d & e & f & g & h & i & Heq).
  rewrite Heq. unfold occupied. cbn [boardStates on3x3 concat app].
  pose proof (List.filter_length_le isDefined [a; b; c; d; e; f; g; h; i]) as Hl.
  cbn [length] in Hl. lia.
Qed.

Lemma reachable_wf args w st :
  reachable args w -> this_state w = Some st -> wf_state st.
Proof.
  intros Hr Hs. apply reachable_Inv in Hr as (_ & _ & Hi). rewrite Hs in Hi. tauto.
Qed.

(** ** Selections on a stale session *)

(** C2: once [stale] is set, a button click changes nothing: the handler
    returns with the same state (cells, counter, current player and
    [acceptSelection] included), sends no request and registers no
    callback. *)
Theorem stale_click_noop w st user buttonId :
  this_state w = Some st -> stale st = true ->
  handleButtonClick user buttonId w = (Return tt, w)
  /\ step (Deliver (ButtonClickGameEvent user buttonId)) w = Some w.
Proof.
  intros Hs Hstale.
  assert (H : handleButtonClick user buttonId w = (Return tt, w)).
  { destruct w as [gs icons s reqs pend cons]. cbn in Hs. subst s.
    unfold handleButtonClick, bind, getState, ret, deref, clickable. cbn.
    rewrite Hstale. cbn. destruct (parseInt buttonId); reflexivity. }
  split; [exact H|]. cbn [step onEvent]. unfold exec. rewrite H. reflexivity.
Qed.

(** ** Selections that name no cell *)

(** C10: a click whose [buttonId] does not parse to an integer between 0
    and 8 ([NaN] included) changes no field of the session and sends
    nothing to the host; on an initialised session the handler returns
    normally. *)
Theorem unparsable_click_noop w user buttonId :
  ~ (exists n, parseInt buttonId = Some n /\ 0 <= n <= 8) ->
  exec (handleButtonClick user buttonId) w = w
  /\ (forall st, this_state w = Some st ->
        handleButtonClick user buttonId w = (Return tt, w)).
Proof.
  intros Hno.
  assert (H : forall st n, parseInt buttonId = Some n -> clickable st n = false).
  { intros st n Hp. destruct (clickable st n) eqn:Hc; [|reflexivity].
    apply clickable_true in Hc as (_ & Hn & _). exfalso. apply Hno. eauto. }
  destruct w as [gs icons [st|] reqs pend cons].
  - assert (Hr : handleButtonClick user buttonId
                   {| this_gameSize := gs; this_playerIcons := icons;
                      this_state := Some st; requests := reqs;
                      pending := pend; console := cons |}
                 = (Return tt,
                    {| this_gameSize := gs; this_playerIcons := icons;
                       this_state := Some st; requests := reqs;
                       pending := pend; console := cons |})).
    { unfold handleButtonClick, bind, getState, ret, deref. cbn.
      destruct (parseInt buttonId) as [n|] eqn:Hp; [|reflexivity].
      rewrite (H st n eq_refl). reflexivity. }
    split.
    + unfold exec. rewrite Hr. reflexivity.
    + intros st' [= <-]. exact Hr.
  - split; [reflexivity | discriminate].
Qed.

(** An identity that starts with neither white space, a sign nor a
    decimal digit parses to [NaN]. *)
Lemma parseInt_NaN c s :
  isWhiteSpace c = false -> c <> 45%N -> c <> 43%N ->
  (c < 48 \/ 57 < c)%N ->
  parseInt (c :: s) = None.
Proof.
  intros Hw Hm Hp Hd. unfold parseInt. cbn [trimStart]. rewrite Hw.
  assert (Hdig : forall r, parseDigits 10 (c :: r) None = None).
  { intros r. cbn [parseDigits]. unfold digitValue.
    destruct ((48 <=? c)%N && (c <=? 57)%N) eqn:H1.
    { apply andb_true_iff in H1 as [H1 H2].
      apply N.leb_le in H1. apply N.leb_le in H2. lia. }
    destruct ((97 <=? c)%N && (c <=? 122)%N) eqn:H2.
    { apply andb_true_iff in H2 as [H2 H3]. apply N.leb_le in H2.
      destruct (Z.of_N c - 97 + 10 <? 10) eqn:E; [apply Z.ltb_lt in E; lia|reflexivity]. }
    destruct ((65 <=? c)%N && (c <=? 90)%N) eqn:H3; [|reflexivity].
    apply andb_true_iff in H3 as [H3 H4]. apply N.leb_le in H3.
    destruct (Z.of_N c - 65 + 10 <? 10) eqn:E; [apply Z.ltb_lt in E; lia|reflexivity]. }
  destruct c as [|p]; [cbn -[parseDigits]; rewrite Hdig; reflexivity|].
  do 7 (try destruct p as [p|p|]);
    first [ exfalso; apply Hm; reflexivity
          | exfalso; apply Hp; reflexivity
          | exfalso; lia
          | cbn -[parseDigits]; rewrite Hdig; reflexivity ].
Qed.

(** ** Persistence *)

(** C8: [destroy] changes nothing and resolves with the bundle exactly
    when the session is not stale (with no value when it is stale);
    [initialize] on the bundle of a session that is not stale installs that
    very bundle, field for field, on any instance, and sends nothing. *)
Theorem destroy_initialize_roundtrip w st :
  this_state w = Some st ->
  (exists r, destroy w = (Return r, w)
             /\ (r = Some st <-> phase st <> Stale)
             /\ (r = None <-> phase st = Stale))
  /\ (phase st <> Stale ->
      forall w0,
        destroy w = (Return (Some st), w)
        /\ initialize (Some st) w0 = (Return tt, with_state (Some st) w0)
        /\ this_state (exec (initialize (Some st)) w0) = this_state w
        /\ requests (exec (initialize (Some st)) w0) = requests w0
        /\ pending (exec (initialize (Some st)) w0) = pending w0).
Proof.
  intros Hs. destruct w as [gs icons s reqs pend cons]. cbn in Hs. subst s.
  unfold destroy, bind, getState, ret, deref, phase. cbn.
  destruct (stale st) eqn:Hstale; cbn.
  - split; [|congruence]. exists None. repeat split; congruence.
  - split.
    + exists (Some st). repeat split; try congruence;
        destruct (started st); congruence.
    + intros _ w0. repeat split.
Qed.

(** ** Leaving *)

(** Membership is by id: [indexOf] runs over the ids of the players. *)
Lemma indexOf_absent l x : ~ In x l -> indexOf l x = -1.
Proof.
  intros H. destruct (indexOf_spec l x) as [[Hi _]|(Hr & Hl & _)]; [assumption|].
  exfalso. apply H. eapply lookup_In. exact Hl.
Qed.

Lemma splice1_split {A} (a : list A) i x :
  a !! i = Some x ->
  a = take i a ++ x :: drop (S i) a
  /\ splice1 a (Z.of_nat i) = take i a ++ drop (S i) a.
Proof.
  intros H. split; [symmetry; apply take_drop_middle; assumption|].
  unfold splice1. rewrite Nat2Z.id. reflexivity.
Qed.

(** C5: [handleLeave] does nothing for a user who is not among the
    players.  For a player, the first entry with that id is removed and
    [stale] is set in every case; if a player remains, a removal request
    for the departing user is sent, preceded by the stale notice with the
    single Leave control when the session was not yet stale; if nobody
    remains, nothing is sent. *)
Theorem handleLeave_spec w st user :
  this_state w = Some st ->
  (~ In (user_id user) (map user_id (players st)) ->
     handleLeave user w = (Return tt, w))
  /\ (In (user_id user) (map user_id (players st)) ->
      exists before u after,
        players st = before ++ u :: after
        /\ user_id u = user_id user
        /\ ~ In (user_id user) (map user_id before)
        /\ let st' := set_stale true (set_players (before ++ after) st) in
           let notice :=
             sendMessage
               (lit "User <@" ++ user_id user ++ lit "> has left the game."
                  ++ NL ++ lit "This game session become stale." ++ NL
                  ++ lit "Leave the session.")
               (channelId st)
               {| components := Some [[LEAVE_BUTTON]];
                  allowedMentions := None |} in
           let removal := removeUserFromChannel (user_id user) (channelId st) in
           phase st' = Stale
           /\ (~ In (user_id user) (map user_id after) ->
               ~ In (user_id user) (map user_id (players st')))
           /\ handleLeave user w
              = (Return tt,
                 with_requests
                   (requests w
                      ++ match before ++ after with
                         | [] => []
                         | _ :: _ =>
                             if stale st then [removal] else [notice; removal]
                         end)
                   (with_state (Some st') w))).
Proof.
  intros Hs. destruct w as [gs icons s reqs pend cons]. cbn in Hs. subst s.
  split.
  - intros Hno. apply indexOf_absent in Hno.
    unfold handleLeave, bind, getState, ret, deref. cbn. rewrite Hno. reflexivity.
  - intros Hin.
    destruct (indexOf_spec (map user_id (players st)) (user_id user))
      as [[_ Hno]|(Hr & Hl & Hfirst)]; [contradiction|].
    set (i := indexOf (map user_id (players st)) (user_id user)) in *.
    rewrite list_lookup_fmap in Hl.
    destruct (players st !! Z.to_nat i) as [u|] eqn:Hu; [|discriminate].
    cbn in Hl. injection Hl as Hid.
    destruct (splice1_split _ _ _ Hu) as [Hsplit Hsp].
    rewrite Z2Nat.id in Hsp by lia.
    exists (take (Z.to_nat i) (players st)), u, (drop (S (Z.to_nat i)) (players st)).
    split; [exact Hsplit|]. split; [exact Hid|]. split.
    { intros Hb. apply list_elem_of_In in Hb.
      apply list_elem_of_lookup in Hb as [j Hj].
      rewrite list_lookup_fmap in Hj.
      destruct (take (Z.to_nat i) (players st) !! j) as [v|] eqn:Hv; [|discriminate].
      pose proof (lookup_lt_Some _ _ _ Hv) as Hlt. rewrite length_take in Hlt.
      rewrite lookup_take_lt in Hv by lia. cbn in Hj.
      apply (Hfirst j); [lia|]. rewrite list_lookup_fmap, Hv. exact Hj. }
    cbv zeta. split; [reflexivity|]. split.
    { cbn. rewrite map_app, List.in_app_iff. intros Ha [Hb|Hb].
      - revert Hb. clear -Hfirst. intros Hb. apply list_elem_of_In in Hb.
        apply list_elem_of_lookup in Hb as [j Hj].
        rewrite list_lookup_fmap in Hj.
        destruct (take (Z.to_nat i) (players st) !! j) as [v|] eqn:Hv; [|discriminate].
        pose proof (lookup_lt_Some _ _ _ Hv) as Hlt. rewrite length_take in Hlt.
        rewrite lookup_take_lt in Hv by lia. cbn in Hj.
        apply (Hfirst j); [lia|]. rewrite list_lookup_fmap, Hv. exact Hj.
      - contradiction. }
    unfold handleLeave, bind, getState, ret, deref, modify, call. cbn.
    fold i. destruct (i =? -1) eqn:Hi; [apply Z.eqb_eq in Hi; lia|]. cbn.
    rewrite Hsp.
    destruct (take (Z.to_nat i) (players st) ++ drop (S (Z.to_nat i)) (players st))
      as [|x rest] eqn:Hrest; cbn.
    + unfold with_state, with_requests. cbn. rewrite List.app_nil_r. reflexivity.
    + destruct (stale st); cbn; unfold with_state, with_requests; cbn;
        rewrite <- ?List.app_assoc; reflexivity.
Qed.

(** ** Selections that are not moves *)

Lemma reachable_currentPlayer args w st n :
  reachable args w -> this_state w = Some st -> clickable st n = true ->
  exists p u, currentPlayerIndex st = Some p
              /\ at_ (players st) (indexZ p) = Some u
              /\ currentPlayer st = Return u.
Proof.
  intros Hr Hs Hc. pose proof (reachable_wf _ _ _ Hr Hs) as [Wb Wc Wp Wl Wa Wd We].
  apply clickable_true in Hc as (Hstale & _ & Hd).
  destruct (Wd Hd) as [Hstarted Hcp]. specialize (Wa Hstarted Hstale).
  destruct (currentPlayerIndex st) as [p|] eqn:Hp; [|discriminate].
  destruct (players st) as [|u0 [|u1 [|]]] eqn:Hpl; try discriminate.
  unfold currentPlayer. rewrite Hp, Hpl.
  destruct p; [exists P0, u0 | exists P1, u1]; repeat split.
Qed.

(** C3: on a reachable session, a click is looked at only if the session
    is not stale, the id is a cell number below [gameSize]^2 and the board
    message exists; otherwise nothing happens.  When it is looked at: a
    user who is not the current player gets a notice; the current player
    gets another notice while [acceptSelection] is false; and the current
    player's click on an occupied cell is only logged.  In all three cases
    the session state is unchanged.  The notices are transient: once sent,
    a timer of 3000 ms deletes them. *)
Theorem click_guards args w st user buttonId :
  reachable args w -> this_state w = Some st ->
  let considered :=
    phase st <> Stale
    /\ (exists n, parseInt buttonId = Some n /\ 0 <= n < gameSize st ^ 2)
    /\ gameBoardMessageDescriptor st <> None in
  (~ considered -> handleButtonClick user buttonId w = (Return tt, w))
  /\ (considered ->
      exists n p,
        parseInt buttonId = Some n
        /\ currentPlayer st = Return p
        /\ (user_id user <> user_id p ->
            handleButtonClick user buttonId w
            = (Return tt,
               with_pending (pending w ++ [(HostReply, K_noticeSent)])
                 (with_requests
                    (requests w
                       ++ [sendMessage
                             (lit "<@" ++ user_id user
                                ++ lit ">, it's not your turn now.")
                             (channelId st) noOptions])
                    w)))
        /\ (user_id user = user_id p -> acceptSelection st = false ->
            handleButtonClick user buttonId w
            = (Return tt,
               with_pending (pending w ++ [(HostReply, K_noticeSent)])
                 (with_requests
                    (requests w
                       ++ [sendMessage
                             (lit "<@" ++ user_id user
                                ++ lit ">, you already made your choise.")
                             (channelId st) noOptions])
                    w)))
        /\ (user_id user = user_id p -> acceptSelection st = true ->
            forall owner,
              cell (boardStates st) (fst (getCoordFromIndex st n))
                   (snd (getCoordFromIndex st n)) = Return (Some owner) ->
              handleButtonClick user buttonId w
              = (Return tt,
                 with_console
                   (console w
                      ++ [lit "Wrong turn - that cell was already selected."])
                   w)))
  /\ (forall md coin,
        resume K_noticeSent (Message md) coin
        = Some (setTimeout (K_noticeTimeout md) 3000)
        /\ fire (K_noticeTimeout md)
           = Some (call (deleteMessage (md_channelId md)
                           (Some (md_messageId md))))).
Proof.
  intros Hr Hs considered.
  pose proof (reachable_wf _ _ _ Hr Hs) as [Wb _ _ _ _ _ _].
  pose proof Wb as (Hg & _).
  assert (Hcons : forall n, parseInt buttonId = Some n ->
            clickable st n = true <-> considered).
  { intros n Hp. rewrite clickable_true. unfold considered, phase. rewrite Hg, Hp.
    change (3 ^ 2) with 9. split.
    - intros (H1 & H2 & H3). rewrite H1. split; [destruct (started st); discriminate|].
      split; [exists n; split; [reflexivity | lia]|].
      destruct (gameBoardMessageDescriptor st); [discriminate | discriminate H3].
    - intros (H1 & (m & [= <-] & H2) & H3). split; [|split].
      + destruct (stale st); [congruence | reflexivity].
      + lia.
      + destruct (gameBoardMessageDescriptor st); [reflexivity | congruence]. }
  destruct w as [gs icons s reqs pend cons]. cbn in Hs. subst s.
  split; [|split].
  - intros Hno. unfold handleButtonClick, bind, getState, ret, deref. cbn.
    destruct (parseInt buttonId) as [n|] eqn:Hp; [|reflexivity].
    destruct (clickable st n) eqn:Hc; [|reflexivity].
    exfalso. apply Hno. apply (Hcons n eq_refl). exact Hc.
  - intros Hyes. pose proof Hyes as (_ & (n & Hp & _) & _).
    apply (Hcons n Hp) in Hyes.
    destruct (reachable_currentPlayer _ _ _ n Hr eq_refl Hyes) as (i & p & Hi & Hu & Hcp).
    exists n, p. split; [exact Hp|]. split; [exact Hcp|].
    unfold handleButtonClick, bind, getState, ret, deref, lift. cbn.
    rewrite Hp, Hyes, Hcp. split; [|split].
    + intros Hne. rewrite bool_decide_eq_false_2 by assumption. reflexivity.
    + intros Heq Ha. rewrite bool_decide_eq_true_2 by assumption. cbn.
      rewrite Ha. reflexivity.
    + intros Heq Ha owner Hcell. rewrite bool_decide_eq_true_2 by assumption. cbn.
      rewrite Ha. cbn. unfold handleUserTurn, bind, getState, lift, deref. cbn.
      destruct (getCoordFromIndex st n) as [r c]. cbn [fst snd] in Hcell.
      rewrite Hcell. reflexivity.
  - intros md coin. split; reflexivity.
Qed.

(** ** The counter of free cells *)

Lemma ownerOf_board st st' :
  boardStates st' = boardStates st -> forall m, ownerOf st' m = ownerOf st m.
Proof. intros H m. unfold ownerOf. rewrite H. reflexivity. Qed.

Lemma step_board w st l w' st' :
  Inv w -> wf_state st -> this_state w = Some st ->
  step l w = Some w' -> this_state w' = Some st' ->
  (boardStates st' = boardStates st
   /\ possibleTurnsCount st' = possibleTurnsCount st
   /\ (forall user buttonId n p,
         l = Deliver (ButtonClickGameEvent user buttonId) ->
         ~ accepted st user buttonId n p))
  \/ (exists user buttonId n p,
        l = Deliver (ButtonClickGameEvent user buttonId)
        /\ accepted st user buttonId n p
        /\ currentPlayerIndex st = Some p
        /\ possibleTurnsCount st' = possibleTurnsCount st - 1
        /\ ownerOf st n = None
        /\ ownerOf st' n = Some p
        /\ (forall m, m <> n -> ownerOf st' m = ownerOf st m)).
Proof.
  intros Hi [Wb Wc Wp Wl Wa Wd We] Hs Hstep Hs'.
  assert (Hother : (forall u b, l <> Deliver (ButtonClickGameEvent u b)) ->
            boardStates st' = boardStates st
            /\ possibleTurnsCount st' = possibleTurnsCount st
            /\ (forall user buttonId n p,
                  l = Deliver (ButtonClickGameEvent user buttonId) ->
                  ~ accepted st user buttonId n p)).
  { intros Hl. destruct (step_frame _ _ _ _ Hi Hs Hstep)
      as (x & Hx & _ & _ & _ & Hb & _).
    rewrite Hs' in Hx. injection Hx as <-. destruct (Hb Hl) as [H1 H2].
    repeat split; try assumption. intros u b n p ->. exfalso. eapply Hl. reflexivity. }
  destruct l as [[u|u|u b|] | i r coin | i | i | a];
    try (left; apply Hother; intros; discriminate).
  cbn [step onEvent] in Hstep. injection Hstep as <-.
  pose proof (click_summary w st u b Hs) as Hsum. cbv zeta in Hsum.
  destruct Hsum as (_ & _ & [(Hst & _ & Hno) | (n & p & Hmove & Hsum)]).
  - left. rewrite Hs' in Hst. injection Hst as ->.
    repeat split. intros user buttonId n p [= -> ->]. apply Hno.
  - right. exists u, b, n, p. split; [reflexivity|]. split; [exact Hmove|].
    pose proof (marked_facts st u b n p Wb Hmove) as (_ & Hfree & _ & _ & Hown & Hrest).
    pose proof (marked_fields st n) as (_ & _ & _ & _ & _ & _ & _ & Hcount).
    pose proof Hmove as (_ & _ & Hcp & _).
    split; [exact Hcp|].
    assert (Hst' : boardStates st' = boardStates (marked st n)
                   /\ possibleTurnsCount st' = possibleTurnsCount (marked st n)).
    { destruct Hsum as [(line & _ & Hst & _) | [(_ & Hst & _) | (_ & Hst & _)]];
        rewrite Hs' in Hst; injection Hst as ->; split; reflexivity. }
    destruct Hst' as [Hb Hc].
    split; [lia|]. split; [exact Hfree|]. split.
    + rewrite (ownerOf_board _ _ Hb). exact Hown.
    + intros m Hm. rewrite (ownerOf_board _ _ Hb). apply Hrest. exact Hm.
Qed.

(** C4: on every reachable session the counter of free cells plus the
    number of occupied cells is [gameSize]^2 and the counter is not
    negative; a step either leaves board and counter alone and is no
    accepted move, or it is an accepted move, which lowers the counter by
    exactly one and gives exactly one cell, empty before, to the current
    player. *)
Theorem remaining_cells_invariant args w st :
  reachable args w -> this_state w = Some st ->
  possibleTurnsCount st + occupied (boardStates st) = gameSize st ^ 2
  /\ 0 <= possibleTurnsCount st
  /\ (forall l w' st',
        step l w = Some w' -> this_state w' = Some st' ->
        (boardStates st' = boardStates st
         /\ possibleTurnsCount st' = possibleTurnsCount st
         /\ (forall user buttonId n p,
               l = Deliver (ButtonClickGameEvent user buttonId) ->
               ~ accepted st user buttonId n p))
        \/ (exists user buttonId n p,
              l = Deliver (ButtonClickGameEvent user buttonId)
              /\ accepted st user buttonId n p
              /\ currentPlayerIndex st = Some p
              /\ possibleTurnsCount st' = possibleTurnsCount st - 1
              /\ ownerOf st n = None
              /\ ownerOf st' n = Some p
              /\ (forall m, m <> n -> ownerOf st' m = ownerOf st m))).
Proof.
  intros Hr Hs. pose proof (reachable_Inv _ _ Hr) as Hi.
  pose proof (reachable_wf _ _ _ Hr Hs) as Hwf.
  pose proof Hwf as [Wb Wc Wp Wl Wa Wd We].
  split; [exact Wc|]. split.
  { pose proof (occupied_le st Wb). destruct Wb as (Hg & _). rewrite Hg in Wc.
    change (3 ^ 2) with 9 in Wc. lia. }
  intros l w' st' Hstep Hs'. exact (step_board w st l w' st' Hi Hwf Hs Hstep Hs').
Qed.

(** ** Joining *)

Lemma phase_Lobby st : phase st = Lobby <-> started st = false /\ stale st = false.
Proof. unfold phase. destruct (stale st), (started st); intuition congruence. Qed.

Lemma join_rejected w st u :
  this_state w = Some st -> phase st <> Lobby ->
  handleJoin u w
  = (Return tt,
     with_requests
       (requests w
          ++ [sendPrivateMessage (user_id u)
                (if started st then startedText else finishedText)])
       w).
Proof.
  intros Hs Hp. destruct w as [gs icons s reqs pend cons]. cbn in Hs. subst s.
  unfold handleJoin, bind, getState, deref, call. cbn.
  destruct (started st) eqn:H1; [reflexivity|].
  destruct (stale st) eqn:H2; [reflexivity|].
  exfalso. apply Hp. apply phase_Lobby. auto.
Qed.

Lemma rejected_joins later : forall w st,
  this_state w = Some st -> started st = true ->
  run (joins later) w
  = Some (with_requests
            (requests w
               ++ map (fun u => sendPrivateMessage (user_id u) startedText) later)
            w)
  /\ starts (joins later) w = 0%nat.
Proof.
  induction later as [|u later IH]; intros w st Hs Hst.
  - cbn [joins map run starts]. rewrite List.app_nil_r. destruct w; split; reflexivity.
  - assert (Hp : phase st <> Lobby)
      by (rewrite phase_Lobby; intros [H _]; congruence).
    cbn [joins map run starts step onEvent]. unfold exec.
    rewrite (join_rejected w st u Hs Hp), Hst. cbn [snd].
    set (w1 := with_requests _ w).
    assert (Hs1 : this_state w1 = Some st) by (destruct w; exact Hs).
    destruct (IH w1 st Hs1 Hst) as [Hrun Hstarts]. fold (joins later).
    rewrite Hrun, Hstarts. split.
    + destruct w. unfold w1, with_requests. cbn. rewrite <- List.app_assoc. reflexivity.
    + unfold lobbyToActive. rewrite Hs, Hs1.
      rewrite bool_decide_eq_false_2 by assumption. reflexivity.
Qed.

Lemma blank_board_renders st :
  gameSize st = 3 -> boardStates st = blankBoard ->
  exists board, buildTicTacToe st false = Return board.
Proof.
  intros Hg Hb. unfold buildTicTacToe, buildButton, getCellIcon, cell. rewrite Hg, Hb.
  cbn. eexists. reflexivity.
Qed.

Lemma phase_monotone l w w' st st' :
  Inv w -> this_state w = Some st -> step l w = Some w' ->
  this_state w' = Some st' -> phase st <> Lobby -> phase st' <> Lobby.
Proof.
  intros Hi Hs Hstep Hs' Hp.
  destruct (step_frame _ _ _ _ Hi Hs Hstep) as (x & Hx & _ & H1 & H2 & _).
  rewrite Hs' in Hx. injection Hx as <-. rewrite phase_Lobby in *.
  intros [Ha Hb]. apply Hp.
  destruct (started st); [specialize (H1 eq_refl); congruence|].
  destruct (stale st); [specialize (H2 eq_refl); congruence|]. auto.
Qed.

Lemma starts_le_1 ls : forall w,
  Inv w ->
  (starts ls w <= 1)%nat
  /\ (forall st, this_state w = Some st -> phase st <> Lobby ->
        starts ls w = 0%nat).
Proof.
  induction ls as [|l ls IH]; intros w Hi; [cbn; split; [lia | reflexivity]|].
  cbn [starts]. destruct (step l w) as [w'|] eqn:Hstep; [|split; [lia | reflexivity]].
  assert (Hi' : Inv w').
  { eapply (step_good None); try eassumption.
    unfold AltInv. destruct (this_state w); [|reflexivity].
    repeat split; intros; try reflexivity; discriminate. }
  destruct (IH w' Hi') as [Hle Hzero].
  unfold lobbyToActive.
  destruct (this_state w) as [st|] eqn:Hs; [|split; [exact Hle | discriminate]].
  destruct (this_state w') as [st'|] eqn:Hs'.
  2:{ split; [exact Hle|]. intros x [= <-] Hp.
      destruct (step_frame _ _ _ _ Hi Hs Hstep) as (y & Hy & _). congruence. }
  destruct (bool_decide (phase st = Lobby)) eqn:Hl.
  - apply bool_decide_eq_true in Hl.
    destruct (bool_decide (phase st' = Active)) eqn:Ha; cbn.
    + apply bool_decide_eq_true in Ha.
      rewrite (Hzero st' eq_refl) by congruence.
      split; [lia|]. intros x [= <-] Hp. contradiction.
    + split; [exact Hle|]. intros x [= <-] Hp. contradiction.
  - apply bool_decide_eq_false in Hl. cbn.
    assert (Hp' : phase st' <> Lobby)
      by exact (phase_monotone l w w' st st' Hi Hs Hstep Hs' Hl).
    rewrite (Hzero st' eq_refl Hp'). split; [lia|]. reflexivity.
Qed.

(** C6: on every reachable session there are at most two players; a join
    on a session that is no longer in the lobby is answered with a private
    notice and changes nothing; no execution takes the session from Lobby
    to Active more than once.  When [u1] and [u2] (distinct or not) join an
    empty lobby, followed by any further users, the first join leaves the
    session in the lobby, the second makes it Active and sends the board
    message of Game Start, the whole sequence goes from Lobby to Active
    exactly once, and every further join only adds its private notice. *)
Theorem join_starts_once args w st u1 u2 later :
  reachable args w -> this_state w = Some st ->
  (length (players st) <= 2)%nat
  /\ (forall ls, (starts ls w <= 1)%nat)
  /\ (phase st <> Lobby ->
      forall u,
        handleJoin u w
        = (Return tt,
           with_requests
             (requests w
                ++ [sendPrivateMessage (user_id u)
                      (if started st then startedText else finishedText)])
             w))
  /\ (phase st = Lobby -> players st = [] ->
      exists w1 st1 w2 st2 text board,
        step (Deliver (JoinGameEvent u1)) w = Some w1
        /\ this_state w1 = Some st1
        /\ phase st1 = Lobby /\ players st1 = [u1]
        /\ step (Deliver (JoinGameEvent u2)) w1 = Some w2
        /\ this_state w2 = Some st2
        /\ phase st2 = Active /\ players st2 = [u1; u2]
        /\ requests w2
           = requests w1
               ++ [addUserToChannel (user_id u2) (channelId st) true;
                   sendMessage
                     (lit "<@" ++ user_id u2 ++ lit "> joined the game." ++ NL
                        ++ lit "Starting game...")
                     (channelId st) noOptions;
                   sendMessage text (channelId st)
                     {| components := Some board; allowedMentions := None |}]
        /\ pending w2 = pending w ++ [(HostReply, K_boardSent)]
        /\ starts (joins (u1 :: u2 :: later)) w = 1%nat
        /\ run (joins (u1 :: u2 :: later)) w
           = Some (with_requests
                     (requests w2
                        ++ map (fun u => sendPrivateMessage (user_id u) startedText)
                             later)
                     w2)).
Proof.
  intros Hr Hs. pose proof (reachable_Inv _ _ Hr) as Hi.
  pose proof (reachable_wf _ _ _ Hr Hs) as [Wb Wc Wp Wl Wa Wd We].
  split; [exact Wp|]. split; [intros ls; apply (starts_le_1 ls w Hi)|].
  split; [intros Hp u; apply join_rejected; assumption|].
  intros Hp Hnil. apply phase_Lobby in Hp as [Hstarted Hstale].
  specialize (We Hstarted). pose proof Wb as (Hg & _).
  destruct w as [gs icons s reqs pend cons]. cbn in Hs. subst s.
  clear Hr Hi Wb Wc Wp Wl Wa Wd.
  destruct st as [s1 s2 chan s4 s5 s6 s7 s8 s9 s10 s11 s12]. cbn in *. subst.
  set (st1 := {| started := false; stale := false; channelId := chan;
                 gameBoardMessageDescriptor := s4; currentPlayerIndex := s5;
                 lastTurnMessageId := s6; acceptSelection := s7;
                 possibleTurnsCount := s8; gameSize := 3; players := [u1];
                 boardStates := [[None; None; None]; [None; None; None]; [None; None; None]]; playerIcons := s12 |}).
  set (st2 := {| started := true; stale := false; channelId := chan;
                 gameBoardMessageDescriptor := s4; currentPlayerIndex := s5;
                 lastTurnMessageId := s6; acceptSelection := s7;
                 possibleTurnsCount := s8; gameSize := 3; players := [u1; u2];
                 boardStates := [[None; None; None]; [None; None; None]; [None; None; None]]; playerIcons := s12 |}).
  destruct (blank_board_renders st2 eq_refl eq_refl) as [board Hboard].
  assert (Htext : exists text, iconsText st2 = Return text)
    by (unfold iconsText; cbn; eexists; reflexivity).
  destruct Htext as [text Htext].
  set (w0 := {| this_gameSize := gs; this_playerIcons := icons;
                this_state :=
                  Some {| started := false; stale := false; channelId := chan;
                          gameBoardMessageDescriptor := s4;
                          currentPlayerIndex := s5; lastTurnMessageId := s6;
                          acceptSelection := s7; possibleTurnsCount := s8;
                          gameSize := 3; players := [];
                          boardStates := [[None; None; None]; [None; None; None]; [None; None; None]]; playerIcons := s12 |};
                requests := reqs; pending := pend; console := cons |}).
  set (w1 := {| this_gameSize := gs; this_playerIcons := icons;
                this_state := Some st1;
                requests :=
                  (reqs ++ [addUserToChannel (user_id u1) chan true])
                    ++ [sendMessage
                          (lit "<@" ++ user_id u1 ++ lit "> joined the game."
                             ++ NL ++ lit "Waiting for one more player...")
                          chan noOptions];
                pending := pend; console := cons |}).
  set (w2 := {| this_gameSize := gs; this_playerIcons := icons;
                this_state := Some st2;
                requests :=
                  requests w1
                    ++ [addUserToChannel (user_id u2) chan true;
                        sendMessage
                          (lit "<@" ++ user_id u2 ++ lit "> joined the game." ++ NL
                             ++ lit "Starting game...")
                          chan noOptions;
                        sendMessage text chan
                          {| components := Some board; allowedMentions := None |}];
                pending := pend ++ [(HostReply, K_boardSent)];
                console := cons |}).
  assert (H1 : handleJoin u1 w0 = (Return tt, w1)) by reflexivity.
  assert (H2 : handleJoin u2 w1 = (Return tt, w2)).
  { unfold handleJoin, startGame, bind, getState, deref, modify, call, await, lift.
    unfold w1, st1, st2 in *. cbn.
    unfold set_started, set_players. cbn.
    rewrite Htext, Hboard. unfold w2, with_pending, with_requests. cbn.
    rewrite <- !List.app_assoc. reflexivity. }
  destruct (rejected_joins later w2 st2 eq_refl eq_refl) as [Hrun Hzero].
  exists w1, st1, w2, st2, text, board.
  split; [cbn [step onEvent]; unfold exec; rewrite H1; reflexivity|].
  split; [reflexivity|]. split; [reflexivity|]. split; [reflexivity|].
  split; [cbn [step onEvent]; unfold exec; rewrite H2; reflexivity|].
  split; [reflexivity|]. split; [reflexivity|]. split; [reflexivity|].
  split; [reflexivity|]. split; [reflexivity|]. split.
  - cbn [joins map starts step onEvent]. unfold exec. rewrite H1. cbn [snd].
    rewrite H2. cbn [snd]. fold (joins later). rewrite Hzero. reflexivity.
  - cbn [joins map run step onEvent]. unfold exec. rewrite H1. cbn [snd].
    rewrite H2. cbn [snd]. fold (joins later). exact Hrun.
Qed.

(** ** Turn alternation *)


Lemma buildButton_marked st n p icon :
  board3x3 st -> 0 <= n <= 8 -> ownerOf st n = Some p ->
  iconOf (playerIcons st) p = Some icon ->
  exists control, buildButton st (n / 3) (n mod 3) false = Return control.
Proof.
  intros Hb Hn Ho Hi. unfold buildButton, getCellIcon.
  rewrite (ownerOf_cell st n Hb Hn), Ho. cbn. rewrite Hi. cbn.
  eexists. reflexivity.
Qed.

Lemma accepted_move_world w st user buttonId n p icon :
  this_state w = Some st -> board3x3 st ->
  accepted st user buttonId n p ->
  checkForWin (marked st n) = Return None ->
  iconOf (playerIcons st) p = Some icon ->
  exists md control,
    gameBoardMessageDescriptor st = Some md
    /\ handleButtonClick user buttonId w
       = (Return tt,
          with_pending (pending w ++ [(HostReply, K_controlReplaced)])
            (with_requests
               (requests w
                  ++ [replaceControl (channelId st) (md_messageId md)
                        (toString n) control])
               (with_state (Some (set_acceptSelection false (marked st n))) w))).
Proof.
  intros Hs Hb Hacc Hwin Hicon.
  pose proof (marked_facts st user buttonId n p Hb Hacc)
    as (Hn & Hfree & Mb & _ & Hown & _).
  destruct Hacc as (Hparse & Hclick & Hcp & (u & Hu & Hid) & Haccept & Hcell).
  pose proof Hclick as Hc. apply clickable_true in Hc as (_ & _ & Hd).
  destruct (gameBoardMessageDescriptor st) as [md|] eqn:Hmd; [|discriminate].
  assert (Hicon' : iconOf (playerIcons (set_acceptSelection false (marked st n))) p
                   = Some icon) by exact Hicon.
  assert (Hb' : board3x3 (set_acceptSelection false (marked st n))) by exact Mb.
  assert (Hown' : ownerOf (set_acceptSelection false (marked st n)) n = Some p)
    by exact Hown.
  destruct (buildButton_marked _ n p icon Hb' Hn Hown' Hicon') as [control Hctl].
  exists md, control. split; [reflexivity|].
  pose proof Hb as (Hg & _).
  rewrite (getCoordFromIndex_3 st n Hg) in Hcell. cbn [fst snd] in Hcell.
  destruct w as [gs icons s reqs pend cons]. cbn in Hs. subst s.
  unfold handleButtonClick, handleUserTurn, bind, getState, deref, lift, modify,
    await, renderWinMessage. cbn.
  rewrite Hparse, Hclick. unfold currentPlayer. rewrite Hcp, Hu. cbn.
  rewrite bool_decide_eq_true_2 by assumption. cbn. rewrite Haccept. cbn.
  rewrite (getCoordFromIndex_3 st n Hg). rewrite Hcell. cbn.
  unfold marked in Hwin, Hctl. rewrite (getCoordFromIndex_3 st n Hg) in Hwin, Hctl.
  cbn [fst snd] in Hwin, Hctl.
  unfold cell, obind, deref in Hcell.
  destruct (at_ (boardStates st) (n / 3)) as [row|] eqn:Hrow; [|discriminate].
  cbn. rewrite Hwin. cbn. rewrite Hmd. cbn.
  match goal with
  | |- context [buildButton ?s ?r ?c ?d] =>
      replace (buildButton s r c d) with (Return control)
        by (symmetry; exact Hctl)
  end.
  unfold marked. rewrite (getCoordFromIndex_3 st n Hg). cbn [fst snd].
  rewrite Hrow. reflexivity.
Qed.



Lemma reachable_icons args w :
  reachable args w ->
  match this_state w with
  | Some st => playerIcons st = this_playerIcons (constructor args)
  | None => this_playerIcons w = this_playerIcons (constructor args)
  end.
Proof.
  induction 1 as [|w l w' Hr IH Hstep]; [reflexivity|].
  pose proof (reachable_Inv _ _ Hr) as Hi.
  destruct (this_state w) as [st|] eqn:Hs.
  - destruct (step_frame _ _ _ _ Hi Hs Hstep)
      as (st' & Hs' & _ & _ & _ & _ & _ & _ & Hicons).
    rewrite Hs'. congruence.
  - destruct Hi as (_ & _ & Hp). rewrite Hs in Hp.
    destruct w as [gs icons s reqs pend cons]. cbn in Hs, IH, Hp. subst s.
    destruct l as [event | i r coin | i | i | a]; cbn [step] in Hstep.
    + injection Hstep as <-. rewrite exec_uninitialised by reflexivity. exact IH.
    + cbn in Hstep. destruct Hp as [-> | ->]; [destruct i; discriminate|].
      destruct i as [|i]; [|destruct i; discriminate]. cbn in Hstep.
      destruct r; try discriminate. cbn in Hstep. injection Hstep as <-.
      exact IH.
    + cbn in Hstep. destruct (pend !! i) as [[[|ms] k]|]; try discriminate.
      injection Hstep as <-. exact IH.
    + cbn in Hstep. destruct Hp as [-> | ->]; [destruct i; discriminate|].
      destruct i as [|i]; [|destruct i; discriminate]. discriminate Hstep.
    + discriminate Hstep.
Qed.


(** ** Order of the turn notification *)

Lemma sendTurn_world k w st p :
  this_state w = Some st -> currentPlayer st = Return p ->
  sendTurn k w
  = (Return tt,
     with_pending (pending w ++ [(HostReply, K_turnSent k)])
       (with_requests (requests w ++ [turnMessage st p]) w)).
Proof.
  intros Hs Hp. destruct w as [gs icons s reqs pend cons]. cbn in Hs. subst s.
  unfold sendTurn, bind, getState, lift, deref, await. cbn. rewrite Hp. reflexivity.
Qed.

(** C9: a turn notification first deletes the previous turn message, when
    [lastTurnMessageId] holds one (a non-empty id), and sends nothing
    else; the new turn message, which mentions the player at
    [currentPlayerIndex] and nobody else, is sent by the callback of that
    deletion, or at once when there is nothing to delete.
    [acceptSelection] is set by the callback of that send, together with
    [lastTurnMessageId]; on a reachable session it is false as long as any
    callback of the turn cycle is waiting, and no other step sets it.  Both
    the callback of the board message at game start and the callback of
    [replaceControl] after a move that leaves a free cell end with this
    notification. *)
Theorem turn_notification_order args w st :
  reachable args w -> this_state w = Some st ->
  (forall k p,
     currentPlayer st = Return p ->
     (truthy (lastTurnMessageId st) = true ->
        sendTurnNotification k w
        = (Return tt,
           with_pending (pending w ++ [(HostReply, K_turnRetracted k)])
             (with_requests
                (requests w
                   ++ [deleteMessage (channelId st) (lastTurnMessageId st)])
                w))
        /\ forall coin, resume (K_turnRetracted k) Void coin = Some (sendTurn k))
     /\ (truthy (lastTurnMessageId st) = false ->
           sendTurnNotification k w = sendTurn k w)
     /\ sendTurn k w
        = (Return tt,
           with_pending (pending w ++ [(HostReply, K_turnSent k)])
             (with_requests (requests w ++ [turnMessage st p]) w)))
  /\ (forall md coin,
        exists m,
          resume (K_turnSent ThenAcceptSelection) (Message md) coin = Some m
          /\ m w
             = (Return tt,
                with_state
                  (Some (set_acceptSelection true
                           (set_lastTurnMessageId (Some (md_messageId md)) st)))
                  w))
  /\ (forall t k, In (t, k) (pending w) -> turnCycle k = true ->
        acceptSelection st = false)
  /\ (forall l w' st',
        step l w = Some w' -> this_state w' = Some st' ->
        acceptSelection st = false -> acceptSelection st' = true ->
        exists i md coin k,
          l = Resolve i (Message md) coin
          /\ pending w !! i = Some (HostReply, K_turnSent k))
  /\ (forall md coin,
        exists m,
          resume K_boardSent (Message md) coin = Some m
          /\ m w
             = sendTurnNotification ThenAcceptSelection
                 (with_state
                    (Some (set_currentPlayerIndex (Some coin)
                             (set_gameBoardMessageDescriptor (Some md) st)))
                    w))
  /\ (possibleTurnsCount st <> 0 ->
      forall coin,
        exists m,
          resume K_controlReplaced Void coin = Some m
          /\ m w
             = sendTurnNotification ThenAcceptSelection
                 (with_state
                    (Some (set_currentPlayerIndex
                             (nextPlayer (currentPlayerIndex st)) st))
                    w)).
Proof.
  intros Hr Hs. pose proof (reachable_Inv _ _ Hr) as Hi.
  split; [|split; [|split; [|split; [|split]]]].
  - intros k p Hp. split; [|split].
    + intros Ht. split; [|reflexivity].
      destruct w as [gs icons s reqs pend cons]. cbn in Hs. subst s.
      unfold sendTurnNotification, bind, getState, deref, await. cbn.
      rewrite Ht. reflexivity.
    + intros Ht. destruct w as [gs icons s reqs pend cons]. cbn in Hs. subst s.
      unfold sendTurnNotification, bind, getState, deref. cbn. rewrite Ht. reflexivity.
    + apply sendTurn_world; assumption.
  - intros md coin. eexists. split; [reflexivity|].
    destruct w as [gs icons s reqs pend cons]. cbn in Hs. subst s. reflexivity.
  - intros t k Hin Hk. destruct Hi as (_ & _ & Hi). rewrite Hs in Hi.
    destruct Hi as (_ & _ & Hacc & _).
    destruct (acceptSelection st); [|reflexivity].
    pose proof (inFlight_zero _ _ _ (Hacc eq_refl) Hin). congruence.
  - intros l w' st' Hstep Hs' Hf Ht.
    destruct (step_frame _ _ _ _ Hi Hs Hstep) as (x & Hx & _ & _ & _ & _ & _ & Hflip & _).
    rewrite Hs' in Hx. injection Hx as <-. exact (Hflip Hf Ht).
  - intros md coin. eexists. split; [reflexivity|].
    destruct w as [gs icons s reqs pend cons]. cbn in Hs. subst s. reflexivity.
  - intros Hc coin. eexists. split; [reflexivity|].
    destruct w as [gs icons s reqs pend cons]. cbn in Hs. subst s.
    unfold bind, getState, deref, modify. cbn.
    destruct (possibleTurnsCount st =? 0) eqn:E; [apply Z.eqb_eq in E; contradiction|].
    reflexivity.
Qed.

(** ** Cell numbers and control ids *)

Lemma getCoordFromIndex_encode st rowIndex index :
  0 < gameSize st -> 0 <= index < gameSize st ->
  getCoordFromIndex st (rowIndex * gameSize st + index) = (rowIndex, index).
Proof.
  intros Hg Hc. unfold getCoordFromIndex.
  destruct (gameSize st =? 0) eqn:E; [apply Z.eqb_eq in E; lia|].
  assert (Hq : (rowIndex * gameSize st + index) / gameSize st = rowIndex).
  { rewrite Z.div_add_l by lia. rewrite Z.div_small by lia. lia. }
  rewrite Hq. f_equal. lia.
Qed.

Lemma getCoordFromIndex_decode st buttonId rowIndex index :
  0 < gameSize st ->
  getCoordFromIndex st buttonId = (rowIndex, index) ->
  rowIndex * gameSize st + index = buttonId /\ 0 <= index < gameSize st.
Proof.
  intros Hg. unfold getCoordFromIndex.
  destruct (gameSize st =? 0) eqn:E; [apply Z.eqb_eq in E; lia|].
  intros [= <- <-]. split; [lia|].
  pose proof (Z.mod_pos_bound buttonId (gameSize st) Hg) as Hm.
  rewrite Z.mod_eq in Hm by lia. lia.
Qed.

(** X1: on cell numbers from 0 below 2^53, where the arithmetic of the
    source is exact, [getCoordFromIndex] inverts the numbering [rowIndex *
    gameSize + index] that [buildButton] gives the controls: for a
    positive [gameSize] below 2^53 the cell number of a row and a column
    below [gameSize] decodes to that row and column, and every such number
    decodes to a row from 0 on and a column from 0 below [gameSize] whose
    cell number it is. *)
Theorem getCoordFromIndex_roundtrip st :
  0 < gameSize st < 2 ^ 53 ->
  (forall rowIndex index,
     0 <= rowIndex -> 0 <= index < gameSize st ->
     rowIndex * gameSize st + index < 2 ^ 53 ->
     getCoordFromIndex st (rowIndex * gameSize st + index) = (rowIndex, index))
  /\ (forall buttonId,
        0 <= buttonId < 2 ^ 53 ->
        fst (getCoordFromIndex st buttonId) * gameSize st
          + snd (getCoordFromIndex st buttonId) = buttonId
        /\ 0 <= fst (getCoordFromIndex st buttonId)
        /\ 0 <= snd (getCoordFromIndex st buttonId) < gameSize st).
Proof.
  intros [Hg _]. split.
  - intros r c _ Hc _. apply getCoordFromIndex_encode; assumption.
  - intros n [Hn _]. destruct (getCoordFromIndex st n) as [r c] eqn:E.
    destruct (getCoordFromIndex_decode st n r c Hg E) as [Hsum Hc].
    cbn [fst snd]. split; [exact Hsum|]. split; [nia|exact Hc].
Qed.

Lemma lit_String c s : lit (String c s) = N_of_ascii c :: lit s.
Proof. reflexivity. Qed.

Lemma parseDigits_uint_acc d : forall p,
  parseDigits 10 (lit (NilEmpty.string_of_uint d)) (Some (Z.pos p))
  = Some (Z.pos (Pos.of_uint_acc d p)).
Proof.
  induction d; intros p; cbn [NilEmpty.string_of_uint Pos.of_uint_acc];
    [reflexivity | rewrite lit_String; cbn [parseDigits]..];
    match goal with
    | |- context [digitValue ?c] =>
        let v := eval vm_compute in (digitValue c) in
        change (digitValue c) with v
    end; cbv iota beta;
    match goal with
    | |- context [?a <? 10] =>
        let v := eval vm_compute in (a <? 10) in change (a <? 10) with v
    end; cbv iota;
    rewrite <- IHd; f_equal; f_equal; lia.
Qed.

Ltac digit_step :=
  rewrite lit_String; cbn [parseDigits];
  match goal with
  | |- context [digitValue ?c] =>
      let v := eval vm_compute in (digitValue c) in
      change (digitValue c) with v
  end; cbv iota beta;
  match goal with
  | |- context [?a <? 10] =>
      let v := eval vm_compute in (a <? 10) in change (a <? 10) with v
  end; cbv iota;
  try match goal with
  | |- context [Some (0 * 10 + ?b)] =>
      let v := eval vm_compute in (0 * 10 + b) in change (0 * 10 + b) with v
  end.

Lemma parseDigits_uint_zero d :
  parseDigits 10 (lit (NilEmpty.string_of_uint d)) (Some 0)
  = Some (Z.of_uint d).
Proof.
  unfold Z.of_uint.
  induction d; cbn [NilEmpty.string_of_uint Pos.of_uint];
    [reflexivity | digit_step..];
    first [ exact IHd | apply parseDigits_uint_acc ].
Qed.

Lemma parseDigits_uint d :
  d <> Decimal.Nil ->
  parseDigits 10 (lit (NilEmpty.string_of_uint d)) None = Some (Z.of_uint d).
Proof.
  intros Hd. destruct d; [congruence|..];
    cbn [NilEmpty.string_of_uint]; digit_step;
    first [ exact (parseDigits_uint_zero d)
          | exact (parseDigits_uint_acc d _) ].
Qed.

(** Evaluates [parseInt] on the known first characters of its input. *)
Ltac read_prefix :=
  repeat match goal with
    | |- context [N_of_ascii ?c] =>
        let v := eval vm_compute in (N_of_ascii c) in
        change (N_of_ascii c) with v
    end;
  cbn [trimStart];
  repeat match goal with
    | |- context [isWhiteSpace ?c] =>
        let v := eval vm_compute in (isWhiteSpace c) in
        change (isWhiteSpace c) with v
    end;
  cbv iota beta zeta.

(** The decimal text of a natural number reads back as that number. *)
Lemma parseInt_uint d :
  parseInt (lit (NilZero.string_of_uint d)) = Some (Z.of_uint d).
Proof.
  destruct d as [|d|d|d|d|d|d|d|d|d|d]; [reflexivity|..].
  1: destruct d; [reflexivity|..].
  all: unfold parseInt, NilZero.string_of_uint;
    cbn [NilEmpty.string_of_uint]; rewrite ?lit_String;
    read_prefix;
    match goal with
    | |- _ = Some (Z.of_uint ?D) =>
        match goal with
        | |- context [parseDigits 10 ?s None] =>
            change (parseDigits 10 s None)
              with (parseDigits 10 (lit (NilEmpty.string_of_uint D)) None);
            rewrite (parseDigits_uint D) by discriminate
        end
    end;
    rewrite Z.mul_1_l; reflexivity.
Qed.

(** [parseInt] reads back what [toString] prints. *)
Lemma parseInt_toString n : parseInt (toString n) = Some n.
Proof.
  unfold toString. rewrite <- (DecimalZ.of_to n) at 2.
  destruct (Z.to_int n) as [d|d]; cbn [NilZero.string_of_int Z.of_int].
  - apply parseInt_uint.
  - rewrite lit_String.
    destruct d as [|d|d|d|d|d|d|d|d|d|d]; [reflexivity|..].
    1: destruct d; [reflexivity|..].
    all: unfold parseInt, NilZero.string_of_uint;
      cbn [NilEmpty.string_of_uint]; rewrite ?lit_String;
      read_prefix;
      match goal with
      | |- _ = Some (- Z.of_uint ?D) =>
          match goal with
          | |- context [parseDigits 10 ?s None] =>
              change (parseDigits 10 s None)
                with (parseDigits 10 (lit (NilEmpty.string_of_uint D)) None);
              rewrite (parseDigits_uint D) by discriminate
          end
      end;
      f_equal; lia.
Qed.

(** What [buildButton] puts into a control. *)
Lemma buildButton_content st rowIndex index dis control :
  buildButton st rowIndex index dis = Return control ->
  style control = Secondary
  /\ custom_id control = toString (rowIndex * gameSize st + index)
  /\ exists owner,
       cell (boardStates st) rowIndex index = Return owner
       /\ disabled control = dis || isDefined owner
       /\ match owner with
          | None => label control = Some (lit " ") /\ emoji control = None
          | Some p =>
              exists icon,
                iconOf (playerIcons st) p = Some icon
                /\ if 1 <? Z.of_nat (length icon)
                   then label control = None /\ emoji control = Some icon
                   else label control = Some icon /\ emoji control = None
          end.
Proof.
  unfold buildButton, getCellIcon, obind.
  destruct (cell (boardStates st) rowIndex index) as [[p|]|] eqn:Hc;
    [| |discriminate].
  - unfold deref.
    destruct (iconOf (playerIcons st) p) as [icon|] eqn:Hi; [|discriminate].
    destruct dis; intros [= <-]; cbn; (split; [reflexivity|]);
      (split; [reflexivity|]); exists (Some p); (split; [reflexivity|]);
      (split; [reflexivity|]); exists icon; (split; [exact Hi|]);
      destruct (1 <? Z.of_nat (length icon)); split; reflexivity.
  - destruct dis; intros [= <-]; cbn; (split; [reflexivity|]);
      (split; [reflexivity|]); exists None; repeat split.
Qed.

(** X2: the id that [buildButton] gives the control of a cell is read
    back by [parseInt] as the cell number, and [getCoordFromIndex] decodes
    that number to the row and column the control was built for (cell
    numbers below 2^53, which [toString] prints digit by digit). *)
Theorem control_id_decodes st rowIndex index dis control :
  0 < gameSize st -> 0 <= rowIndex -> 0 <= index < gameSize st ->
  rowIndex * gameSize st + index < 2 ^ 53 ->
  buildButton st rowIndex index dis = Return control ->
  parseInt (custom_id control) = Some (rowIndex * gameSize st + index)
  /\ getCoordFromIndex st (rowIndex * gameSize st + index) = (rowIndex, index).
Proof.
  intros Hg Hr Hc _ Hb.
  apply buildButton_content in Hb as (_ & Hid & _). rewrite Hid. split.
  - apply parseInt_toString.
  - apply getCoordFromIndex_encode; assumption.
Qed.

(** ** The rendered board *)

Lemma omap_Return {A B} (f : A -> Outcome B) l l' :
  omap f l = Return l' ->
  length l' = length l
  /\ forall i x, l !! i = Some x ->
       exists y, l' !! i = Some y /\ f x = Return y.
Proof.
  revert l'. induction l as [|a l IH]; intros l' H; cbn in H.
  - injection H as <-. split; [reflexivity|]. intros i x Hi. destruct i; discriminate.
  - unfold obind in H. destruct (f a) as [b|] eqn:Hb; [|discriminate].
    destruct (omap f l) as [bs|] eqn:Hbs; [|discriminate].
    injection H as <-. destruct (IH bs eq_refl) as [Hlen Hall].
    split; [cbn; congruence|].
    intros [|i] x Hi; cbn in Hi.
    + injection Hi as <-. exists b. split; [reflexivity | exact Hb].
    + exact (Hall i x Hi).
Qed.

Lemma omap_Throw {A B} (f : A -> Outcome B) l :
  omap f l = Throw <-> exists x, In x l /\ f x = Throw.
Proof.
  induction l as [|a l IH]; cbn.
  - split; [discriminate | intros (x & [] & _)].
  - unfold obind. destruct (f a) as [b|] eqn:Hb.
    + destruct (omap f l) as [bs|] eqn:Hbs.
      * split; [discriminate|]. intros (x & [<-|Hx] & Hf); [congruence|].
        assert (Ht : Return bs = Throw) by (apply IH; eauto).
        discriminate Ht.
      * split; [|reflexivity]. intros _.
        destruct (proj1 IH eq_refl) as (x & Hx & Hf). eauto.
    + split; [|reflexivity]. intros _. eauto.
Qed.

Lemma range_length n : length (range n) = Z.to_nat n.
Proof. unfold range. rewrite length_map, length_seq. reflexivity. Qed.

Lemma range_lookup n i :
  0 <= i < n -> range n !! Z.to_nat i = Some i.
Proof.
  intros H. unfold range. rewrite list_lookup_fmap.
  rewrite lookup_seq_lt by lia. cbn. f_equal. lia.
Qed.

Lemma range_In n i : In i (range n) <-> 0 <= i < n.
Proof.
  unfold range. rewrite in_map_iff. split.
  - intros (k & <- & Hk). apply in_seq in Hk. lia.
  - intros H. exists (Z.to_nat i). split; [lia|]. apply in_seq. lia.
Qed.

Lemma at_lookup {A} (l : list A) i :
  0 <= i -> at_ l i = l !! Z.to_nat i.
Proof.
  intros H. unfold at_. destruct (i <? 0) eqn:E; [apply Z.ltb_lt in E; lia|].
  reflexivity.
Qed.

Lemma buildTicTacToe_controls st dis board :
  buildTicTacToe st dis = Return board ->
  length board = Z.to_nat (gameSize st)
  /\ Forall (fun row => length row = Z.to_nat (gameSize st)) board
  /\ forall rowIndex index,
       0 <= rowIndex < gameSize st -> 0 <= index < gameSize st ->
       exists control,
         controlAt board rowIndex index = Some control
         /\ buildButton st rowIndex index dis = Return control.
Proof.
  unfold buildTicTacToe. intros H.
  apply omap_Return in H as [Hlen Hrows]. rewrite range_length in Hlen.
  split; [exact Hlen|]. split.
  - apply List.Forall_forall. intros row Hin. apply list_elem_of_In in Hin.
    apply list_elem_of_lookup in Hin as [i Hi].
    assert (Hlt : (i < Z.to_nat (gameSize st))%nat)
      by (rewrite <- Hlen; eapply lookup_lt_Some; exact Hi).
    destruct (Hrows i (Z.of_nat i)) as (row' & Hrow' & Hrow).
    { rewrite <- (Nat2Z.id i) at 1. apply range_lookup. lia. }
    assert (row' = row) by congruence. subst row'.
    apply omap_Return in Hrow as [Hl _]. rewrite range_length in Hl. exact Hl.
  - intros r c Hr Hc.
    destruct (Hrows _ _ (range_lookup _ _ Hr)) as (row & Hrow & Hbuild).
    apply omap_Return in Hbuild as [_ Hcells].
    destruct (Hcells _ _ (range_lookup _ _ Hc)) as (control & Hctl & Hb).
    exists control. unfold controlAt.
    rewrite !at_lookup by lia. rewrite Hrow. rewrite at_lookup by lia.
    split; assumption.
Qed.

(** X3: [buildTicTacToe] returns [gameSize] rows of [gameSize] controls.
    The control in row [rowIndex] at [index] has the secondary style and
    the cell number [rowIndex * gameSize + index] as its id; it is
    disabled when the whole board is asked disabled or the cell is
    occupied; an empty cell is labelled with a blank, an occupied one shows
    its owner's icon, as an emoji when the icon has more than one code
    unit and as the label otherwise. *)
Theorem buildTicTacToe_grid st dis board :
  buildTicTacToe st dis = Return board ->
  length board = Z.to_nat (gameSize st)
  /\ Forall (fun row => length row = Z.to_nat (gameSize st)) board
  /\ forall rowIndex index,
       0 <= rowIndex < gameSize st -> 0 <= index < gameSize st ->
       exists control owner,
         controlAt board rowIndex index = Some control
         /\ style control = Secondary
         /\ custom_id control = toString (rowIndex * gameSize st + index)
         /\ cell (boardStates st) rowIndex index = Return owner
         /\ disabled control = dis || isDefined owner
         /\ match owner with
            | None => label control = Some (lit " ") /\ emoji control = None
            | Some p =>
                exists icon,
                  iconOf (playerIcons st) p = Some icon
                  /\ if 1 <? Z.of_nat (length icon)
                     then label control = None /\ emoji control = Some icon
                     else label control = Some icon /\ emoji control = None
            end.
Proof.
  intros H. apply buildTicTacToe_controls in H as (Hlen & Hrows & Hcells).
  split; [exact Hlen|]. split; [exact Hrows|].
  intros r c Hr Hc. destruct (Hcells r c Hr Hc) as (control & Hctl & Hb).
  apply buildButton_content in Hb as (Hs & Hid & owner & Ho & Hd & Hi).
  exists control, owner. repeat split; assumption.
Qed.

Lemma buildButton_Throw st rowIndex index dis :
  buildButton st rowIndex index dis = Throw ->
  at_ (boardStates st) rowIndex = None
  \/ exists p, cell (boardStates st) rowIndex index = Return (Some p)
               /\ iconOf (playerIcons st) p = None.
Proof.
  unfold buildButton, getCellIcon, cell, obind, deref.
  destruct (at_ (boardStates st) rowIndex) as [row|]; [|left; reflexivity].
  intros H. right.
  destruct (match at_ row index with Some x => x | None => None end) as [p|].
  - exists p. split; [reflexivity|].
    destruct (iconOf (playerIcons st) p); [|reflexivity].
    destruct dis; discriminate.
  - destruct dis; discriminate.
Qed.

(** X4: [buildTicTacToe] throws exactly when, among the rows and columns
    below [gameSize], a row of the board is missing or a cell belongs to a
    player whose icon is undefined. *)
Theorem buildTicTacToe_throws st dis :
  buildTicTacToe st dis = Throw <->
  exists rowIndex index,
    0 <= rowIndex < gameSize st /\ 0 <= index < gameSize st
    /\ (at_ (boardStates st) rowIndex = None
        \/ exists p, cell (boardStates st) rowIndex index = Return (Some p)
                     /\ iconOf (playerIcons st) p = None).
Proof.
  unfold buildTicTacToe. rewrite omap_Throw. split.
  - intros (r & Hr & Hthrow). apply range_In in Hr.
    apply omap_Throw in Hthrow as (c & Hc & Hb). apply range_In in Hc.
    exists r, c. split; [exact Hr|]. split; [exact Hc|].
    apply buildButton_Throw in Hb. exact Hb.
  - intros (r & c & Hr & Hc & Hbad). exists r. split; [apply range_In; exact Hr|].
    apply omap_Throw. exists c. split; [apply range_In; exact Hc|].
    unfold buildButton, getCellIcon, cell, obind, deref in *.
    destruct Hbad as [-> | (p & Hp & Hi)]; [reflexivity|].
    destruct (at_ (boardStates st) r) as [row|]; [|reflexivity].
    injection Hp as ->. rewrite Hi. reflexivity.
Qed.

(** A board with its rows, on which every owner has an icon, renders. *)
Lemma buildTicTacToe_Return st dis :
  (forall r, 0 <= r < gameSize st -> at_ (boardStates st) r <> None) ->
  (forall p, iconOf (playerIcons st) p <> None) ->
  exists board, buildTicTacToe st dis = Return board.
Proof.
  intros Hrows Hicons.
  destruct (buildTicTacToe st dis) as [board|] eqn:E; [eauto|].
  exfalso. unfold buildTicTacToe in E.
  apply omap_Throw in E as (r & Hr & Hthrow). apply range_In in Hr.
  apply omap_Throw in Hthrow as (c & Hc & Hb).
  apply buildButton_Throw in Hb as [Hb | (p & _ & Hp)].
  - exact (Hrows r Hr Hb).
  - exact (Hicons p Hp).
Qed.

(** ** The winning line on the rendered board *)

Lemma set_style_twice v b : set_style v (set_style v b) = set_style v b.
Proof. reflexivity. Qed.

Lemma controlAt_insert board r0 c0 row control rowIndex index :
  at_ board r0 = Some row -> 0 <= c0 < Z.of_nat (length row) ->
  controlAt (<[Z.to_nat r0 := <[Z.to_nat c0 := control]> row]> board)
    rowIndex index
  = if bool_decide ((r0, c0) = (rowIndex, index)) then Some control
    else controlAt board rowIndex index.
Proof.
  intros Hrow Hc. apply at_Some in Hrow as [Hr0 Hrow].
  pose proof (lookup_lt_Some _ _ _ Hrow) as Hlt.
  unfold controlAt, at_.
  destruct (rowIndex <? 0) eqn:Hr.
  { apply Z.ltb_lt in Hr. rewrite bool_decide_eq_false_2; [reflexivity|].
    intros [= -> _]. lia. }
  apply Z.ltb_ge in Hr.
  destruct (decide (r0 = rowIndex)) as [<-|Hne].
  - rewrite list_lookup_insert_eq by assumption. rewrite Hrow.
    destruct (index <? 0) eqn:Hi.
    { apply Z.ltb_lt in Hi. rewrite bool_decide_eq_false_2; [reflexivity|].
      intros [= ->]. lia. }
    apply Z.ltb_ge in Hi.
    destruct (decide (c0 = index)) as [<-|Hnc].
    + rewrite list_lookup_insert_eq by lia.
      rewrite bool_decide_eq_true_2 by reflexivity. reflexivity.
    + rewrite list_lookup_insert_ne by lia.
      rewrite bool_decide_eq_false_2; [reflexivity|]. intros [= ->]. congruence.
  - rewrite list_lookup_insert_ne by lia.
    rewrite bool_decide_eq_false_2; [reflexivity|]. intros [= -> _]. congruence.
Qed.

Lemma highlight_cons st buttonId rest board :
  highlight st (buttonId :: rest) board
  = let '(rowIndex, index) := getCoordFromIndex st buttonId in
    do row <- deref (at_ board rowIndex);
    do control <- deref (at_ row index);
    highlight st rest
      (<[Z.to_nat rowIndex :=
           <[Z.to_nat index := set_style Success control]> row]> board).
Proof. reflexivity. Qed.

Lemma highlight_controlAt st winRow : forall board board',
  highlight st winRow board = Return board' ->
  length board' = length board
  /\ forall rowIndex index,
       controlAt board' rowIndex index
       = if existsb (fun buttonId =>
                       bool_decide (getCoordFromIndex st buttonId
                                    = (rowIndex, index))) winRow
         then set_style Success <$> controlAt board rowIndex index
         else controlAt board rowIndex index.
Proof.
  induction winRow as [|buttonId rest IH]; intros board board' H.
  - change (Return board = Return board') in H. injection H as <-.
    split; reflexivity.
  - rewrite highlight_cons in H.
    destruct (getCoordFromIndex st buttonId) as [r0 c0] eqn:E.
    unfold obind, deref in H.
    destruct (at_ board r0) as [row|] eqn:Hrow; [|discriminate].
    destruct (at_ row c0) as [control|] eqn:Hctl; [|discriminate].
    apply IH in H as [Hlen H]. split; [rewrite Hlen; apply length_insert|].
    intros r c. rewrite H. cbn [existsb]. rewrite E.
    rewrite (controlAt_insert board r0 c0 row _ r c Hrow (at_lt _ _ _ Hctl)).
    destruct (bool_decide ((r0, c0) = (r, c))) eqn:Hd; cbn [orb].
    + apply bool_decide_eq_true in Hd. injection Hd as <- <-.
      assert (Hold : controlAt board r0 c0 = Some control)
        by (unfold controlAt; rewrite Hrow; exact Hctl).
      rewrite Hold. destruct (existsb _ rest); reflexivity.
    + reflexivity.
Qed.

(** X5: the loop of [renderWinMessage] that marks the winning line gives
    the success style to the controls whose cell numbers are listed, and
    to no other: every other control, and every other field of the listed
    ones, is as [buildTicTacToe] made it, and the board keeps its rows. *)
Theorem highlight_restyles st winRow board board' :
  0 < gameSize st ->
  highlight st winRow board = Return board' ->
  length board' = length board
  /\ forall rowIndex index,
       (0 <= index < gameSize st ->
        In (rowIndex * gameSize st + index) winRow ->
        controlAt board' rowIndex index
        = set_style Success <$> controlAt board rowIndex index)
       /\ (~ (0 <= index < gameSize st
              /\ In (rowIndex * gameSize st + index) winRow) ->
           controlAt board' rowIndex index = controlAt board rowIndex index).
Proof.
  intros Hg H. apply highlight_controlAt in H as [Hlen H].
  split; [exact Hlen|]. intros r c. rewrite H. split.
  - intros Hc Hin.
    assert (He : existsb (fun buttonId =>
                   bool_decide (getCoordFromIndex st buttonId = (r, c))) winRow
                 = true).
    { apply existsb_exists. exists (r * gameSize st + c). split; [exact Hin|].
      apply bool_decide_eq_true. apply getCoordFromIndex_encode; assumption. }
    rewrite He. reflexivity.
  - intros Hno.
    destruct (existsb _ winRow) eqn:He; [|reflexivity].
    exfalso. apply Hno. apply existsb_exists in He as (n & Hin & Hd).
    apply bool_decide_eq_true in Hd.
    apply getCoordFromIndex_decode in Hd as [<- Hc]; [|exact Hg]. auto.
Qed.

(** ** The icons given to the constructor *)

Lemma split_cons sep c r :
  split sep (c :: r)
  = if (c =? sep)%N then [] :: split sep r
    else match split sep r with
         | h :: t => (c :: h) :: t
         | [] => [[c]]
         end.
Proof. reflexivity. Qed.

Lemma split_none sep s : ~ In sep s -> split sep s = [s].
Proof.
  induction s as [|c r IH]; intros H; [reflexivity|].
  rewrite split_cons.
  destruct (c =? sep)%N eqn:E.
  - apply N.eqb_eq in E. exfalso. apply H. left. exact E.
  - rewrite IH; [reflexivity|]. intros Hr. apply H. right. exact Hr.
Qed.

Lemma split_first sep first rest :
  ~ In sep first ->
  split sep (first ++ sep :: rest) = first :: split sep rest.
Proof.
  induction first as [|c r IH]; intros H.
  - cbn [app]. rewrite split_cons, N.eqb_refl. reflexivity.
  - cbn [app]. rewrite split_cons.
    destruct (c =? sep)%N eqn:E.
    + apply N.eqb_eq in E. exfalso. apply H. left. exact E.
    + rewrite IH; [reflexivity|]. intros Hr. apply H. right. exact Hr.
Qed.

(** X6: the constructor cuts its argument at the spaces.  Without a space
    the whole argument is the icon of player 0 and player 1 has no icon
    ([undefined]); otherwise the icon of player 0 is the text before the
    first space (possibly empty) and the icon of player 1 the text between
    the first space and the second, or the end. *)
Theorem constructor_icons args :
  let icons := this_playerIcons (constructor (Some args)) in
  (~ In 32%N args -> icon0 icons = Some args /\ icon1 icons = None)
  /\ (forall first rest,
        args = first ++ 32%N :: rest -> ~ In 32%N first ->
        icon0 icons = Some first
        /\ (~ In 32%N rest -> icon1 icons = Some rest)
        /\ (forall second more,
              rest = second ++ 32%N :: more -> ~ In 32%N second ->
              icon1 icons = Some second)).
Proof.
  cbn [constructor this_playerIcons icon0 icon1]. split.
  - intros H. rewrite (split_none _ _ H). split; reflexivity.
  - intros first rest -> Hf. rewrite (split_first _ _ _ Hf).
    split; [reflexivity|]. split.
    + intros Hr. rewrite (split_none _ _ Hr). reflexivity.
    + intros second more -> Hs. rewrite (split_first _ _ _ Hs). reflexivity.
Qed.

(** ** What lasts along an execution *)

Lemma AltInv_None w : AltInv None w.
Proof.
  unfold AltInv. destruct (this_state w); [|reflexivity].
  repeat split; intros; try reflexivity; discriminate.
Qed.

Lemma step_Inv l w w' : Inv w -> step l w = Some w' -> Inv w'.
Proof.
  intros Hi Hstep.
  exact (proj1 (step_good None l w w' Hi (AltInv_None w) Hstep)).
Qed.

Lemma step_wf l w w' st st' :
  Inv w -> this_state w = Some st -> step l w = Some w' ->
  this_state w' = Some st' -> wf_state st'.
Proof.
  intros Hi Hs Hstep Hs'. apply (step_Inv _ _ _ Hi) in Hstep as (_ & _ & H).
  rewrite Hs' in H. tauto.
Qed.

Lemma Inv_wf w st : Inv w -> this_state w = Some st -> wf_state st.
Proof. intros (_ & _ & H) Hs. rewrite Hs in H. tauto. Qed.

(** X7: a mark is never removed or overwritten: along every execution
    from a reachable session, a cell that belongs to a player still
    belongs to that player afterwards, the counter of free cells never
    grows and the number of occupied cells never shrinks. *)
Theorem marks_are_permanent args ls : forall w st w',
  reachable args w -> this_state w = Some st -> run ls w = Some w' ->
  exists st',
    this_state w' = Some st'
    /\ (forall n p, ownerOf st n = Some p -> ownerOf st' n = Some p)
    /\ possibleTurnsCount st' <= possibleTurnsCount st
    /\ occupied (boardStates st) <= occupied (boardStates st').
Proof.
  induction ls as [|l ls IH]; intros w st w' Hr Hs Hrun; cbn [run] in Hrun.
  - injection Hrun as <-. exists st. split; [exact Hs|]. split; [auto|]. lia.
  - destruct (step l w) as [w1|] eqn:Hstep; [|discriminate].
    pose proof (reachable_Inv _ _ Hr) as Hi.
    pose proof (Inv_wf _ _ Hi Hs) as Hwf.
    destruct (step_frame _ _ _ _ Hi Hs Hstep) as (st1 & Hs1 & _).
    pose proof (step_wf _ _ _ _ _ Hi Hs Hstep Hs1) as Hwf1.
    destruct (IH w1 st1 w' (reach_step _ _ _ _ Hr Hstep) Hs1 Hrun)
      as (st' & Hs' & Hkeep & Hcount & Hocc).
    exists st'. split; [exact Hs'|].
    pose proof (wf_count _ Hwf) as Hc. pose proof (wf_count _ Hwf1) as Hc1.
    pose proof (wf_board _ Hwf) as (Hg & _).
    pose proof (wf_board _ Hwf1) as (Hg1 & _).
    rewrite Hg in Hc. rewrite Hg1 in Hc1.
    destruct (step_board w st l w1 st1 Hi Hwf Hs Hstep Hs1)
      as [(Hb & Hn & _) | (u & b & n & p & _ & _ & _ & Hn & Hfree & Hown & Hrest)].
    + split; [|lia]. intros m q Hm. apply Hkeep.
      rewrite (ownerOf_board _ _ Hb). exact Hm.
    + split; [|lia]. intros m q Hm. apply Hkeep.
      destruct (decide (m = n)) as [->|Hne]; [congruence|].
      rewrite (Hrest m Hne). exact Hm.
Qed.

(** X8: a stale session stays stale: along every execution from a
    reachable stale session the flag remains set, board and counter keep
    their values, no player is added, and the execution contains no
    reload, since [destroy] hands out no bundle to restore. *)
Theorem stale_is_terminal args ls : forall w st w',
  reachable args w -> this_state w = Some st -> stale st = true ->
  run ls w = Some w' ->
  (exists st',
     this_state w' = Some st'
     /\ stale st' = true
     /\ boardStates st' = boardStates st
     /\ possibleTurnsCount st' = possibleTurnsCount st
     /\ (length (players st') <= length (players st))%nat)
  /\ forall a, ~ In (Reload a) ls.
Proof.
  induction ls as [|l ls IH]; intros w st w' Hr Hs Hstale Hrun; cbn [run] in Hrun.
  - injection Hrun as <-. split; [|intros a []].
    exists st. repeat split; solve [assumption | lia].
  - destruct (step l w) as [w1|] eqn:Hstep; [|discriminate].
    pose proof (reachable_Inv _ _ Hr) as Hi.
    pose proof (Inv_wf _ _ Hi Hs) as Hwf.
    destruct (step_frame _ _ _ _ Hi Hs Hstep)
      as (st1 & Hs1 & _ & _ & Hst & _ & Hpl & _).
    specialize (Hst Hstale).
    destruct (IH w1 st1 w' (reach_step _ _ _ _ Hr Hstep) Hs1 Hst Hrun)
      as [(st' & Hs' & Hstale' & Hb' & Hc' & Hp') Hno].
    assert (Hplayers : (length (players st1) <= length (players st))%nat).
    { destruct l as [[u| | |] | | | |]; try (apply Hpl; intros; discriminate).
      cbn [step onEvent] in Hstep. injection Hstep as <-.
      assert (Hp : phase st <> Lobby) by (unfold phase; rewrite Hstale; discriminate).
      unfold exec in Hs1. rewrite (join_rejected w st u Hs Hp) in Hs1.
      destruct w; cbn in Hs1, Hs. rewrite Hs in Hs1. injection Hs1 as <-. lia. }
    destruct (step_board w st l w1 st1 Hi Hwf Hs Hstep Hs1)
      as [(Hb & Hn & _) | (u & b & n & p & _ & Hacc & _)].
    + split.
      * exists st'. split; [exact Hs'|]. split; [exact Hstale'|].
        split; [congruence|]. split; [congruence | lia].
      * intros a [->|Hin]; [|exact (Hno a Hin)].
        apply (reload_world _ _ _ _ Hs) in Hstep as [Hf _]. congruence.
    + destruct Hacc as (_ & Hclick & _). apply clickable_true in Hclick as (Hf & _).
      congruence.
Qed.

(** ** After a player has left *)

Lemma leave_member w st user :
  this_state w = Some st ->
  In (user_id user) (map user_id (players st)) ->
  exists st',
    this_state (exec (handleLeave user) w) = Some st'
    /\ stale st' = true
    /\ started st' = started st
    /\ boardStates st' = boardStates st
    /\ possibleTurnsCount st' = possibleTurnsCount st
    /\ S (length (players st')) = length (players st)
    /\ pending (exec (handleLeave user) w) = pending w.
Proof.
  intros Hs Hin. destruct w as [gs icons s reqs pend cons]. cbn in Hs. subst s.
  destruct (indexOf_spec (map user_id (players st)) (user_id user))
    as [[_ Hno]|(Hr & _)]; [contradiction|].
  rewrite length_map in Hr. pose proof (splice1_length _ _ Hr) as Hlen.
  mrun_post; props; try lia.
  all: eexists; (split; [reflexivity|]); cbn; repeat split.
  all: first [assumption | lia].
Qed.

Lemma click_on_stale w st user buttonId :
  this_state w = Some st -> stale st = true ->
  handleButtonClick user buttonId w = (Return tt, w).
Proof.
  intros Hs Hstale. destruct w as [gs icons s reqs pend cons]. cbn in Hs. subst s.
  unfold handleButtonClick, bind, getState, ret, deref, clickable. cbn.
  rewrite Hstale. cbn. destruct (parseInt buttonId); reflexivity.
Qed.

(** X9: once a player has left, the session is closed for good: the
    departure sets [stale] whatever the phase was and leaves the board
    alone; from then on every click returns without any effect, every join
    is answered with a private notice only, and [destroy] hands out no
    bundle. *)
Theorem leave_closes_session w st user :
  this_state w = Some st ->
  In (user_id user) (map user_id (players st)) ->
  let w' := exec (handleLeave user) w in
  (exists st',
     this_state w' = Some st'
     /\ stale st' = true
     /\ boardStates st' = boardStates st
     /\ S (length (players st')) = length (players st))
  /\ (forall u buttonId, handleButtonClick u buttonId w' = (Return tt, w'))
  /\ (forall u,
        handleJoin u w'
        = (Return tt,
           with_requests
             (requests w'
                ++ [sendPrivateMessage (user_id u)
                      (if started st then startedText else finishedText)])
             w'))
  /\ destroy w' = (Return None, w').
Proof.
  intros Hs Hin w'.
  destruct (leave_member w st user Hs Hin)
    as (st' & Hs' & Hstale & Hstarted & Hb & _ & Hlen & _).
  fold w' in Hs'. clearbody w'.
  split; [exists st'; repeat split; assumption|]. split; [|split].
  - intros u b. exact (click_on_stale w' st' u b Hs' Hstale).
  - intros u. rewrite <- Hstarted. apply join_rejected; [exact Hs'|].
    unfold phase. rewrite Hstale. discriminate.
  - destruct w' as [gs icons s reqs pend cons]. cbn in Hs'. subst s.
    unfold destroy, bind, getState, ret, deref. cbn. rewrite Hstale. reflexivity.
Qed.

(** ** Handlers that return *)

Lemma iconsText_two st :
  length (players st) = 2%nat -> exists text, iconsText st = Return text.
Proof.
  intros H. unfold iconsText.
  destruct (players st) as [|p0 [|p1 [|]]]; try discriminate.
  eexists. reflexivity.
Qed.

Lemma join_returns w st u :
  Inv w -> this_state w = Some st -> fst (handleJoin u w) = Return tt.
Proof.
  intros Hi Hs. pose proof (Inv_wf _ _ Hi Hs) as [Wb Wc Wp Wl Wa Wd We].
  destruct w as [gs icons s reqs pend cons]. cbn in Hs. subst s.
  unfold handleJoin, startGame, bind, getState, modify, call, await, lift, ret,
    deref. cbn.
  destruct (started st) eqn:Hstarted; [reflexivity|].
  destruct (stale st) eqn:Hstale; [reflexivity|]. cbn.
  destruct (length (players st ++ [u]) =? 1)%nat eqn:H1; [reflexivity|].
  destruct (length (players st ++ [u]) =? 2)%nat eqn:H2; [|reflexivity].
  apply Nat.eqb_eq in H2. cbn.
  match goal with
  | |- context [iconsText ?s] =>
      destruct (iconsText_two s H2) as [text ->];
      destruct (blank_board_renders s (proj1 Wb) (We eq_refl)) as [board ->]
  end.
  reflexivity.
Qed.

Lemma leave_returns w st u :
  this_state w = Some st -> fst (handleLeave u w) = Return tt.
Proof.
  intros Hs. destruct w as [gs icons s reqs pend cons]. cbn in Hs. subst s.
  unfold handleLeave, bind, getState, modify, call, ret, deref. cbn.
  repeat (break_match; cbn); reflexivity.
Qed.

(** The world after a move that completes a line. *)
Lemma winning_move_world w st user buttonId n p line :
  this_state w = Some st -> board3x3 st ->
  accepted st user buttonId n p ->
  checkForWin (marked st n) = Return (Some line) ->
  handleButtonClick user buttonId w
  = (Return tt,
     with_pending (pending w ++ [(HostReply, K_winRetracted line)])
       (with_requests
          (requests w
             ++ [deleteMessage (channelId st) (lastTurnMessageId st)])
          (with_state (Some (set_stale true (marked st n))) w))).
Proof.
  intros Hs Hb Hacc Hwin.
  destruct Hacc as (Hparse & Hclick & Hcp & (u & Hu & Hid) & Haccept & Hcell).
  pose proof Hb as (Hg & _).
  rewrite (getCoordFromIndex_3 st n Hg) in Hcell. cbn [fst snd] in Hcell.
  destruct w as [gs icons s reqs pend cons]. cbn in Hs. subst s.
  unfold handleButtonClick, handleUserTurn, bind, getState, deref, lift, modify,
    await, renderWinMessage. cbn.
  rewrite Hparse, Hclick. unfold currentPlayer. rewrite Hcp, Hu. cbn.
  rewrite bool_decide_eq_true_2 by assumption. cbn. rewrite Haccept. cbn.
  rewrite (getCoordFromIndex_3 st n Hg). rewrite Hcell. cbn.
  unfold marked in Hwin. rewrite (getCoordFromIndex_3 st n Hg) in Hwin.
  cbn [fst snd] in Hwin.
  unfold cell, obind, deref in Hcell.
  destruct (at_ (boardStates st) (n / 3)) as [row|] eqn:Hrow; [|discriminate].
  cbn. rewrite Hwin. cbn.
  unfold marked. rewrite (getCoordFromIndex_3 st n Hg). cbn [fst snd].
  rewrite Hrow. reflexivity.
Qed.

Lemma click_returns args w st user buttonId :
  reachable args w -> this_state w = Some st ->
  (forall p, iconOf (playerIcons st) p <> None) ->
  fst (handleButtonClick user buttonId w) = Return tt.
Proof.
  intros Hr Hs Hicons. pose proof (reachable_wf _ _ _ Hr Hs) as Hwf.
  pose proof (wf_board _ Hwf) as Hb. pose proof Hb as (Hg & _).
  destruct (parseInt buttonId) as [n|] eqn:Hparse.
  2:{ destruct w as [gs icons s reqs pend cons]. cbn in Hs. subst s.
      unfold handleButtonClick, bind, getState, ret, deref. cbn.
      rewrite Hparse. reflexivity. }
  destruct (clickable st n) eqn:Hclick.
  2:{ destruct w as [gs icons s reqs pend cons]. cbn in Hs. subst s.
      unfold handleButtonClick, bind, getState, ret, deref. cbn.
      rewrite Hparse, Hclick. reflexivity. }
  destruct (reachable_currentPlayer _ _ _ n Hr Hs Hclick) as (p & u & Hp & Hu & Hcp).
  pose proof Hclick as Hc. apply clickable_true in Hc as (_ & Hn & _).
  pose proof (ownerOf_cell st n Hb Hn) as Hcell.
  destruct (decide (user_id user = user_id u)) as [Hid|Hid].
  2:{ destruct w as [gs icons s reqs pend cons]. cbn in Hs. subst s.
      unfold handleButtonClick, bind, getState, ret, deref, lift, notice, await.
      cbn. rewrite Hparse, Hclick, Hcp.
      rewrite bool_decide_eq_false_2 by assumption. reflexivity. }
  destruct (acceptSelection st) eqn:Haccept.
  2:{ destruct w as [gs icons s reqs pend cons]. cbn in Hs. subst s.
      unfold handleButtonClick, bind, getState, ret, deref, lift, notice, await.
      cbn. rewrite Hparse, Hclick, Hcp.
      rewrite bool_decide_eq_true_2 by assumption. cbn. rewrite Haccept.
      reflexivity. }
  destruct (ownerOf st n) as [owner|] eqn:Hown.
  { destruct w as [gs icons s reqs pend cons]. cbn in Hs. subst s.
    unfold handleButtonClick, handleUserTurn, bind, getState, ret, deref, lift,
      console_warn. cbn. rewrite Hparse, Hclick, Hcp.
    rewrite bool_decide_eq_true_2 by assumption. cbn. rewrite Haccept. cbn.
    rewrite (getCoordFromIndex_3 st n Hg), Hcell. reflexivity. }
  assert (Hacc : accepted st user buttonId n p).
  { unfold accepted. rewrite (getCoordFromIndex_3 st n Hg). cbn [fst snd].
    repeat split; try assumption. exists u. split; assumption. }
  pose proof (marked_facts st user buttonId n p Hb Hacc) as (_ & _ & Mb & _).
  pose proof (checkForWin_firstOwned _ Mb) as Hwin.
  destruct (firstOwned (marked st n)) as [line|].
  - rewrite (winning_move_world w st user buttonId n p line Hs Hb Hacc Hwin).
    reflexivity.
  - destruct (iconOf (playerIcons st) p) as [icon|] eqn:Hicon;
      [|exfalso; exact (Hicons p Hicon)].
    destruct (accepted_move_world w st user buttonId n p icon Hs Hb Hacc Hwin Hicon)
      as (md & control & _ & Hrun).
    rewrite Hrun. reflexivity.
Qed.

(** X10: on a reachable session whose players both have an icon, no
    event handler throws: [onEvent] returns for every event.  Before the
    channel exists ([this.state] is [undefined]) every join, leave and
    click throws and changes nothing. *)
Theorem onEvent_returns args w event :
  reachable args w ->
  (forall st,
     this_state w = Some st ->
     (forall p, iconOf (this_playerIcons (constructor args)) p <> None) ->
     fst (onEvent event w) = Return tt)
  /\ (this_state w = None -> event <> OtherGameEvent ->
      onEvent event w = (Throw, w)).
Proof.
  intros Hr. split.
  - intros st Hs Hicons. pose proof (reachable_Inv _ _ Hr) as Hi.
    pose proof (reachable_icons _ _ Hr) as Hicons'. rewrite Hs in Hicons'.
    rewrite <- Hicons' in Hicons.
    destruct event as [u|u|u b|]; cbn [onEvent].
    + exact (join_returns w st u Hi Hs).
    + exact (leave_returns w st u Hs).
    + exact (click_returns args w st u b Hr Hs Hicons).
    + reflexivity.
  - intros Hs Hev. destruct w as [gs icons s reqs pend cons]. cbn in Hs. subst s.
    destruct event; [reflexivity..|congruence].
Qed.

(** ** Where the waiting callbacks come from *)

Ltac origin :=
  let Hin := fresh "Hin" in
  cbn [pending]; intros Hin; split_in;
  first
    [ left; assumption
    | right;
      repeat match goal with
        | H : (_, _) = (_, _) |- _ => injection H as ? ?; subst
        end;
      cbn [registers]; props;
      first
        [ eexists; split; [reflexivity|]; apply phase_Lobby; split; assumption
        | do 4 eexists; split; [reflexivity|]; split; [eassumption|];
          first [ left; reflexivity
                | right; left; reflexivity
                | right; reflexivity
                | right; right; eexists; reflexivity ]
        | do 2 eexists; split; [reflexivity|]; split; [eassumption|assumption]
        | do 2 eexists; split; [reflexivity|]; eassumption ] ].

Lemma step_origin l w w' st t k :
  Inv w -> this_state w = Some st -> step l w = Some w' ->
  In (t, k) (pending w') ->
  In (t, k) (pending w) \/ registers l w st k.
Proof.
  intros Hi Hs Hstep. revert t k.
  destruct l as [event | i r coin | i | i | args]; cbn [step] in Hstep.
  - injection Hstep as <-. destruct event as [u|u|u b|]; cbn [onEvent].
    + destruct w as [gs icons s reqs pend cons]. cbn in Hs. subst s.
      intros t k. mrun_post; origin.
    + destruct w as [gs icons s reqs pend cons]. cbn in Hs. subst s.
      intros t k. mrun_post; origin.
    + pose proof (click_summary w st u b Hs) as Hsum. cbv zeta in Hsum.
      destruct Hsum as (_ & _ & [(_ & Hp & Hno) | (n & p & Hmove & Hsum)]).
      * intros t k. destruct Hp as [-> | ->]; [auto|].
        intros Hin. apply List.in_app_or in Hin as [Hin|[[= <- <-]|[]]]; [auto|].
        right. cbn [registers]. eauto.
      * intros t k.
        destruct Hsum as [(line & Hl & _ & ->) | [(Hl & _ & [-> | ->]) | (_ & _ & ->)]];
          try (left; assumption);
          intros Hin; apply List.in_app_or in Hin as [Hin|[[= <- <-]|[]]]; auto;
          right; cbn [registers]; eauto 8.
    + intros t k. auto.
  - destruct (pending w !! i) as [[[|ms] k0]|] eqn:Hk; try discriminate.
    destruct (resume k0 r coin) as [m|] eqn:Hr; [|discriminate].
    injection Hstep as <-.
    destruct Hi as (_ & _ & Hi). rewrite Hs in Hi. destruct Hi as (_ & Hnc & _).
    pose proof (lookup_In _ _ _ Hk) as Hin0.
    destruct w as [gs icons s reqs pend cons]. cbn in Hs, Hk, Hnc, Hin0. subst s.
    intros t k.
    destruct k0, r; try discriminate Hr; cbn in Hr; injection Hr as <-.
    all: try (exfalso; eapply Hnc; eassumption).
    all: mrun_post; origin.
  - destruct (pending w !! i) as [[[|ms] k0]|] eqn:Hk; try discriminate.
    injection Hstep as <-. intros t k Hin. left. eapply In_delete. exact Hin.
  - destruct (pending w !! i) as [[[|ms] k0]|] eqn:Hk; try discriminate.
    destruct (fire k0) as [m|] eqn:Hf; [|discriminate].
    injection Hstep as <-.
    destruct k0; try discriminate Hf. cbn in Hf. injection Hf as <-.
    destruct w as [gs icons s reqs pend cons]. cbn in Hs. subst s.
    intros t k. mrun_post; origin.
  - apply (reload_world _ _ _ _ Hs) in Hstep as [Hstale ->].
    intros t k [].
Qed.

(** ** A turn cycle that was cut short *)

Lemma inFlight_pos l :
  inFlight l <> 0%nat -> exists t k, In (t, k) l /\ turnCycle k = true.
Proof.
  unfold inFlight. intros H.
  destruct (List.filter (fun tk => turnCycle (snd tk)) l) as [|[t k] rest] eqn:E;
    [contradiction|].
  assert (Hin : In (t, k) (List.filter (fun tk => turnCycle (snd tk)) l))
    by (rewrite E; left; reflexivity).
  apply List.filter_In in Hin as [Hin Hk]. eauto.
Qed.

Lemma step_stalled l w w' st :
  Inv w -> this_state w = Some st ->
  started st = true -> acceptSelection st = false ->
  inFlight (pending w) = 0%nat ->
  step l w = Some w' ->
  exists st',
    this_state w' = Some st'
    /\ started st' = true
    /\ acceptSelection st' = false
    /\ inFlight (pending w') = 0%nat
    /\ boardStates st' = boardStates st
    /\ possibleTurnsCount st' = possibleTurnsCount st.
Proof.
  intros Hi Hs Hstarted Haccept Hfl Hstep.
  pose proof (Inv_wf _ _ Hi Hs) as Hwf.
  destruct (step_frame _ _ _ _ Hi Hs Hstep)
    as (st' & Hs' & _ & Hst & _ & _ & _ & Hflip & _).
  exists st'. split; [exact Hs'|]. split; [auto|].
  assert (Hnoturn : forall i k0, pending w !! i = Some (HostReply, k0) ->
            turnCycle k0 = false).
  { intros i k0 Hk. eapply inFlight_zero; [exact Hfl|]. eapply lookup_In. exact Hk. }
  split.
  { destruct (acceptSelection st') eqn:Ha; [|reflexivity].
    destruct (Hflip Haccept eq_refl) as (i & md & coin & k & _ & Hk).
    apply Hnoturn in Hk. discriminate Hk. }
  split.
  { destruct (Nat.eq_dec (inFlight (pending w')) 0%nat) as [H0|Hpos]; [exact H0|].
    exfalso. apply inFlight_pos in Hpos as (t & k & Hin & Hk).
    destruct (step_origin _ _ _ _ _ _ Hi Hs Hstep Hin) as [Hold|Hnew].
    - pose proof (inFlight_zero _ _ _ Hfl Hold). congruence.
    - destruct k; try discriminate Hk; cbn [registers] in Hnew.
      + destruct Hnew as (u & _ & Hp). apply phase_Lobby in Hp as [Hp _]. congruence.
      + destruct Hnew as (i & r & coin & k0 & _ & Hk0 & [-> | ->]);
          apply Hnoturn in Hk0; discriminate Hk0.
      + destruct Hnew as (i & r & coin & k0 & _ & Hk0 & [-> | [-> | [k1 ->]]]);
          apply Hnoturn in Hk0; discriminate Hk0.
      + destruct Hnew as (u & b & n & p & _ & Hacc & _).
        destruct Hacc as (_ & _ & _ & _ & Ha & _). congruence. }
  destruct (step_board w st l w' st' Hi Hwf Hs Hstep Hs')
    as [(Hb & Hn & _) | (u & b & n & p & _ & Hacc & _)]; [split; assumption|].
  destruct Hacc as (_ & _ & _ & _ & Ha & _). congruence.
Qed.

Lemma run_stalled args ls : forall w st w',
  reachable args w -> this_state w = Some st ->
  started st = true -> acceptSelection st = false ->
  inFlight (pending w) = 0%nat ->
  run ls w = Some w' ->
  (exists st',
     this_state w' = Some st'
     /\ acceptSelection st' = false
     /\ boardStates st' = boardStates st
     /\ possibleTurnsCount st' = possibleTurnsCount st)
  /\ movers ls w = [].
Proof.
  induction ls as [|l ls IH]; intros w st w' Hr Hs Hstarted Haccept Hfl Hrun;
    cbn [run movers] in *.
  - injection Hrun as <-. split; [|reflexivity]. exists st. repeat split; assumption.
  - destruct (step l w) as [w1|] eqn:Hstep; [|discriminate].
    pose proof (reachable_Inv _ _ Hr) as Hi.
    destruct (step_stalled l w w1 st Hi Hs Hstarted Haccept Hfl Hstep)
      as (st1 & Hs1 & Hst1 & Ha1 & Hf1 & Hb1 & Hc1).
    destruct (IH w1 st1 w' (reach_step _ _ _ _ Hr Hstep) Hs1 Hst1 Ha1 Hf1 Hrun)
      as [(st' & Hs' & Ha' & Hb' & Hc') Hm].
    split.
    + exists st'. repeat split; congruence.
    + rewrite (moved_same w w1 st st1 Hs Hs1 Hc1). exact Hm.
Qed.

(** X11: [acceptSelection] is set only at the end of a turn cycle.  On a
    started session where it is false and no callback of the turn cycle
    is waiting, nothing sets it again: along every execution it stays
    false, board and counter keep their values and no move is accepted. *)
Theorem stalled_session args ls w st w' :
  reachable args w -> this_state w = Some st ->
  started st = true -> acceptSelection st = false ->
  inFlight (pending w) = 0%nat ->
  run ls w = Some w' ->
  (exists st',
     this_state w' = Some st'
     /\ acceptSelection st' = false
     /\ boardStates st' = boardStates st
     /\ possibleTurnsCount st' = possibleTurnsCount st)
  /\ movers ls w = [].
Proof. apply run_stalled. Qed.

(** X12: no request is retried.  When the host fails a request of the
    turn cycle (the board message, the replacement of a control, the
    deletion of the old turn message or the new turn message), its
    callback is dropped, the state stays as it is, and from then on no
    move is accepted in any execution. *)
Theorem failed_request_freezes args w st i k :
  reachable args w -> this_state w = Some st ->
  pending w !! i = Some (HostReply, k) -> turnCycle k = true ->
  exists w1,
    step (Reject i) w = Some w1
    /\ this_state w1 = Some st
    /\ requests w1 = requests w
    /\ forall ls w',
         run ls w1 = Some w' ->
         (exists st',
            this_state w' = Some st'
            /\ acceptSelection st' = false
            /\ boardStates st' = boardStates st
            /\ possibleTurnsCount st' = possibleTurnsCount st)
         /\ movers ls w1 = [].
Proof.
  intros Hr Hs Hk Ht. pose proof (reachable_Inv _ _ Hr) as Hi.
  assert (Hstep : step (Reject i) w = Some (with_pending (delete i (pending w)) w))
    by (cbn [step]; rewrite Hk; reflexivity).
  exists (with_pending (delete i (pending w)) w).
  split; [exact Hstep|]. split; [destruct w; exact Hs|]. split; [destruct w; reflexivity|].
  pose proof (inFlight_delete _ _ _ _ Hk) as Hd. rewrite Ht in Hd.
  pose proof Hi as (_ & Hle & Hst). rewrite Hs in Hst.
  destruct Hst as (_ & _ & Hacc & Hlob).
  assert (Hfl : inFlight (delete i (pending w)) = 0%nat) by lia.
  assert (Haccept : acceptSelection st = false).
  { destruct (acceptSelection st); [|reflexivity]. specialize (Hacc eq_refl). lia. }
  assert (Hstarted : started st = true).
  { destruct (started st); [reflexivity|]. destruct (Hlob eq_refl). lia. }
  intros ls w' Hrun.
  apply (run_stalled args ls (with_pending (delete i (pending w)) w) st w');
    try assumption.
  eapply reach_step; eassumption.
Qed.

(** ** Fields that are set once *)

Lemma step_keeps l w w' st :
  Inv w -> this_state w = Some st -> step l w = Some w' ->
  exists st',
    this_state w' = Some st'
    /\ channelId st' = channelId st
    /\ (isDefined (gameBoardMessageDescriptor st) = true ->
        isDefined (gameBoardMessageDescriptor st') = true)
    /\ (isDefined (lastTurnMessageId st) = true ->
        isDefined (lastTurnMessageId st') = true)
    /\ (isDefined (currentPlayerIndex st) = true ->
        isDefined (currentPlayerIndex st') = true).
Proof.
  intros Hi Hs Hstep.
  assert (Hnp : isDefined (currentPlayerIndex st) = true ->
                isDefined (nextPlayer (currentPlayerIndex st)) = true)
    by (destruct (currentPlayerIndex st); [reflexivity | discriminate]).
  destruct l as [event | i r coin | i | i | args]; cbn [step] in Hstep.
  - injection Hstep as <-. destruct event as [u|u|u b|]; cbn [onEvent].
    + destruct w as [gs icons s reqs pend cons]. cbn in Hs. subst s.
      mrun_post.
      all: eexists; (split; [reflexivity|]); ffin.
    + destruct w as [gs icons s reqs pend cons]. cbn in Hs. subst s.
      mrun_post.
      all: eexists; (split; [reflexivity|]); ffin.
    + pose proof (click_summary w st u b Hs) as Hsum. cbv zeta in Hsum.
      destruct Hsum as (_ & _ & [(Hst & _ & _) | (n & p & Hmove & Hsum)]).
      * exists st. split; [assumption|]. ffin.
      * destruct Hsum as [(line & _ & Hst & _) | [(_ & Hst & _) | (_ & Hst & _)]];
          eexists; (split; [exact Hst|]); unfold marked; ffin.
    + exists st. split; [assumption|]. ffin.
  - destruct (pending w !! i) as [[[|ms] k]|] eqn:Hk; try discriminate.
    destruct (resume k r coin) as [m|] eqn:Hr; [|discriminate].
    injection Hstep as <-.
    destruct Hi as (_ & _ & Hi). rewrite Hs in Hi. destruct Hi as (_ & Hnc & _).
    pose proof (lookup_In _ _ _ Hk) as Hin.
    destruct w as [gs icons s reqs pend cons]. cbn in Hs, Hk, Hnc, Hin. subst s.
    destruct k, r; try discriminate Hr; cbn in Hr; injection Hr as <-.
    all: try (exfalso; eapply Hnc; eassumption).
    all: mrun_post.
    all: eexists; (split; [reflexivity|]); ffin.
    all: match goal with
         | H : ?x = Some _ |- isDefined ?x = true => rewrite H; reflexivity
         end.
  - destruct (pending w !! i) as [[[|ms] k]|] eqn:Hk; try discriminate.
    injection Hstep as <-. exists st. split; [assumption|]. ffin.
  - destruct (pending w !! i) as [[[|ms] k]|] eqn:Hk; try discriminate.
    destruct (fire k) as [m|] eqn:Hf; [|discriminate].
    injection Hstep as <-.
    destruct k; try discriminate Hf. cbn in Hf. injection Hf as <-.
    destruct w as [gs icons s reqs pend cons]. cbn in Hs. subst s.
    mrun_post.
    all: eexists; (split; [reflexivity|]); ffin.
  - apply (reload_world _ _ _ _ Hs) in Hstep as [Hstale ->].
    exists st. split; [reflexivity|]. ffin.
Qed.

(** ** The line on the board *)

Lemma find_ext_all {A} (f g : A -> bool) l :
  (forall x, f x = g x) -> find f l = find g l.
Proof.
  intros H. induction l as [|a l IH]; [reflexivity|].
  cbn. rewrite H, IH. reflexivity.
Qed.

Lemma firstOwned_board st st' :
  boardStates st' = boardStates st -> firstOwned st' = firstOwned st.
Proof.
  intros H. unfold firstOwned. apply find_ext_all. intros line.
  unfold fullyOwnedb. destruct line as [|i rest]; [reflexivity|].
  rewrite (ownerOf_board _ _ H i). f_equal.
  induction rest as [|j rest IH]; [reflexivity|].
  cbn [forallb]. rewrite (ownerOf_board _ _ H j), IH. reflexivity.
Qed.

Lemma firstOwned_blank st :
  boardStates st = blankBoard -> firstOwned st = None.
Proof.
  intros H. unfold firstOwned, winningLines, fullyOwnedb, ownerOf. rewrite H.
  reflexivity.
Qed.

Lemma accepted_facts st user buttonId n p :
  wf_state st -> accepted st user buttonId n p ->
  stale st = false
  /\ acceptSelection st = true
  /\ isDefined (gameBoardMessageDescriptor st) = true
  /\ possibleTurnsCount st <> 0
  /\ checkForWin (marked st n) = Return (firstOwned (marked st n)).
Proof.
  intros Hwf Hacc. pose proof (wf_board _ Hwf) as Hb.
  pose proof (marked_facts st user buttonId n p Hb Hacc) as (_ & _ & Mb & Mo & _).
  pose proof Hacc as (_ & Hclick & _ & _ & Ha & _).
  apply clickable_true in Hclick as (Hstale & _ & Hd).
  split; [exact Hstale|]. split; [exact Ha|]. split; [exact Hd|]. split.
  - pose proof (occupied_le _ Mb) as Hle. pose proof (wf_count _ Hwf) as Hc.
    destruct Hb as (Hg & _). rewrite Hg in Hc. change (3 ^ 2) with 9 in Hc. lia.
  - apply checkForWin_firstOwned. exact Mb.
Qed.

Lemma step_WinInv l w w' :
  Inv w -> WinInv w -> step l w = Some w' -> WinInv w'.
Proof.
  intros Hi Hw Hstep.
  destruct (this_state w) as [st|] eqn:Hs.
  2:{ destruct Hi as (_ & _ & Hp). rewrite Hs in Hp.
      destruct w as [gs icons s reqs pend cons]. cbn in Hs, Hp. subst s.
      destruct l as [event | i r coin | i | i | a]; cbn [step] in Hstep.
      - injection Hstep as <-. rewrite exec_uninitialised by reflexivity. exact I.
      - cbn in Hstep. destruct Hp as [-> | ->]; [destruct i; discriminate|].
        destruct i as [|i]; [|destruct i; discriminate]. cbn in Hstep.
        destruct r; try discriminate. cbn in Hstep. injection Hstep as <-.
        unfold WinInv, exec. cbn.
        split; [intros _; apply firstOwned_blank; reflexivity|].
        split; [intros t []|]. split; [intros t []|]. intros t line [[]|[]].
      - cbn in Hstep. destruct (pend !! i) as [[[|ms] k]|]; try discriminate.
        injection Hstep as <-. exact I.
      - cbn in Hstep. destruct Hp as [-> | ->]; [destruct i; discriminate|].
        destruct i as [|i]; [|destruct i; discriminate]. discriminate Hstep.
      - discriminate Hstep. }
  pose proof (Inv_wf _ _ Hi Hs) as Hwf.
  unfold WinInv in Hw. rewrite Hs in Hw. destruct Hw as (W1 & W2 & W3 & W4).
  pose proof Hi as (_ & _ & Hinv). rewrite Hs in Hinv.
  destruct Hinv as (_ & _ & Hflight & _).
  destruct (step_frame _ _ _ _ Hi Hs Hstep)
    as (st' & Hs' & _ & _ & Hstale & Hboard & _).
  destruct (step_keeps _ _ _ _ Hi Hs Hstep) as (x & Hx & _ & Hdesc & _).
  rewrite Hs' in Hx. injection Hx as <-.
  unfold WinInv. rewrite Hs'.
  assert (Hclick : (exists u b, l = Deliver (ButtonClickGameEvent u b))
                   \/ forall u b, l <> Deliver (ButtonClickGameEvent u b)).
  { destruct l as [[u|u|u b|] | | | |]; try (right; intros; discriminate).
    left. eauto. }
  destruct Hclick as [(u & b & ->) | Hother].
  - cbn [step onEvent] in Hstep. injection Hstep as <-.
    pose proof (click_summary w st u b Hs) as Hsum. cbv zeta in Hsum.
    destruct Hsum as (_ & _ & [(Hst & Hp & _) | (n & p & Hmove & Hsum)]).
    + rewrite Hs' in Hst. injection Hst as ->.
      assert (Hin : forall t k, k <> K_noticeSent ->
                In (t, k) (pending (exec (handleButtonClick u b) w)) ->
                In (t, k) (pending w)).
      { intros t k Hk Hin. destruct Hp as [Hp | Hp]; rewrite Hp in Hin; [exact Hin|].
        apply List.in_app_or in Hin as [Hin|[[= _ <-]|[]]]; [exact Hin | congruence]. }
      split; [exact W1|]. split; [intros t H; eapply W2, Hin; [discriminate|exact H]|].
      split; [intros t H; eapply W3, Hin; [discriminate|exact H]|].
      intros t line [H|H]; eapply W4; [left|right]; eapply Hin; try exact H; discriminate.
    + destruct (accepted_facts st u b n p Hwf Hmove) as (Hns & Ha & Hd & Hc & Hwin).
      specialize (Hflight Ha).
      assert (Hold : forall t k, In (t, k) (pending w) ->
                match k with
                | K_controlReplaced | K_drawRetracted
                | K_winRetracted _ | K_winEdited _ => False
                | _ => True
                end).
      { intros t k Hin. destruct k; try exact I.
        - pose proof (inFlight_zero _ _ _ Hflight Hin) as Ht. discriminate Ht.
        - destruct (W3 _ Hin) as [_ H0]. contradiction.
        - destruct (W4 t winRow (or_introl Hin)) as (_ & H1 & _). congruence.
        - destruct (W4 t winRow (or_intror Hin)) as (_ & H1 & _). congruence. }
      pose proof (marked_fields st n) as (_ & F2 & F3 & _).
      destruct Hsum as [(line & Hl & Hst & Hp) | [(Hl & Hst & Hp) | (Hl & _)]];
        [| |congruence].
      * rewrite Hs' in Hst. injection Hst as ->. rewrite Hp.
        split; [discriminate|].
        split; [intros t [H|[[=]|[]]]%List.in_app_or; destruct (Hold _ _ H)|].
        split; [intros t [H|[[=]|[]]]%List.in_app_or; destruct (Hold _ _ H)|].
        intros t line' [[H|[[= _ <-]|[]]]%List.in_app_or|[H|[[=]|[]]]%List.in_app_or];
          try (destruct (Hold _ _ H)).
        split; [|split; [reflexivity|]].
        -- rewrite (firstOwned_board (marked st n)) by reflexivity. congruence.
        -- exact Hd.
      * rewrite Hs' in Hst. injection Hst as ->.
        assert (Hnone : firstOwned (set_acceptSelection false (marked st n)) = None).
        { rewrite (firstOwned_board (marked st n)) by reflexivity. congruence. }
        assert (Hin : forall t k,
                  In (t, k) (pending (exec (handleButtonClick u b) w)) ->
                  In (t, k) (pending w) \/ k = K_controlReplaced).
        { intros t k Hin. destruct Hp as [Hp | Hp]; rewrite Hp in Hin; [auto|].
          apply List.in_app_or in Hin as [Hin|[[= _ <-]|[]]]; auto. }
        split; [intros _; exact Hnone|]. split; [intros t _; exact Hnone|].
        split.
        { intros t H. apply Hin in H as [H|H]; [destruct (Hold _ _ H) | discriminate]. }
        intros t line' [H|H]; apply Hin in H as [H|H];
          solve [destruct (Hold _ _ H) | discriminate].
  - destruct (Hboard Hother) as [Hb Hc].
    rewrite (firstOwned_board _ _ Hb), Hc.
    split.
    { intros Hf. apply W1. destruct (stale st); [specialize (Hstale eq_refl); congruence|reflexivity]. }
    split.
    { intros t Hin. destruct (step_origin _ _ _ _ _ _ Hi Hs Hstep Hin) as [H|H];
        [exact (W2 _ H)|].
      cbn [registers] in H. destruct H as (u & b & _ & _ & -> & _).
      exfalso. eapply Hother. reflexivity. }
    split.
    { intros t Hin. destruct (step_origin _ _ _ _ _ _ Hi Hs Hstep Hin) as [H|H];
        [exact (W3 _ H)|].
      cbn [registers] in H. destruct H as (i & coin & _ & Hk & H0).
      split; [|exact H0]. eapply W2. eapply lookup_In. exact Hk. }
    intros t line [Hin|Hin];
      destruct (step_origin _ _ _ _ _ _ Hi Hs Hstep Hin) as [H|H].
    + destruct (W4 t line (or_introl H)) as (H1 & H2 & H3). auto.
    + cbn [registers] in H. destruct H as (u & b & _ & _ & -> & _).
      exfalso. eapply Hother. reflexivity.
    + destruct (W4 t line (or_intror H)) as (H1 & H2 & H3). auto.
    + cbn [registers] in H. destruct H as (i & coin & _ & Hk).
      destruct (W4 HostReply line (or_introl (lookup_In _ _ _ Hk))) as (H1 & H2 & H3).
      auto.
Qed.

Lemma reachable_WinInv args w : reachable args w -> WinInv w.
Proof.
  induction 1 as [|w l w' Hr IH Hstep]; [exact I|].
  exact (step_WinInv l w w' (reachable_Inv _ _ Hr) IH Hstep).
Qed.

Lemma firstOwned_Some st line :
  firstOwned st = Some line ->
  In line winningLines /\ fullyOwned st line.
Proof.
  unfold firstOwned. intros H. apply find_some in H as [Hin Hb].
  split; [exact Hin|].
  apply fullyOwnedb_spec; [apply winningLines_nonempty|]; assumption.
Qed.

Lemma firstOwned_None st line :
  firstOwned st = None -> In line winningLines -> ~ fullyOwned st line.
Proof.
  unfold firstOwned. intros H Hin Hown.
  apply (find_none _ _ H) in Hin as Hb.
  apply fullyOwnedb_spec in Hown; [congruence|].
  apply winningLines_nonempty. exact Hin.
Qed.

Lemma winningLines_cells line :
  In line winningLines ->
  (exists first rest, line = first :: rest)
  /\ Forall (fun m => 0 <= m <= 8) line.
Proof.
  unfold winningLines. simpl. intros H.
  repeat (destruct H as [<-|H];
          [split; [eauto | repeat constructor; lia]|]).
  destruct H.
Qed.

(** ** A move that completes a line *)

Lemma winning_line args w st user buttonId n p line :
  reachable args w -> this_state w = Some st ->
  accepted st user buttonId n p ->
  checkForWin (marked st n) = Return (Some line) ->
  In line winningLines
  /\ In n line
  /\ Forall (fun m => ownerOf (marked st n) m = Some p) line.
Proof.
  intros Hr Hs Hacc Hwin.
  pose proof (reachable_wf _ _ _ Hr Hs) as Hwf.
  pose proof (wf_board _ Hwf) as Hb.
  pose proof (reachable_WinInv _ _ Hr) as Hw. unfold WinInv in Hw.
  rewrite Hs in Hw. destruct Hw as (W1 & _).
  destruct (accepted_facts st user buttonId n p Hwf Hacc)
    as (Hstale & _ & _ & _ & Hcheck).
  specialize (W1 Hstale).
  pose proof (marked_facts st user buttonId n p Hb Hacc)
    as (_ & _ & _ & _ & Hown & Hrest).
  assert (Hfirst : firstOwned (marked st n) = Some line) by congruence.
  apply firstOwned_Some in Hfirst as [Hin [q Hq]].
  assert (Hn : In n line).
  { destruct (In_dec Z.eq_dec n line) as [H|H]; [exact H|].
    exfalso. apply (firstOwned_None st line W1 Hin). exists q.
    rewrite List.Forall_forall in *. intros m Hm.
    rewrite <- (Hrest m); [apply Hq; exact Hm|]. intros ->. contradiction. }
  split; [exact Hin|]. split; [exact Hn|].
  assert (q = p).
  { rewrite List.Forall_forall in Hq. specialize (Hq n Hn). congruence. }
  subst q. exact Hq.
Qed.

(** X13: a move wins only for the player who makes it.  On a reachable
    session, when the current player's accepted move completes a line,
    that line is a row, column or diagonal through the cell just marked,
    all of it belongs to the mover, and the handler sets [stale], asks the
    host to delete the turn message and waits for the answer; the turn
    does not pass on. *)
Theorem winning_move args w st user buttonId n p line :
  reachable args w -> this_state w = Some st ->
  accepted st user buttonId n p ->
  checkForWin (marked st n) = Return (Some line) ->
  In line winningLines
  /\ In n line
  /\ Forall (fun m => ownerOf (marked st n) m = Some p) line
  /\ handleButtonClick user buttonId w
     = (Return tt,
        with_pending (pending w ++ [(HostReply, K_winRetracted line)])
          (with_requests
             (requests w
                ++ [deleteMessage (channelId st) (lastTurnMessageId st)])
             (with_state (Some (set_stale true (marked st n))) w))).
Proof.
  intros Hr Hs Hacc Hwin.
  destruct (winning_line args w st user buttonId n p line Hr Hs Hacc Hwin)
    as (Hin & Hn & Hall).
  split; [exact Hin|]. split; [exact Hn|]. split; [exact Hall|].
  exact (winning_move_world w st user buttonId n p line Hs
           (wf_board _ (reachable_wf _ _ _ Hr Hs)) Hacc Hwin).
Qed.

(** ** The board of a won game *)

Lemma highlight_returns st winRow : forall board,
  (forall buttonId, In buttonId winRow ->
     controlAt board (fst (getCoordFromIndex st buttonId))
       (snd (getCoordFromIndex st buttonId)) <> None) ->
  exists board', highlight st winRow board = Return board'.
Proof.
  induction winRow as [|buttonId rest IH]; intros board H.
  - exists board. reflexivity.
  - rewrite highlight_cons.
    pose proof (H buttonId (or_introl eq_refl)) as Hc.
    destruct (getCoordFromIndex st buttonId) as [r0 c0] eqn:E. cbn [fst snd] in Hc.
    unfold controlAt in Hc. unfold obind, deref.
    destruct (at_ board r0) as [row|] eqn:Hrow; [|congruence].
    destruct (at_ row c0) as [control|] eqn:Hctl; [|congruence].
    apply IH. intros m Hm.
    rewrite (controlAt_insert board r0 c0 row _ _ _ Hrow (at_lt _ _ _ Hctl)).
    destruct (bool_decide _); [discriminate|]. apply H. right. exact Hm.
Qed.

Lemma winning_board args w st i line :
  reachable args w -> this_state w = Some st ->
  pending w !! i = Some (HostReply, K_winRetracted line) ->
  length (players st) = 2%nat ->
  (forall p, iconOf (playerIcons st) p <> None) ->
  exists md text board0 board,
    gameBoardMessageDescriptor st = Some md
    /\ iconsText st = Return text
    /\ buildTicTacToe st true = Return board0
    /\ highlight st line board0 = Return board.
Proof.
  intros Hr Hs Hk Hplayers Hicons.
  pose proof (reachable_wf _ _ _ Hr Hs) as Hwf.
  pose proof (wf_board _ Hwf) as Hb. pose proof Hb as (Hg & Hlen & _).
  pose proof (reachable_WinInv _ _ Hr) as Hw. unfold WinInv in Hw.
  rewrite Hs in Hw. destruct Hw as (_ & _ & _ & W4).
  destruct (W4 HostReply line (or_introl (lookup_In _ _ _ Hk))) as (Hfirst & _ & Hd).
  apply firstOwned_Some in Hfirst as [Hin _].
  apply winningLines_cells in Hin as [_ Hcells].
  destruct (gameBoardMessageDescriptor st) as [md|] eqn:Hmd; [|discriminate].
  destruct (iconsText_two st Hplayers) as [text Htext].
  destruct (buildTicTacToe_Return st true) as [board0 Hboard0].
  { intros r Hrange Hnone. unfold at_ in Hnone.
    destruct (r <? 0) eqn:E; [apply Z.ltb_lt in E; lia|].
    apply lookup_ge_None in Hnone. lia. }
  { exact Hicons. }
  pose proof (buildTicTacToe_controls st true board0 Hboard0) as (_ & _ & Hctl0).
  rewrite Hg in Hctl0.
  destruct (highlight_returns st line board0) as [board Hboard].
  { intros m Hm. rewrite List.Forall_forall in Hcells. specialize (Hcells m Hm).
    rewrite (getCoordFromIndex_3 st m Hg). cbn [fst snd].
    destruct (Hctl0 (m / 3) (m mod 3)) as (control & Hc & _).
    - split; [apply Z.div_pos | apply Z.div_lt_upper_bound]; lia.
    - apply Z.mod_pos_bound. lia.
    - congruence. }
  exists md, text, board0, board. repeat split; assumption.
Qed.

Lemma winRetracted_step w st i line md text board0 board coin :
  this_state w = Some st ->
  pending w !! i = Some (HostReply, K_winRetracted line) ->
  gameBoardMessageDescriptor st = Some md ->
  iconsText st = Return text ->
  buildTicTacToe st true = Return board0 ->
  highlight st line board0 = Return board ->
  step (Resolve i Void coin) w
  = Some (with_pending
            (delete i (pending w) ++ [(HostReply, K_winEdited line)])
            (with_requests
               (requests w
                  ++ [editMessage (md_channelId md) (md_messageId md) text
                        {| components := Some board;
                           allowedMentions := None |}])
               w)).
Proof.
  intros Hs Hk Hmd Htext Hboard0 Hboard. cbn [step]. rewrite Hk. cbn [resume].
  destruct w as [gs icons s reqs pend cons]. cbn in Hs. subst s.
  unfold exec, bind, getState, lift, deref, await. cbn.
  rewrite Hboard0. cbn. rewrite Hboard. cbn. rewrite Hmd. cbn.
  rewrite Htext. reflexivity.
Qed.

Lemma winEdited_step w st i first rest p coin :
  this_state w = Some st ->
  pending w !! i = Some (HostReply, K_winEdited (first :: rest)) ->
  getCoordFromIndex st first = (first / 3, first mod 3) ->
  cell (boardStates st) (first / 3) (first mod 3) = Return (Some p) ->
  step (Resolve i Void coin) w
  = Some match at_ (players st) (indexZ p) with
         | Some winner =>
             with_requests
               (requests w
                  ++ [sendMessage
                        (lit "User <@" ++ user_id winner
                           ++ lit "> won the game!" ++ NL
                           ++ lit "Game over." ++ NL
                           ++ lit "Leave the session")
                        (channelId st)
                        {| components := Some [[LEAVE_BUTTON]];
                           allowedMentions := Some [user_id winner] |}])
               (with_pending (delete i (pending w)) w)
         | None => with_pending (delete i (pending w)) w
         end.
Proof.
  intros Hs Hk Hcoord Hcell. cbn [step]. rewrite Hk. cbn [resume].
  destruct w as [gs icons s reqs pend cons]. cbn in Hs. subst s.
  unfold exec, bind, getState, lift, deref, call. cbn.
  change (at_ (first :: rest) 0) with (Some first). cbv iota beta.
  rewrite Hcoord, Hcell. cbn.
  destruct (at_ (players st) (indexZ p)); reflexivity.
Qed.

(** X14: when the host has deleted the turn message of a won game, the
    board message is edited in place: on a reachable session whose two
    players are present and have icons, the callback sends one
    [editMessage] for the board message with the icon text of game start
    and a board on which every control is disabled, keeps its id, and has
    the success style if its cell is on the winning line and the secondary
    style otherwise; then it waits for the answer. *)
Theorem winning_line_is_shown args w st i line :
  reachable args w -> this_state w = Some st ->
  pending w !! i = Some (HostReply, K_winRetracted line) ->
  length (players st) = 2%nat ->
  (forall p, iconOf (playerIcons st) p <> None) ->
  exists md text board,
    gameBoardMessageDescriptor st = Some md
    /\ iconsText st = Return text
    /\ (forall coin,
          step (Resolve i Void coin) w
          = Some (with_pending
                    (delete i (pending w) ++ [(HostReply, K_winEdited line)])
                    (with_requests
                       (requests w
                          ++ [editMessage (md_channelId md) (md_messageId md)
                                text
                                {| components := Some board;
                                   allowedMentions := None |}])
                       w)))
    /\ forall rowIndex index,
         0 <= rowIndex < 3 -> 0 <= index < 3 ->
         exists control,
           controlAt board rowIndex index = Some control
           /\ disabled control = true
           /\ custom_id control = toString (rowIndex * 3 + index)
           /\ (In (rowIndex * 3 + index) line -> style control = Success)
           /\ (~ In (rowIndex * 3 + index) line -> style control = Secondary).
Proof.
  intros Hr Hs Hk Hplayers Hicons.
  destruct (winning_board args w st i line Hr Hs Hk Hplayers Hicons)
    as (md & text & board0 & board & Hmd & Htext & Hboard0 & Hboard).
  pose proof (wf_board _ (reachable_wf _ _ _ Hr Hs)) as (Hg & _).
  pose proof (buildTicTacToe_controls st true board0 Hboard0) as (_ & _ & Hctl0).
  rewrite Hg in Hctl0.
  exists md, text, board. split; [exact Hmd|]. split; [exact Htext|]. split.
  - intros coin.
    exact (winRetracted_step w st i line md text board0 board coin
             Hs Hk Hmd Htext Hboard0 Hboard).
  - intros r c Hrange Hcrange.
    destruct (Hctl0 r c Hrange Hcrange) as (control0 & Hc0 & Hbuild).
    apply buildButton_content in Hbuild as (Hstyle & Hid & owner & _ & Hdis & _).
    cbn [orb] in Hdis. rewrite Hg in Hid.
    assert (Hg0 : 0 < gameSize st) by lia.
    destruct (highlight_controlAt st line board0 board Hboard) as [_ Hat].
    specialize (Hat r c). rewrite Hc0 in Hat.
    destruct (existsb _ line) eqn:He.
    + exists (set_style Success control0). split; [exact Hat|].
      split; [exact Hdis|]. split; [exact Hid|]. split; [reflexivity|].
      intros Hno. exfalso. apply Hno.
      apply existsb_exists in He as (m & Hm & Hdec).
      apply bool_decide_eq_true in Hdec.
      apply (getCoordFromIndex_decode st m r c Hg0) in Hdec as [Heq _].
      rewrite Hg in Heq. rewrite Heq. exact Hm.
    + exists control0. split; [exact Hat|].
      split; [exact Hdis|]. split; [exact Hid|]. split; [|intros _; exact Hstyle].
      intros Hyes. exfalso.
      assert (Ht : existsb (fun buttonId =>
                     bool_decide (getCoordFromIndex st buttonId = (r, c))) line
                   = true).
      { apply existsb_exists. exists (r * 3 + c). split; [exact Hyes|].
        apply bool_decide_eq_true. rewrite <- Hg at 1.
        apply getCoordFromIndex_encode; lia. }
      congruence.
Qed.

Lemma winner_cell args w st i line :
  reachable args w -> this_state w = Some st ->
  pending w !! i = Some (HostReply, K_winEdited line) ->
  exists first rest p,
    line = first :: rest
    /\ In line winningLines
    /\ Forall (fun m => ownerOf st m = Some p) line
    /\ stale st = true
    /\ getCoordFromIndex st first = (first / 3, first mod 3)
    /\ cell (boardStates st) (first / 3) (first mod 3) = Return (Some p).
Proof.
  intros Hr Hs Hk.
  pose proof (reachable_wf _ _ _ Hr Hs) as Hwf.
  pose proof (wf_board _ Hwf) as Hb. pose proof Hb as (Hg & _).
  pose proof (reachable_WinInv _ _ Hr) as Hw. unfold WinInv in Hw.
  rewrite Hs in Hw. destruct Hw as (_ & _ & _ & W4).
  destruct (W4 HostReply line (or_intror (lookup_In _ _ _ Hk))) as (Hfirst & Hstale & _).
  apply firstOwned_Some in Hfirst as [Hin [p Hp]].
  destruct (winningLines_cells line Hin) as [(first & rest & ->) Hcells].
  exists first, rest, p. split; [reflexivity|]. split; [exact Hin|].
  split; [exact Hp|]. split; [exact Hstale|].
  split; [exact (getCoordFromIndex_3 st first Hg)|].
  apply Forall_cons in Hcells as [Hfirst _]. apply Forall_cons in Hp as [Hown _].
  rewrite (ownerOf_cell st first Hb Hfirst), Hown. reflexivity.
Qed.

(** X15: the winner announced is the owner of the winning line.  On a
    reachable session, while the callback of the board edit waits, the
    session is stale and its line is one of the eight, fully owned by one
    player; the callback sends exactly one message, which names and
    mentions the user found at that player's index in [players] and
    carries the Leave control, and it throws without sending when there is
    no user at that index any more. *)
Theorem winner_announcement args w st i line :
  reachable args w -> this_state w = Some st ->
  pending w !! i = Some (HostReply, K_winEdited line) ->
  exists p,
    In line winningLines
    /\ Forall (fun m => ownerOf st m = Some p) line
    /\ stale st = true
    /\ forall coin,
         step (Resolve i Void coin) w
         = Some match at_ (players st) (indexZ p) with
                | Some winner =>
                    with_requests
                      (requests w
                         ++ [sendMessage
                               (lit "User <@" ++ user_id winner
                                  ++ lit "> won the game!" ++ NL
                                  ++ lit "Game over." ++ NL
                                  ++ lit "Leave the session")
                               (channelId st)
                               {| components := Some [[LEAVE_BUTTON]];
                                  allowedMentions := Some [user_id winner] |}])
                      (with_pending (delete i (pending w)) w)
                | None => with_pending (delete i (pending w)) w
                end.
Proof.
  intros Hr Hs Hk.
  destruct (winner_cell args w st i line Hr Hs Hk)
    as (first & rest & p & -> & Hin & Hp & Hstale & Hcoord & Hcell).
  exists p. split; [exact Hin|]. split; [exact Hp|]. split; [exact Hstale|].
  intros coin. exact (winEdited_step w st i first rest p coin Hs Hk Hcoord Hcell).
Qed.

(** ** The draw *)

Lemma lastControl_step w st i coin :
  this_state w = Some st ->
  pending w !! i = Some (HostReply, K_controlReplaced) ->
  possibleTurnsCount st = 0 ->
  step (Resolve i Void coin) w
  = Some (with_pending
            (delete i (pending w) ++ [(HostReply, K_drawRetracted)])
            (with_requests
               (requests w
                  ++ [deleteMessage (channelId st) (lastTurnMessageId st)])
               w)).
Proof.
  intros Hs Hk Hc. cbn [step]. rewrite Hk. cbn [resume].
  destruct w as [gs icons s reqs pend cons]. cbn in Hs. subst s.
  unfold exec, endGameDraw, bind, getState, deref, await. cbn.
  rewrite Hc. reflexivity.
Qed.

Lemma drawRetracted_step w st i coin :
  this_state w = Some st ->
  pending w !! i = Some (HostReply, K_drawRetracted) ->
  step (Resolve i Void coin) w
  = Some (with_requests
            (requests w
               ++ [sendMessage
                     (lit "The game was ended in a draw." ++ NL
                        ++ lit "Leave the session")
                     (channelId st) leaveRow])
            (with_state (Some (set_stale true st))
               (with_pending (delete i (pending w)) w))).
Proof.
  intros Hs Hk. cbn [step]. rewrite Hk. cbn [resume].
  destruct w as [gs icons s reqs pend cons]. cbn in Hs. subst s.
  reflexivity.
Qed.

(** X16: a draw is declared only for a full board without a line.  When
    the control of the last free cell has been replaced (the counter is
    0), the callback does not pass the turn on but asks the host to delete
    the turn message; while the callback of that deletion waits on a
    reachable session, all nine cells are occupied and no row, column or
    diagonal belongs to one player, and the callback sets [stale] and
    sends the draw notice with the Leave control. *)
Theorem draw_resolution args w st i :
  reachable args w -> this_state w = Some st ->
  (pending w !! i = Some (HostReply, K_controlReplaced) ->
   possibleTurnsCount st = 0 ->
   forall coin,
     step (Resolve i Void coin) w
     = Some (with_pending
               (delete i (pending w) ++ [(HostReply, K_drawRetracted)])
               (with_requests
                  (requests w
                     ++ [deleteMessage (channelId st) (lastTurnMessageId st)])
                  w)))
  /\ (pending w !! i = Some (HostReply, K_drawRetracted) ->
      occupied (boardStates st) = 9
      /\ (forall line, In line winningLines -> ~ fullyOwned st line)
      /\ forall coin,
           step (Resolve i Void coin) w
           = Some (with_requests
                     (requests w
                        ++ [sendMessage
                              (lit "The game was ended in a draw." ++ NL
                                 ++ lit "Leave the session")
                              (channelId st) leaveRow])
                     (with_state (Some (set_stale true st))
                        (with_pending (delete i (pending w)) w)))).
Proof.
  intros Hr Hs. split.
  - intros Hk Hc coin. exact (lastControl_step w st i coin Hs Hk Hc).
  - intros Hk.
    pose proof (reachable_wf _ _ _ Hr Hs) as Hwf.
    pose proof (reachable_WinInv _ _ Hr) as Hw. unfold WinInv in Hw.
    rewrite Hs in Hw. destruct Hw as (_ & _ & W3 & _).
    destruct (W3 HostReply (lookup_In _ _ _ Hk)) as [Hnone Hc].
    split; [|split].
    + pose proof (wf_count _ Hwf) as Hcount.
      destruct (wf_board _ Hwf) as (Hg & _). rewrite Hg, Hc in Hcount.
      change (3 ^ 2) with 9 in Hcount. lia.
    + intros line Hin. exact (firstOwned_None st line Hnone Hin).
    + intros coin. exact (drawRetracted_step w st i coin Hs Hk).
Qed.

(** ** What never changes *)

Lemma run_frame ls : forall w st w',
  Inv w -> this_state w = Some st -> run ls w = Some w' ->
  Inv w'
  /\ exists st',
       this_state w' = Some st'
       /\ channelId st' = channelId st
       /\ gameSize st' = gameSize st
       /\ playerIcons st' = playerIcons st
       /\ (started st = true -> started st' = true)
       /\ (stale st = true -> stale st' = true)
       /\ (isDefined (gameBoardMessageDescriptor st) = true ->
           isDefined (gameBoardMessageDescriptor st') = true).
Proof.
  induction ls as [|l ls IH]; intros w st w' Hi Hs Hrun; cbn [run] in Hrun.
  - injection Hrun as <-. split; [exact Hi|]. exists st. repeat split; auto.
  - destruct (step l w) as [w1|] eqn:Hstep; [|discriminate].
    destruct (step_frame _ _ _ _ Hi Hs Hstep)
      as (st1 & Hs1 & Hg & Hstarted & Hstale & _ & _ & _ & Hicons).
    destruct (step_keeps _ _ _ _ Hi Hs Hstep) as (x & Hx & Hchan & Hdesc & _).
    rewrite Hs1 in Hx. injection Hx as <-.
    destruct (IH w1 st1 w' (step_Inv _ _ _ Hi Hstep) Hs1 Hrun)
      as (Hi' & st' & Hs' & Hc' & Hg' & Hi2 & Hst' & Hsl' & Hd').
    split; [exact Hi'|]. exists st'. split; [exact Hs'|].
    repeat split; try congruence; auto.
Qed.

(** X17: a session keeps its channel, its size and its icons.  On every
    reachable session [gameSize] is 3 and the icons are those the first
    instance was constructed with, whatever a later instance is given;
    along every execution, reloads included, the channel id, the size and
    the icons stay the same, a started session stays started, and the
    board message, once known, stays known. *)
Theorem session_constants args w st ls w' :
  reachable args w -> this_state w = Some st -> run ls w = Some w' ->
  gameSize st = 3
  /\ playerIcons st = this_playerIcons (constructor args)
  /\ exists st',
       this_state w' = Some st'
       /\ channelId st' = channelId st
       /\ gameSize st' = gameSize st
       /\ playerIcons st' = playerIcons st
       /\ (started st = true -> started st' = true)
       /\ (isDefined (gameBoardMessageDescriptor st) = true ->
           isDefined (gameBoardMessageDescriptor st') = true).
Proof.
  intros Hr Hs Hrun. pose proof (reachable_Inv _ _ Hr) as Hi.
  split; [exact (proj1 (wf_board _ (Inv_wf _ _ Hi Hs)))|]. split.
  - pose proof (reachable_icons _ _ Hr) as H. rewrite Hs in H. exact H.
  - destruct (run_frame ls w st w' Hi Hs Hrun)
      as (_ & st' & Hs' & Hc & Hg & Hic & Hst & _ & Hd).
    exists st'. repeat split; assumption.
Qed.

(** ** The players of a running game *)

Lemma step_players l w w' st :
  Inv w -> this_state w = Some st -> step l w = Some w' ->
  exists st',
    this_state w' = Some st'
    /\ (players st' = players st
        \/ (started st = false /\ stale st = false)
        \/ stale st' = true).
Proof.
  intros Hi Hs Hstep.
  destruct l as [event | i r coin | i | i | args]; cbn [step] in Hstep.
  - injection Hstep as <-. destruct event as [u|u|u b|]; cbn [onEvent].
    + destruct w as [gs icons s reqs pend cons]. cbn in Hs. subst s.
      mrun_post.
      all: eexists; (split; [reflexivity|]); cbn; auto.
    + destruct w as [gs icons s reqs pend cons]. cbn in Hs. subst s.
      mrun_post.
      all: eexists; (split; [reflexivity|]); cbn; auto.
    + pose proof (click_summary w st u b Hs) as Hsum. cbv zeta in Hsum.
      destruct Hsum as (_ & _ & [(Hst & _ & _) | (n & p & Hmove & Hsum)]).
      * exists st. split; [assumption|]. auto.
      * destruct Hsum as [(line & _ & Hst & _) | [(_ & Hst & _) | (_ & Hst & _)]];
          eexists; (split; [exact Hst|]); left; reflexivity.
    + exists st. split; [assumption|]. auto.
  - destruct (pending w !! i) as [[[|ms] k]|] eqn:Hk; try discriminate.
    destruct (resume k r coin) as [m|] eqn:Hr; [|discriminate].
    injection Hstep as <-.
    destruct Hi as (_ & _ & Hi). rewrite Hs in Hi. destruct Hi as (_ & Hnc & _).
    pose proof (lookup_In _ _ _ Hk) as Hin.
    destruct w as [gs icons s reqs pend cons]. cbn in Hs, Hk, Hnc, Hin. subst s.
    destruct k, r; try discriminate Hr; cbn in Hr; injection Hr as <-.
    all: try (exfalso; eapply Hnc; eassumption).
    all: mrun_post.
    all: eexists; (split; [reflexivity|]); cbn; auto.
  - destruct (pending w !! i) as [[[|ms] k]|] eqn:Hk; try discriminate.
    injection Hstep as <-. exists st. split; [assumption|]. auto.
  - destruct (pending w !! i) as [[[|ms] k]|] eqn:Hk; try discriminate.
    destruct (fire k) as [m|] eqn:Hf; [|discriminate].
    injection Hstep as <-.
    destruct k; try discriminate Hf. cbn in Hf. injection Hf as <-.
    destruct w as [gs icons s reqs pend cons]. cbn in Hs. subst s.
    mrun_post.
    all: eexists; (split; [reflexivity|]); cbn; auto.
  - apply (reload_world _ _ _ _ Hs) in Hstep as [Hstale ->].
    exists st. split; [reflexivity|]. auto.
Qed.

(** X18: the players of a running game are the two who joined.  From a
    started session, along every execution that ends on a session that is
    not stale, [players] never changes and holds exactly two users: no
    join is admitted, and every departure makes the session stale. *)
Theorem players_fixed_while_active args ls : forall w st w' st',
  reachable args w -> this_state w = Some st -> started st = true ->
  run ls w = Some w' -> this_state w' = Some st' -> stale st' = false ->
  players st' = players st
  /\ length (players st) = 2%nat
  /\ started st' = true.
Proof.
  induction ls as [|l ls IH]; intros w st w' st' Hr Hs Hstarted Hrun Hs' Hstale;
    cbn [run] in Hrun.
  - injection Hrun as <-. rewrite Hs in Hs'. injection Hs' as <-.
    split; [reflexivity|]. split; [|exact Hstarted].
    apply (wf_active _ (reachable_wf _ _ _ Hr Hs)); assumption.
  - destruct (step l w) as [w1|] eqn:Hstep; [|discriminate].
    pose proof (reachable_Inv _ _ Hr) as Hi.
    destruct (step_players _ _ _ _ Hi Hs Hstep) as (st1 & Hs1 & Hp).
    destruct (step_frame _ _ _ _ Hi Hs Hstep) as (x & Hx & _ & Hst & _).
    rewrite Hs1 in Hx. injection Hx as <-. specialize (Hst Hstarted).
    pose proof (reach_step _ _ _ _ Hr Hstep) as Hr1.
    destruct (run_frame ls w1 st1 w' (reachable_Inv _ _ Hr1) Hs1 Hrun)
      as (_ & y & Hy & _ & _ & _ & _ & Hmono & _).
    rewrite Hs' in Hy. injection Hy as <-.
    destruct (IH w1 st1 w' st' Hr1 Hs1 Hst Hrun Hs' Hstale) as (Hsame & Hlen & Hst').
    destruct Hp as [Hp | [[Hf _] | Hp]].
    + rewrite <- Hp. auto.
    + congruence.
    + specialize (Hmono Hp). congruence.
Qed.

(** ** The marks of the two players *)

Lemma count_same (f g : Z -> bool) l :
  (forall m, In m l -> g m = f m) ->
  length (List.filter g l) = length (List.filter f l).
Proof.
  induction l as [|a l IH]; intros H; [reflexivity|].
  cbn [List.filter]. rewrite (H a (or_introl eq_refl)).
  assert (IH' : length (List.filter g l) = length (List.filter f l))
    by (apply IH; intros m Hm; apply H; right; exact Hm).
  destruct (f a); cbn [length]; rewrite IH'; reflexivity.
Qed.

Lemma count_one (f g : Z -> bool) l n :
  List.NoDup l -> In n l -> f n = false -> g n = true ->
  (forall m, m <> n -> g m = f m) ->
  length (List.filter g l) = S (length (List.filter f l)).
Proof.
  intros Hnd Hin Hf Hg Hrest. induction l as [|a l IH]; [destruct Hin|].
  apply List.NoDup_cons_iff in Hnd as [Hna Hnd]. cbn [List.filter].
  destruct Hin as [->|Hin].
  - rewrite Hf, Hg. cbn [length]. f_equal. apply count_same.
    intros m Hm. apply Hrest. intros ->. contradiction.
  - assert (Hne : a <> n) by (intros ->; contradiction).
    rewrite (Hrest a Hne). destruct (f a); cbn [length]; rewrite IH; auto.
Qed.

Lemma range9_NoDup : List.NoDup (range 9).
Proof.
  unfold range. apply List.NoDup_map_inv with (f := Z.to_nat).
  rewrite List.map_map. rewrite (List.map_ext _ id), List.map_id.
  - apply List.seq_NoDup.
  - intros k. apply Nat2Z.id.
Qed.

Lemma marksOf_same st st' p :
  (forall m, ownerOf st' m = ownerOf st m) -> marksOf st' p = marksOf st p.
Proof.
  intros H. unfold marksOf. f_equal. apply count_same.
  intros m _. rewrite H. reflexivity.
Qed.

Lemma marksOf_move st st' n p :
  0 <= n <= 8 -> ownerOf st n = None -> ownerOf st' n = Some p ->
  (forall m, m <> n -> ownerOf st' m = ownerOf st m) ->
  marksOf st' p = marksOf st p + 1
  /\ marksOf st' (opponent p) = marksOf st (opponent p).
Proof.
  intros Hn Hfree Hown Hrest. unfold marksOf. split.
  - rewrite (count_one (fun m => bool_decide (ownerOf st m = Some p)) _ _ n).
    + lia.
    + apply range9_NoDup.
    + apply range_In. lia.
    + rewrite Hfree. reflexivity.
    + rewrite Hown. apply bool_decide_eq_true_2. reflexivity.
    + intros m Hm. rewrite (Hrest m Hm). reflexivity.
  - f_equal. apply count_same. intros m _.
    destruct (decide (m = n)) as [->|Hm].
    + rewrite Hown, Hfree. destruct p; reflexivity.
    + rewrite (Hrest m Hm). reflexivity.
Qed.

Lemma marksAgree st :
  all_boards (fun a b c d e f g h i =>
    bool_decide (marksOf (on3x3 st a b c d e f g h i) P0
                 + marksOf (on3x3 st a b c d e f g h i) P1
                 = occupied (boardStates (on3x3 st a b c d e f g h i)))) = true.
Proof. vm_compute. reflexivity. Qed.

Lemma marksOf_occupied st :
  board3x3 st ->
  marksOf st P0 + marksOf st P1 = occupied (boardStates st).
Proof.
  intros H.
  destruct (board3x3_shape st H) as (a & b & c & d & e & f & g & h & i & Heq).
  rewrite Heq. apply (proj1 (bool_decide_eq_true _)).
  exact (all_boards_true _ (marksAgree st) a b c d e f g h i).
Qed.

Lemma opponent_ne p q : q <> p -> q = opponent p /\ p = opponent q.
Proof. destruct p, q; intros H; try contradiction; split; reflexivity. Qed.

Lemma step_balanced last l w w' :
  Inv w -> AltInv last w ->
  match this_state w with
  | Some st => Balanced last st
  | None => last = None
  end ->
  step l w = Some w' ->
  match this_state w' with
  | Some st' =>
      Balanced (match moved w w' with Some p => Some p | None => last end) st'
  | None => match moved w w' with Some p => Some p | None => last end = None
  end.
Proof.
  intros Hi Ha Hbal Hstep.
  destruct (this_state w) as [st|] eqn:Hs.
  2:{ rewrite (moved_uninitialised _ _ Hs). subst last.
      destruct Hi as (_ & _ & Hp). rewrite Hs in Hp.
      destruct w as [gs icons s reqs pend cons]. cbn in Hs, Hp. subst s.
      destruct l as [event | i r coin | i | i | a]; cbn [step] in Hstep.
      - injection Hstep as <-. rewrite exec_uninitialised by reflexivity. reflexivity.
      - cbn in Hstep. destruct Hp as [-> | ->]; [destruct i; discriminate|].
        destruct i as [|i]; [|destruct i; discriminate]. cbn in Hstep.
        destruct r; try discriminate. cbn in Hstep. injection Hstep as <-.
        split; reflexivity.
      - cbn in Hstep. destruct (pend !! i) as [[[|ms] k]|]; try discriminate.
        injection Hstep as <-. reflexivity.
      - cbn in Hstep. destruct Hp as [-> | ->]; [destruct i; discriminate|].
        destruct i as [|i]; [|destruct i; discriminate]. discriminate Hstep.
      - discriminate Hstep. }
  pose proof (Inv_wf _ _ Hi Hs) as Hwf.
  destruct (step_frame _ _ _ _ Hi Hs Hstep) as (st' & Hs' & _).
  rewrite Hs'.
  destruct (step_good last l w w' Hi Ha Hstep) as (_ & _ & Hne).
  destruct (step_board w st l w' st' Hi Hwf Hs Hstep Hs')
    as [(Hb & Hc & _) | (u & b & n & p & _ & Hacc & Hcp & Hc & Hfree & Hown & Hrest)].
  - rewrite (moved_same w w' st st' Hs Hs' Hc).
    pose proof (ownerOf_board _ _ Hb) as Hsame.
    destruct last as [q|]; cbn [Balanced] in *;
      rewrite !(marksOf_same st st' _ Hsame); exact Hbal.
  - rewrite (moved_marked w w' st st' p Hs Hs' Hc Hcp) in *.
    pose proof (marked_facts st u b n p (wf_board _ Hwf) Hacc) as (Hn & _).
    destruct (marksOf_move st st' n p Hn Hfree Hown Hrest) as [Hp Ho].
    cbn [Balanced]. rewrite Hp, Ho.
    destruct last as [q|]; cbn [Balanced] in Hbal.
    + destruct (opponent_ne p q (Hne p q eq_refl eq_refl)) as [-> Hpq].
      rewrite <- Hpq in Hbal. lia.
    + destruct Hbal as [H0 H1]. destruct p; cbn [opponent]; lia.
Qed.

Lemma reachable_balanced args w :
  reachable args w ->
  exists last,
    AltInv last w
    /\ match this_state w with
       | Some st => Balanced last st
       | None => last = None
       end.
Proof.
  induction 1 as [|w l w' Hr (last & Ha & Hbal) Hstep].
  - exists None. split; [apply AltInv_boot | reflexivity].
  - pose proof (reachable_Inv _ _ Hr) as Hi.
    exists (match moved w w' with Some p => Some p | None => last end). split.
    + exact (proj1 (proj2 (step_good last l w w' Hi Ha Hstep))).
    + exact (step_balanced last l w w' Hi Ha Hbal Hstep).
Qed.

(** X19: the board is balanced.  On every reachable session the numbers
    of cells of the two players differ by at most one, and together they
    are the occupied cells: the cells the counter no longer counts. *)
Theorem marks_are_balanced args w st :
  reachable args w -> this_state w = Some st ->
  -1 <= marksOf st P0 - marksOf st P1 <= 1
  /\ marksOf st P0 + marksOf st P1 = occupied (boardStates st)
  /\ marksOf st P0 + marksOf st P1 + possibleTurnsCount st = 9.
Proof.
  intros Hr Hs. pose proof (reachable_wf _ _ _ Hr Hs) as Hwf.
  destruct (reachable_balanced _ _ Hr) as (last & _ & Hbal). rewrite Hs in Hbal.
  pose proof (marksOf_occupied st (wf_board _ Hwf)) as Hsum.
  pose proof (wf_count _ Hwf) as Hc. destruct (wf_board _ Hwf) as (Hg & _).
  rewrite Hg in Hc. change (3 ^ 2) with 9 in Hc.
  split; [|split; [exact Hsum | lia]].
  destruct last as [[|]|]; cbn [Balanced opponent] in Hbal; lia.
Qed.

(** ** What the turn cycle relies on *)

Lemma boardSent_state w st i r coin w' :
  this_state w = Some st ->
  pending w !! i = Some (HostReply, K_boardSent) ->
  step (Resolve i r coin) w = Some w' ->
  exists md,
    r = Message md
    /\ this_state w'
       = Some (set_currentPlayerIndex (Some coin)
                 (set_gameBoardMessageDescriptor (Some md) st)).
Proof.
  intros Hs Hk Hstep. cbn [step] in Hstep. rewrite Hk in Hstep.
  destruct r as [|md|]; try discriminate Hstep. cbn [resume] in Hstep.
  injection Hstep as <-. exists md. split; [reflexivity|].
  destruct w as [gs icons s reqs pend cons]. cbn in Hs. subst s.
  mrun_post; reflexivity.
Qed.

Lemma turnSent_state w st i k r coin w' :
  this_state w = Some st ->
  pending w !! i = Some (HostReply, K_turnSent k) ->
  step (Resolve i r coin) w = Some w' ->
  exists st',
    this_state w' = Some st'
    /\ isDefined (lastTurnMessageId st') = true.
Proof.
  intros Hs Hk Hstep. cbn [step] in Hstep. rewrite Hk in Hstep.
  destruct r as [|md|]; try discriminate Hstep. cbn [resume] in Hstep.
  injection Hstep as <-.
  destruct w as [gs icons s reqs pend cons]. cbn in Hs. subst s.
  destruct k. mrun_post. eexists. split; reflexivity.
Qed.

Lemma step_CbInv l w w' :
  Inv w -> CbInv w -> step l w = Some w' -> CbInv w'.
Proof.
  intros Hi Hc Hstep.
  destruct (this_state w) as [st|] eqn:Hs.
  2:{ destruct Hi as (_ & _ & Hp). rewrite Hs in Hp.
      destruct w as [gs icons s reqs pend cons]. cbn in Hs, Hp. subst s.
      destruct l as [event | i r coin | i | i | a]; cbn [step] in Hstep.
      - injection Hstep as <-. rewrite exec_uninitialised by reflexivity. exact I.
      - cbn in Hstep. destruct Hp as [-> | ->]; [destruct i; discriminate|].
        destruct i as [|i]; [|destruct i; discriminate]. cbn in Hstep.
        destruct r; try discriminate. cbn in Hstep. injection Hstep as <-.
        unfold CbInv, exec. cbn.
        split; [discriminate|]. split; [intros t []|].
        split; intros t k [].
      - cbn in Hstep. destruct (pend !! i) as [[[|ms] k]|]; try discriminate.
        injection Hstep as <-. exact I.
      - cbn in Hstep. destruct Hp as [-> | ->]; [destruct i; discriminate|].
        destruct i as [|i]; [|destruct i; discriminate]. discriminate Hstep.
      - discriminate Hstep. }
  pose proof (Inv_wf _ _ Hi Hs) as Hwf.
  unfold CbInv in Hc. rewrite Hs in Hc. destruct Hc as (C1 & C2 & C3 & C4).
  destruct (step_frame _ _ _ _ Hi Hs Hstep)
    as (st' & Hs' & _ & _ & _ & _ & _ & Hflip & _).
  destruct (step_keeps _ _ _ _ Hi Hs Hstep) as (x & Hx & _ & Hdesc & Hlast & Hcpi).
  rewrite Hs' in Hx. injection Hx as <-.
  unfold CbInv. rewrite Hs'.
  assert (Hboard : forall i r coin,
            l = Resolve i r coin ->
            pending w !! i = Some (HostReply, K_boardSent) ->
            isDefined (currentPlayerIndex st') = true
            /\ isDefined (gameBoardMessageDescriptor st') = true).
  { intros i r coin -> Hk.
    destruct (boardSent_state w st i r coin w' Hs Hk Hstep) as (md & _ & Hst).
    rewrite Hs' in Hst. injection Hst as ->. split; reflexivity. }
  split; [|split; [|split]].
  - intros Ha. destruct (acceptSelection st) eqn:Ha0.
    + destruct (C1 eq_refl) as (H1 & H2 & H3). auto.
    + destruct (Hflip eq_refl Ha) as (i & md & coin & k & -> & Hk).
      destruct (turnSent_state w st i k _ coin w' Hs Hk Hstep) as (y & Hy & Hdef).
      rewrite Hs' in Hy. injection Hy as <-. split; [exact Hdef|].
      destruct (C4 _ _ (lookup_In _ _ _ Hk)) as [H2 H3]. auto.
  - intros t Hin. destruct (step_origin _ _ _ _ _ _ Hi Hs Hstep Hin) as [H|H].
    + destruct (C2 _ H) as (H1 & H2 & H3). auto.
    + cbn [registers] in H. destruct H as (u & b & n & p & _ & Hacc & _).
      destruct Hacc as (_ & _ & _ & _ & Ha & _).
      destruct (C1 Ha) as (H1 & H2 & H3). auto.
  - intros t k Hin. destruct (step_origin _ _ _ _ _ _ Hi Hs Hstep Hin) as [H|H].
    + destruct (C3 _ _ H) as (H2 & H3). auto.
    + cbn [registers] in H. destruct H as (i & r & coin & k0 & Hl & Hk & [-> | ->]).
      * exact (Hboard i r coin Hl Hk).
      * destruct (C2 _ (lookup_In _ _ _ Hk)) as (H1 & H2 & H3). auto.
  - intros t k Hin. destruct (step_origin _ _ _ _ _ _ Hi Hs Hstep Hin) as [H|H].
    + destruct (C4 _ _ H) as (H2 & H3). auto.
    + cbn [registers] in H.
      destruct H as (i & r & coin & k0 & Hl & Hk & [-> | [-> | [k1 ->]]]).
      * exact (Hboard i r coin Hl Hk).
      * destruct (C2 _ (lookup_In _ _ _ Hk)) as (H1 & H2 & H3). auto.
      * destruct (C3 _ _ (lookup_In _ _ _ Hk)) as (H2 & H3). auto.
Qed.

Lemma reachable_CbInv args w : reachable args w -> CbInv w.
Proof.
  induction 1 as [|w l w' Hr IH Hstep]; [exact I|].
  exact (step_CbInv l w w' (reachable_Inv _ _ Hr) IH Hstep).
Qed.

(** ** The messages that are deleted *)

Ltac deletes :=
  let Hin := fresh "Hin" in
  cbn [requests]; intros Hin; split_in;
  first
    [ left; assumption
    | match goal with
      | H : deleteMessage _ _ = deleteMessage _ _ |- _ =>
          injection H as ? ?; subst
      end;
      props;
      first
        [ right; left; discriminate
        | right; left;
          match goal with
          | H : truthy ?x = true |- ?x <> None =>
              let E := fresh in intros E; rewrite E in H; discriminate H
          end
        | right; right; split; [reflexivity|]; left; assumption
        | right; right; split; [reflexivity|]; right; eexists; eassumption ] ].

Lemma step_deletes l w w' st c m :
  Inv w -> this_state w = Some st -> step l w = Some w' ->
  In (deleteMessage c m) (requests w') ->
  In (deleteMessage c m) (requests w)
  \/ m <> None
  \/ (m = lastTurnMessageId st
      /\ (acceptSelection st = true
          \/ exists i, pending w !! i = Some (HostReply, K_controlReplaced))).
Proof.
  intros Hi Hs Hstep. revert c m.
  destruct l as [event | i r coin | i | i | args]; cbn [step] in Hstep.
  - injection Hstep as <-. destruct event as [u|u|u b|]; cbn [onEvent].
    + destruct w as [gs icons s reqs pend cons]. cbn in Hs. subst s.
      intros c m. mrun_post; deletes.
    + destruct w as [gs icons s reqs pend cons]. cbn in Hs. subst s.
      intros c m. mrun_post; deletes.
    + destruct w as [gs icons s reqs pend cons]. cbn in Hs. subst s.
      intros c m. mrun_post; deletes.
    + intros c m. auto.
  - destruct (pending w !! i) as [[[|ms] k0]|] eqn:Hk; try discriminate.
    destruct (resume k0 r coin) as [m0|] eqn:Hr; [|discriminate].
    injection Hstep as <-.
    destruct Hi as (_ & _ & Hi). rewrite Hs in Hi. destruct Hi as (_ & Hnc & _).
    pose proof (lookup_In _ _ _ Hk) as Hin0.
    destruct w as [gs icons s reqs pend cons]. cbn in Hs, Hk, Hnc, Hin0. subst s.
    intros c m.
    destruct k0, r; try discriminate Hr; cbn in Hr; injection Hr as <-.
    all: try (exfalso; eapply Hnc; eassumption).
    all: mrun_post; deletes.
  - destruct (pending w !! i) as [[[|ms] k0]|] eqn:Hk; try discriminate.
    injection Hstep as <-. intros c m Hin. left. destruct w; exact Hin.
  - destruct (pending w !! i) as [[[|ms] k0]|] eqn:Hk; try discriminate.
    destruct (fire k0) as [m0|] eqn:Hf; [|discriminate].
    injection Hstep as <-.
    destruct k0; try discriminate Hf. cbn in Hf. injection Hf as <-.
    destruct w as [gs icons s reqs pend cons]. cbn in Hs. subst s.
    intros c m. mrun_post; deletes.
  - apply (reload_world _ _ _ _ Hs) in Hstep as [Hstale ->].
    intros c m [].
Qed.

(** X20: every deletion names a message.  On every reachable session
    each [deleteMessage] request in the log carries a message id: where the
    source asserts [lastTurnMessageId] to be defined (the draw and the
    win), it is. *)
Theorem deleted_messages_exist args w :
  reachable args w ->
  forall channel message,
    In (deleteMessage channel message) (requests w) -> message <> None.
Proof.
  induction 1 as [|w l w' Hr IH Hstep]; intros c m Hin.
  - unfold boot, constructor, exec, initialize, await in Hin. cbn in Hin.
    destruct Hin as [Hin|[]]. discriminate Hin.
  - pose proof (reachable_Inv _ _ Hr) as Hi.
    destruct (this_state w) as [st|] eqn:Hs.
    + pose proof (reachable_CbInv _ _ Hr) as Hc. unfold CbInv in Hc.
      rewrite Hs in Hc. destruct Hc as (C1 & C2 & _).
      destruct (step_deletes l w w' st c m Hi Hs Hstep Hin)
        as [Hold | [Hm | [-> [Ha | [i Hk]]]]].
      * exact (IH c m Hold).
      * exact Hm.
      * destruct (C1 Ha) as [Hd _]. intros E. rewrite E in Hd. discriminate Hd.
      * destruct (C2 _ (lookup_In _ _ _ Hk)) as [Hd _].
        intros E. rewrite E in Hd. discriminate Hd.
    + apply (IH c m).
      destruct Hi as (_ & _ & Hp). rewrite Hs in Hp.
      destruct w as [gs icons s reqs pend cons]. cbn in Hs, Hp. subst s.
      destruct l as [event | i r coin | i | i | a]; cbn [step] in Hstep.
      * injection Hstep as <-. rewrite exec_uninitialised in Hin by reflexivity.
        exact Hin.
      * cbn in Hstep. destruct Hp as [-> | ->]; [destruct i; discriminate|].
        destruct i as [|i]; [|destruct i; discriminate]. cbn in Hstep.
        destruct r; try discriminate. cbn in Hstep. injection Hstep as <-.
        exact Hin.
      * cbn in Hstep. destruct (pend !! i) as [[[|ms] k]|]; try discriminate.
        injection Hstep as <-. exact Hin.
      * cbn in Hstep. destruct Hp as [-> | ->]; [destruct i; discriminate|].
        destruct i as [|i]; [|destruct i; discriminate]. discriminate Hstep.
      * discriminate Hstep.
Qed.

(** ** Callbacks that return *)

Lemma currentPlayer_two st :
  length (players st) = 2%nat ->
  isDefined (currentPlayerIndex st) = true ->
  exists u, currentPlayer st = Return u.
Proof.
  intros Hlen Hdef. unfold currentPlayer.
  destruct (currentPlayerIndex st) as [p|]; [|discriminate].
  destruct (players st) as [|u0 [|u1 [|]]]; try discriminate.
  destruct p; eexists; reflexivity.
Qed.

Lemma sendTurn_returns k w st :
  this_state w = Some st -> length (players st) = 2%nat ->
  isDefined (currentPlayerIndex st) = true ->
  fst (sendTurn k w) = Return tt.
Proof.
  intros Hs Hlen Hdef. destruct (currentPlayer_two st Hlen Hdef) as [u Hu].
  rewrite (sendTurn_world k w st u Hs Hu). reflexivity.
Qed.

Lemma sendTurnNotification_returns k w st :
  this_state w = Some st -> length (players st) = 2%nat ->
  isDefined (currentPlayerIndex st) = true ->
  fst (sendTurnNotification k w) = Return tt.
Proof.
  intros Hs Hlen Hdef.
  pose proof (sendTurn_returns k w st Hs Hlen Hdef) as Hsend.
  destruct w as [gs icons s reqs pend cons]. cbn in Hs. subst s.
  unfold sendTurnNotification, bind, getState, deref, await. cbn.
  destruct (truthy (lastTurnMessageId st)); [reflexivity | exact Hsend].
Qed.

Lemma modify_then {A} f (m : M A) w st :
  this_state w = Some st ->
  bind (modify f) (fun _ => m) w = m (with_state (Some (f st)) w).
Proof. intros Hs. unfold bind, modify. rewrite Hs. reflexivity. Qed.

Lemma getState_then {A} (k : SaveBundle -> M A) w st :
  this_state w = Some st -> bind getState k w = k st w.
Proof. intros Hs. unfold bind, getState, deref. rewrite Hs. reflexivity. Qed.

(** X21: while both players are present and have icons, no callback
    throws: on a reachable session every callback that waits for the host
    returns when the host answers, and so does every timer. *)
Theorem callbacks_return args w st i :
  reachable args w -> this_state w = Some st ->
  length (players st) = 2%nat ->
  (forall p, iconOf (playerIcons st) p <> None) ->
  (forall k r coin m,
     pending w !! i = Some (HostReply, k) ->
     resume k r coin = Some m ->
     fst (m (with_pending (delete i (pending w)) w)) = Return tt)
  /\ (forall ms k m,
        pending w !! i = Some (Timer ms, k) ->
        fire k = Some m ->
        fst (m (with_pending (delete i (pending w)) w)) = Return tt).
Proof.
  intros Hr Hs Hlen Hicons. split.
  - intros k r coin m Hk Hm.
    pose proof (reachable_Inv _ _ Hr) as Hi.
    pose proof (reachable_CbInv _ _ Hr) as Hc. unfold CbInv in Hc.
    rewrite Hs in Hc. destruct Hc as (_ & C2 & C3 & _).
    pose proof (lookup_In _ _ _ Hk) as Hin.
    set (w0 := with_pending (delete i (pending w)) w).
    assert (Hs0 : this_state w0 = Some st) by (destruct w; exact Hs).
    destruct k, r; try discriminate Hm; cbn [resume] in Hm;
      apply (inj Some) in Hm; subst m.
    + destruct Hi as (_ & _ & Hi). rewrite Hs in Hi. destruct Hi as (_ & Hnc & _).
      exfalso. exact (Hnc _ Hin).
    + rewrite (modify_then _ _ w0 st Hs0).
      rewrite (modify_then _ _
                 (with_state
                    (Some (set_gameBoardMessageDescriptor (Some md) st)) w0)
                 (set_gameBoardMessageDescriptor (Some md) st) eq_refl).
      eapply sendTurnNotification_returns; [reflexivity | exact Hlen | reflexivity].
    + exact (sendTurn_returns k w0 st Hs0 Hlen (proj1 (C3 _ _ Hin))).
    + destruct k. unfold bind, modify, run_then. rewrite Hs0. reflexivity.
    + reflexivity.
    + destruct (C2 _ Hin) as (_ & Hdef & _).
      rewrite (getState_then _ w0 st Hs0).
      destruct (possibleTurnsCount st =? 0).
      * unfold endGameDraw. rewrite (getState_then _ w0 st Hs0). reflexivity.
      * rewrite (modify_then _ _ w0 st Hs0).
        eapply sendTurnNotification_returns; [reflexivity | exact Hlen |].
        cbn [currentPlayerIndex set_currentPlayerIndex].
        destruct (currentPlayerIndex st) as [[|]|]; [reflexivity..|discriminate].
    + unfold bind, getState, deref, modify, call. rewrite Hs0. reflexivity.
    + destruct (winning_board args w st i winRow Hr Hs Hk Hlen Hicons)
        as (md & text & board0 & board & Hmd & Htext & Hboard0 & Hboard).
      rewrite (getState_then _ w0 st Hs0).
      unfold bind, lift, deref, await.
      rewrite Hboard0. cbv iota beta. rewrite Hboard. cbv iota beta.
      rewrite Hmd. cbv iota beta. rewrite Htext. reflexivity.
    + destruct (winner_cell args w st i winRow Hr Hs Hk)
        as (first & rest & p & -> & _ & _ & _ & Hcoord & Hcell).
      rewrite (getState_then _ w0 st Hs0).
      unfold bind, lift, deref, call.
      change (at_ (first :: rest) 0) with (Some first). cbv iota beta.
      rewrite Hcoord. cbv iota beta. rewrite Hcell. cbv iota beta.
      destruct (players st) as [|u0 [|u1 [|]]]; try discriminate.
      destruct p; reflexivity.
  - intros ms k m Hk Hm. destruct k; try discriminate Hm.
    cbn [fire] in Hm. injection Hm as <-. reflexivity.
Qed.

(** ** How many moves a game has *)

Lemma counter_nonneg st : wf_state st -> 0 <= possibleTurnsCount st <= 9.
Proof.
  intros Hwf. pose proof (occupied_le st (wf_board _ Hwf)) as Ho.
  pose proof (wf_count _ Hwf) as Hc. destruct (wf_board _ Hwf) as (Hg & _).
  rewrite Hg in Hc. change (3 ^ 2) with 9 in Hc. lia.
Qed.

Lemma movers_bounded ls : forall w st,
  Inv w -> this_state w = Some st ->
  Z.of_nat (length (movers ls w)) <= possibleTurnsCount st.
Proof.
  induction ls as [|l ls IH]; intros w st Hi Hs; cbn [movers].
  - pose proof (counter_nonneg st (Inv_wf _ _ Hi Hs)). cbn [length]. lia.
  - destruct (step l w) as [w1|] eqn:Hstep.
    2:{ pose proof (counter_nonneg st (Inv_wf _ _ Hi Hs)). cbn [length]. lia. }
    pose proof (Inv_wf _ _ Hi Hs) as Hwf.
    destruct (step_frame _ _ _ _ Hi Hs Hstep) as (st1 & Hs1 & _).
    pose proof (IH w1 st1 (step_Inv _ _ _ Hi Hstep) Hs1) as Hrec.
    destruct (step_board w st l w1 st1 Hi Hwf Hs Hstep Hs1)
      as [(_ & Hc & _) | (u & b & n & p & _ & _ & Hcp & Hc & _)].
    + rewrite (moved_same w w1 st st1 Hs Hs1 Hc). lia.
    + rewrite (moved_marked w w1 st st1 p Hs Hs1 Hc Hcp). cbn [length]. lia.
Qed.

Lemma movers_bounded_boot ls : forall w,
  Inv w -> this_state w = None -> (length (movers ls w) <= 9)%nat.
Proof.
  induction ls as [|l ls IH]; intros w Hi Hs; cbn [movers]; [cbn; lia|].
  destruct (step l w) as [w1|] eqn:Hstep; [|cbn; lia].
  rewrite (moved_uninitialised w w1 Hs).
  pose proof (step_Inv _ _ _ Hi Hstep) as Hi1.
  destruct (this_state w1) as [st1|] eqn:Hs1.
  - pose proof (movers_bounded ls w1 st1 Hi1 Hs1) as Hb.
    pose proof (counter_nonneg st1 (Inv_wf _ _ Hi1 Hs1)). lia.
  - exact (IH w1 Hi1 Hs1).
Qed.

(** X22: a game has at most nine moves.  No execution from start-up
    contains more than nine accepted moves, and from a reachable session
    no execution contains more accepted moves than the counter of free
    cells says. *)
Theorem moves_are_bounded args :
  (forall ls, (length (movers ls (boot args)) <= 9)%nat)
  /\ (forall w st ls,
        reachable args w -> this_state w = Some st ->
        Z.of_nat (length (movers ls w)) <= possibleTurnsCount st <= 9).
Proof.
  split.
  - intros ls. apply movers_bounded_boot; [apply Inv_boot | reflexivity].
  - intros w st ls Hr Hs. pose proof (reachable_Inv _ _ Hr) as Hi. split.
    + exact (movers_bounded ls w st Hi Hs).
    + exact (proj2 (counter_nonneg st (Inv_wf _ _ Hi Hs))).
Qed.

(** ** A click that is a move *)

(** X23: when it is your turn, your click on a free cell is a move.  On a
    reachable session that is not stale and accepts a selection, the board
    message, the turn message and the current player are known and the
    current player is one of the two players; a click of that user on the
    control of any free cell, under the id the board gave it, is accepted:
    it marks the cell for the current player and lowers the counter by
    one, and no further click is accepted before the turn cycle has run
    again. *)
Theorem your_turn_your_move args w st :
  reachable args w -> this_state w = Some st ->
  stale st = false -> acceptSelection st = true ->
  exists p u,
    currentPlayerIndex st = Some p
    /\ at_ (players st) (indexZ p) = Some u
    /\ isDefined (gameBoardMessageDescriptor st) = true
    /\ isDefined (lastTurnMessageId st) = true
    /\ forall user n,
         user_id user = user_id u -> 0 <= n <= 8 -> ownerOf st n = None ->
         accepted st user (toString n) n p
         /\ exists w' st',
              step (Deliver (ButtonClickGameEvent user (toString n))) w = Some w'
              /\ this_state w' = Some st'
              /\ ownerOf st' n = Some p
              /\ possibleTurnsCount st' = possibleTurnsCount st - 1
              /\ (stale st' = true \/ acceptSelection st' = false).
Proof.
  intros Hr Hs Hstale Haccept.
  pose proof (reachable_Inv _ _ Hr) as Hi.
  pose proof (reachable_wf _ _ _ Hr Hs) as Hwf.
  pose proof (wf_board _ Hwf) as Hb. pose proof Hb as (Hg & _).
  pose proof (reachable_CbInv _ _ Hr) as Hc. unfold CbInv in Hc.
  rewrite Hs in Hc. destruct Hc as (C1 & _).
  destruct (C1 Haccept) as (Hlast & Hcpi & Hdesc).
  assert (Hstarted : started st = true)
    by (exact (proj1 (wf_descriptor _ Hwf Hdesc))).
  pose proof (wf_active _ Hwf Hstarted Hstale) as Hlen.
  destruct (currentPlayerIndex st) as [p|] eqn:Hp; [|discriminate].
  assert (Hu : exists u, at_ (players st) (indexZ p) = Some u).
  { destruct (players st) as [|u0 [|u1 [|]]]; try discriminate.
    destruct p; eexists; reflexivity. }
  destruct Hu as [u Hu]. exists p, u.
  split; [reflexivity|]. split; [exact Hu|]. split; [exact Hdesc|].
  split; [exact Hlast|].
  intros user n Hid Hn Hfree.
  assert (Hacc : accepted st user (toString n) n p).
  { unfold accepted. split; [apply parseInt_toString|].
    split; [apply clickable_true; auto|]. split; [exact Hp|].
    split; [exists u; auto|]. split; [exact Haccept|].
    rewrite (getCoordFromIndex_3 st n Hg). cbn [fst snd].
    rewrite (ownerOf_cell st n Hb Hn), Hfree. reflexivity. }
  split; [exact Hacc|].
  pose proof (marked_facts st user (toString n) n p Hb Hacc)
    as (_ & _ & _ & _ & Hown & _).
  pose proof (marked_fields st n) as (_ & _ & _ & _ & _ & _ & _ & Hcount).
  pose proof (click_summary w st user (toString n) Hs) as Hsum. cbv zeta in Hsum.
  destruct Hsum as (_ & _ & [(_ & _ & Hno) | (n' & p' & Hacc' & Hsum)]).
  { exfalso. exact (Hno n p Hacc). }
  assert (n' = n).
  { destruct Hacc' as (Hparse & _). rewrite parseInt_toString in Hparse. congruence. }
  subst n'.
  exists (exec (handleButtonClick user (toString n)) w).
  destruct Hsum as [(line & _ & Hst & _) | [(_ & Hst & _) | (Hthrow & _)]].
  - eexists. split; [reflexivity|]. split; [exact Hst|].
    split; [exact Hown|]. split; [exact Hcount|]. left. reflexivity.
  - eexists. split; [reflexivity|]. split; [exact Hst|].
    split; [exact Hown|]. split; [exact Hcount|]. right. reflexivity.
  - destruct (accepted_facts st user (toString n) n p Hwf Hacc) as (_ & _ & _ & _ & Hw).
    congruence.
Qed.

(** ** One turn cycle at a time *)

(** X24: the turn cycle is sequential.  On every reachable session at
    most one callback of the turn cycle is waiting; none is waiting, and
    no selection is accepted, before the game has started; and while a
    selection is accepted none is waiting. *)
Theorem one_turn_cycle args w :
  reachable args w ->
  (inFlight (pending w) <= 1)%nat
  /\ forall st,
       this_state w = Some st ->
       (started st = false ->
        acceptSelection st = false /\ inFlight (pending w) = 0%nat)
       /\ (acceptSelection st = true -> inFlight (pending w) = 0%nat).
Proof.
  intros Hr. destruct (reachable_Inv _ _ Hr) as (_ & Hle & Hi).
  split; [exact Hle|]. intros st Hs. rewrite Hs in Hi.
  destruct Hi as (_ & _ & Ha & Hl). split; assumption.
Qed.

(** ** The end of a game, from the last click on *)

Lemma delete_last {A} (l : list A) x : delete (length l) (l ++ [x]) = l.
Proof.
  induction l as [|a l IH]; [reflexivity|]. cbn. f_equal. exact IH.
Qed.

Lemma lookup_last {A} (l : list A) x : (l ++ [x]) !! length l = Some x.
Proof.
  induction l as [|a l IH]; [reflexivity|]. exact IH.
Qed.

(** X25: the win, end to end.  On a reachable session whose players have
    icons, when the current player's accepted move completes a line and
    the host answers the two requests that follow, the session ends stale
    on the marked board with three requests added to the log, in this
    order: the deletion of the turn message, the edit of the board message
    and the announcement, which names and mentions the user who made the
    move; no callback is left over. *)
Theorem win_resolution args w st user buttonId n p line :
  reachable args w -> this_state w = Some st ->
  accepted st user buttonId n p ->
  checkForWin (marked st n) = Return (Some line) ->
  (forall q, iconOf (playerIcons st) q <> None) ->
  exists md text board winner,
    gameBoardMessageDescriptor st = Some md
    /\ at_ (players st) (indexZ p) = Some winner
    /\ user_id winner = user_id user
    /\ forall c1 c2,
         run [Deliver (ButtonClickGameEvent user buttonId);
              Resolve (length (pending w)) Void c1;
              Resolve (length (pending w)) Void c2] w
         = Some (with_requests
                   (requests w
                      ++ [deleteMessage (channelId st) (lastTurnMessageId st);
                          editMessage (md_channelId md) (md_messageId md) text
                            {| components := Some board;
                               allowedMentions := None |};
                          sendMessage
                            (lit "User <@" ++ user_id winner
                               ++ lit "> won the game!" ++ NL
                               ++ lit "Game over." ++ NL
                               ++ lit "Leave the session")
                            (channelId st)
                            {| components := Some [[LEAVE_BUTTON]];
                               allowedMentions := Some [user_id winner] |}])
                   (with_state (Some (set_stale true (marked st n))) w)).
Proof.
  intros Hr Hs Hacc Hwin Hicons.
  pose proof (reachable_wf _ _ _ Hr Hs) as Hwf.
  pose proof (wf_board _ Hwf) as Hb. pose proof Hb as (Hg & _).
  destruct (accepted_facts st user buttonId n p Hwf Hacc)
    as (Hstale & _ & Hdesc & _ & Hcheck).
  destruct (wf_descriptor _ Hwf Hdesc) as [Hstarted _].
  pose proof (wf_active _ Hwf Hstarted Hstale) as Hlen.
  pose proof (marked_facts st user buttonId n p Hb Hacc)
    as (_ & _ & Mb & _ & _ & _).
  pose proof (winning_move_world w st user buttonId n p line Hs Hb Hacc Hwin)
    as Hclick.
  set (st1 := set_stale true (marked st n)) in *.
  set (w1 := with_pending (pending w ++ [(HostReply, K_winRetracted line)])
               (with_requests
                  (requests w
                     ++ [deleteMessage (channelId st) (lastTurnMessageId st)])
                  (with_state (Some st1) w))) in *.
  assert (Hstep1 : step (Deliver (ButtonClickGameEvent user buttonId)) w = Some w1)
    by (cbn [step onEvent]; unfold exec; rewrite Hclick; reflexivity).
  pose proof (reach_step _ _ _ _ Hr Hstep1) as Hr1.
  assert (Hs1 : this_state w1 = Some st1) by reflexivity.
  assert (Hk1 : pending w1 !! length (pending w)
                = Some (HostReply, K_winRetracted line))
    by (apply lookup_last).
  destruct (winning_board args w1 st1 (length (pending w)) line Hr1 Hs1 Hk1 Hlen
              Hicons)
    as (md & text & board0 & board & Hmd & Htext & Hboard0 & Hboard).
  destruct (winning_line args w st user buttonId n p line Hr Hs Hacc Hwin)
    as (Hin & _ & Hall).
  destruct (winningLines_cells line Hin) as [(first & rest & ->) Hcells].
  apply Forall_cons in Hcells as [Hfirst _]. apply Forall_cons in Hall as [Hown _].
  assert (Hb1 : board3x3 st1) by exact Mb.
  pose proof (ownerOf_cell st1 first Hb1 Hfirst) as Hcell.
  rewrite (ownerOf_board (marked st n) st1 eq_refl), Hown in Hcell.
  destruct Hacc as (_ & _ & _ & (winner & Hu & Hid) & _).
  exists md, text, board, winner.
  split; [exact Hmd|]. split; [exact Hu|]. split; [symmetry; exact Hid|].
  intros c1 c2. cbn [run]. rewrite Hstep1.
  rewrite (winRetracted_step w1 st1 (length (pending w)) (first :: rest) md text
             board0 board c1 Hs1 Hk1 Hmd Htext Hboard0 Hboard).
  set (w2 := with_pending _ (with_requests _ w1)).
  assert (Hs2 : this_state w2 = Some st1) by reflexivity.
  assert (Hk2 : pending w2 !! length (pending w)
                = Some (HostReply, K_winEdited (first :: rest))).
  { unfold w2, w1. cbn [pending with_pending with_requests with_state].
    rewrite delete_last. apply lookup_last. }
  rewrite (winEdited_step w2 st1 (length (pending w)) first rest p c2 Hs2 Hk2
             (getCoordFromIndex_3 st1 first Hg) Hcell).
  change (players st1) with (players st). rewrite Hu.
  unfold w2, w1. destruct w as [gs icons s reqs pend cons].
  unfold with_requests, with_pending, with_state.
  cbn [pending requests this_state this_gameSize this_playerIcons console].
  rewrite !delete_last. rewrite <- !List.app_assoc. reflexivity.
Qed.

Lemma click_last gs icons st reqs pend cons user buttonId st1 req :
  handleButtonClick user buttonId
    {| this_gameSize := gs; this_playerIcons := icons; this_state := Some st;
       requests := reqs; pending := pend; console := cons |}
  = (Return tt,
     with_pending (pend ++ [(HostReply, K_controlReplaced)])
       (with_requests (reqs ++ [req])
          (with_state (Some st1)
             {| this_gameSize := gs; this_playerIcons := icons;
                this_state := Some st; requests := reqs; pending := pend;
                console := cons |}))) ->
  step (Deliver (ButtonClickGameEvent user buttonId))
    {| this_gameSize := gs; this_playerIcons := icons; this_state := Some st;
       requests := reqs; pending := pend; console := cons |}
  = Some {| this_gameSize := gs; this_playerIcons := icons;
            this_state := Some st1; requests := reqs ++ [req];
            pending := pend ++ [(HostReply, K_controlReplaced)];
            console := cons |}.
Proof.
  intros Hclick. cbn [step onEvent]. unfold exec. rewrite Hclick. reflexivity.
Qed.

Lemma run_cons l ls w :
  run (l :: ls) w
  = match step l w with Some w' => run ls w' | None => None end.
Proof. reflexivity. Qed.

Lemma lastControl_last gs icons st reqs pend cons coin :
  possibleTurnsCount st = 0 ->
  step (Resolve (length pend) Void coin)
    {| this_gameSize := gs; this_playerIcons := icons; this_state := Some st;
       requests := reqs; pending := pend ++ [(HostReply, K_controlReplaced)];
       console := cons |}
  = Some {| this_gameSize := gs; this_playerIcons := icons;
            this_state := Some st;
            requests :=
              reqs ++ [deleteMessage (channelId st) (lastTurnMessageId st)];
            pending := pend ++ [(HostReply, K_drawRetracted)];
            console := cons |}.
Proof.
  intros Hc.
  rewrite (lastControl_step _ st (length pend) coin);
    [|reflexivity|apply lookup_last|exact Hc].
  unfold with_pending, with_requests.
  cbn [pending requests this_state this_gameSize this_playerIcons console].
  rewrite delete_last. reflexivity.
Qed.

Lemma drawRetracted_last gs icons st reqs pend cons coin :
  step (Resolve (length pend) Void coin)
    {| this_gameSize := gs; this_playerIcons := icons; this_state := Some st;
       requests := reqs; pending := pend ++ [(HostReply, K_drawRetracted)];
       console := cons |}
  = Some {| this_gameSize := gs; this_playerIcons := icons;
            this_state := Some (set_stale true st);
            requests :=
              reqs ++ [sendMessage
                         (lit "The game was ended in a draw." ++ NL
                            ++ lit "Leave the session")
                         (channelId st) leaveRow];
            pending := pend; console := cons |}.
Proof.
  rewrite (drawRetracted_step _ st (length pend) coin);
    [|reflexivity|apply lookup_last].
  unfold with_pending, with_requests, with_state.
  cbn [pending requests this_state this_gameSize this_playerIcons console].
  rewrite delete_last. reflexivity.
Qed.

(** X26: the draw, end to end.  On a reachable session, when the current
    player's accepted move takes the last free cell without completing a
    line and the host answers the two requests that follow, the session
    ends stale on the full board with three requests added to the log, in
    this order: the replacement of the control, the deletion of the turn
    message and the draw notice with the Leave control; the current player
    is not changed and no callback is left over. *)
Theorem draw_end_to_end args w st user buttonId n p icon :
  reachable args w -> this_state w = Some st ->
  accepted st user buttonId n p ->
  checkForWin (marked st n) = Return None ->
  possibleTurnsCount st = 1 ->
  iconOf (playerIcons st) p = Some icon ->
  exists md control,
    gameBoardMessageDescriptor st = Some md
    /\ forall c1 c2,
         run [Deliver (ButtonClickGameEvent user buttonId);
              Resolve (length (pending w)) Void c1;
              Resolve (length (pending w)) Void c2] w
         = Some (with_requests
                   (requests w
                      ++ [replaceControl (channelId st) (md_messageId md)
                            (toString n) control;
                          deleteMessage (channelId st) (lastTurnMessageId st);
                          sendMessage
                            (lit "The game was ended in a draw." ++ NL
                               ++ lit "Leave the session")
                            (channelId st) leaveRow])
                   (with_state
                      (Some (set_stale true
                               (set_acceptSelection false (marked st n))))
                      w)).
Proof.
  intros Hr Hs Hacc Hwin Hcount Hicon.
  pose proof (reachable_wf _ _ _ Hr Hs) as Hwf.
  pose proof (wf_board _ Hwf) as Hb.
  destruct (accepted_move_world w st user buttonId n p icon Hs Hb Hacc Hwin Hicon)
    as (md & control & Hmd & Hclick).
  exists md, control. split; [exact Hmd|]. intros c1 c2. clear Hr.
  destruct w as [gs icons s reqs pend cons]. cbn [this_state] in Hs. subst s.
  cbn [pending requests] in *.
  set (st1 := set_acceptSelection false (marked st n)) in *.
  assert (Hc1 : possibleTurnsCount st1 = 0)
    by (change (possibleTurnsCount st - 1 = 0); lia).
  rewrite run_cons, (click_last _ _ _ _ _ _ _ _ _ _ Hclick).
  rewrite run_cons, (lastControl_last _ _ st1 _ _ _ c1 Hc1).
  rewrite run_cons, drawRetracted_last.
  unfold with_requests, with_state.
  cbn [pending requests this_state this_gameSize this_playerIcons console run].
  rewrite <- !List.app_assoc. reflexivity.
Qed.

(** ** A move, from the click to the next turn *)

Lemma nextPlayer_opponent p : nextPlayer (Some p) = Some (opponent p).
Proof. destruct p; reflexivity. Qed.

Lemma controlReplaced_step w st i coin :
  this_state w = Some st ->
  pending w !! i = Some (HostReply, K_controlReplaced) ->
  possibleTurnsCount st <> 0 ->
  truthy (lastTurnMessageId st) = true ->
  step (Resolve i Void coin) w
  = Some (with_pending
            (delete i (pending w)
               ++ [(HostReply, K_turnRetracted ThenAcceptSelection)])
            (with_requests
               (requests w
                  ++ [deleteMessage (channelId st) (lastTurnMessageId st)])
               (with_state
                  (Some (set_currentPlayerIndex
                           (nextPlayer (currentPlayerIndex st)) st))
                  w))).
Proof.
  intros Hs Hk Hc Ht. cbn [step]. rewrite Hk. cbn [resume].
  destruct w as [gs icons s reqs pend cons]. cbn in Hs. subst s.
  unfold exec, sendTurnNotification, bind, getState, deref, modify, await. cbn.
  destruct (possibleTurnsCount st =? 0) eqn:E; [apply Z.eqb_eq in E; contradiction|].
  cbn. rewrite Ht. reflexivity.
Qed.

Lemma turnRetracted_step w st i k u coin :
  this_state w = Some st ->
  pending w !! i = Some (HostReply, K_turnRetracted k) ->
  currentPlayer st = Return u ->
  step (Resolve i Void coin) w
  = Some (with_pending (delete i (pending w) ++ [(HostReply, K_turnSent k)])
            (with_requests (requests w ++ [turnMessage st u]) w)).
Proof.
  intros Hs Hk Hu. cbn [step]. rewrite Hk. cbn [resume]. unfold exec.
  rewrite (sendTurn_world k (with_pending (delete i (pending w)) w) st u);
    [|destruct w; exact Hs|exact Hu].
  destruct w; reflexivity.
Qed.

Lemma turnSent_step w st i md coin :
  this_state w = Some st ->
  pending w !! i = Some (HostReply, K_turnSent ThenAcceptSelection) ->
  step (Resolve i (Message md) coin) w
  = Some (with_state
            (Some (set_acceptSelection true
                     (set_lastTurnMessageId (Some (md_messageId md)) st)))
            (with_pending (delete i (pending w)) w)).
Proof.
  intros Hs Hk. cbn [step]. rewrite Hk. cbn [resume].
  destruct w as [gs icons s reqs pend cons]. cbn in Hs. subst s.
  reflexivity.
Qed.

Lemma controlReplaced_last gs icons st reqs pend cons coin :
  possibleTurnsCount st <> 0 ->
  truthy (lastTurnMessageId st) = true ->
  step (Resolve (length pend) Void coin)
    {| this_gameSize := gs; this_playerIcons := icons; this_state := Some st;
       requests := reqs; pending := pend ++ [(HostReply, K_controlReplaced)];
       console := cons |}
  = Some {| this_gameSize := gs; this_playerIcons := icons;
            this_state :=
              Some (set_currentPlayerIndex
                      (nextPlayer (currentPlayerIndex st)) st);
            requests :=
              reqs ++ [deleteMessage (channelId st) (lastTurnMessageId st)];
            pending :=
              pend ++ [(HostReply, K_turnRetracted ThenAcceptSelection)];
            console := cons |}.
Proof.
  intros Hc Ht.
  rewrite (controlReplaced_step _ st (length pend) coin);
    [|reflexivity|apply lookup_last|exact Hc|exact Ht].
  unfold with_pending, with_requests, with_state.
  cbn [pending requests this_state this_gameSize this_playerIcons console].
  rewrite delete_last. reflexivity.
Qed.

Lemma turnRetracted_last gs icons st reqs pend cons k u coin :
  currentPlayer st = Return u ->
  step (Resolve (length pend) Void coin)
    {| this_gameSize := gs; this_playerIcons := icons; this_state := Some st;
       requests := reqs; pending := pend ++ [(HostReply, K_turnRetracted k)];
       console := cons |}
  = Some {| this_gameSize := gs; this_playerIcons := icons;
            this_state := Some st;
            requests := reqs ++ [turnMessage st u];
            pending := pend ++ [(HostReply, K_turnSent k)];
            console := cons |}.
Proof.
  intros Hu.
  rewrite (turnRetracted_step _ st (length pend) k u coin);
    [|reflexivity|apply lookup_last|exact Hu].
  unfold with_pending, with_requests.
  cbn [pending requests this_state this_gameSize this_playerIcons console].
  rewrite delete_last. reflexivity.
Qed.

Lemma turnSent_last gs icons st reqs pend cons md coin :
  step (Resolve (length pend) (Message md) coin)
    {| this_gameSize := gs; this_playerIcons := icons; this_state := Some st;
       requests := reqs;
       pending := pend ++ [(HostReply, K_turnSent ThenAcceptSelection)];
       console := cons |}
  = Some {| this_gameSize := gs; this_playerIcons := icons;
            this_state :=
              Some (set_acceptSelection true
                      (set_lastTurnMessageId (Some (md_messageId md)) st));
            requests := reqs; pending := pend; console := cons |}.
Proof.
  rewrite (turnSent_step _ st (length pend) md coin);
    [|reflexivity|apply lookup_last].
  unfold with_pending, with_state.
  cbn [pending requests this_state this_gameSize this_playerIcons console].
  rewrite delete_last. reflexivity.
Qed.

(** X27: a move, end to end.  On a reachable session, when the current
    player's accepted move completes no line and leaves a free cell, and
    the host answers the three requests that follow, three requests are
    added to the log, in this order: the replacement of the control, the
    deletion of the old turn message and a turn message for the other
    player; the session then accepts a selection again, the other player
    is the current player, the id of the new turn message is recorded, and
    no callback is left over. *)
Theorem move_end_to_end args w st user buttonId n p icon :
  reachable args w -> this_state w = Some st ->
  accepted st user buttonId n p ->
  checkForWin (marked st n) = Return None ->
  possibleTurnsCount st <> 1 ->
  iconOf (playerIcons st) p = Some icon ->
  truthy (lastTurnMessageId st) = true ->
  exists md control next,
    gameBoardMessageDescriptor st = Some md
    /\ at_ (players st) (indexZ (opponent p)) = Some next
    /\ forall c1 c2 c3 turn,
         run [Deliver (ButtonClickGameEvent user buttonId);
              Resolve (length (pending w)) Void c1;
              Resolve (length (pending w)) Void c2;
              Resolve (length (pending w)) (Message turn) c3] w
         = Some (with_requests
                   (requests w
                      ++ [replaceControl (channelId st) (md_messageId md)
                            (toString n) control;
                          deleteMessage (channelId st) (lastTurnMessageId st);
                          turnMessage st next])
                   (with_state
                      (Some (set_acceptSelection true
                               (set_lastTurnMessageId
                                  (Some (md_messageId turn))
                                  (set_currentPlayerIndex (Some (opponent p))
                                     (set_acceptSelection false
                                        (marked st n))))))
                      w)).
Proof.
  intros Hr Hs Hacc Hwin Hcount Hicon Htruthy.
  pose proof (reachable_wf _ _ _ Hr Hs) as Hwf.
  pose proof (wf_board _ Hwf) as Hb.
  destruct (accepted_facts st user buttonId n p Hwf Hacc)
    as (Hstale & _ & Hdesc & _ & _).
  destruct (wf_descriptor _ Hwf Hdesc) as [Hstarted _].
  pose proof (wf_active _ Hwf Hstarted Hstale) as Hlen.
  assert (Hnext : exists next, at_ (players st) (indexZ (opponent p)) = Some next).
  { destruct (players st) as [|u0 [|u1 [|]]]; try discriminate.
    destruct p; eexists; reflexivity. }
  destruct Hnext as [next Hnext].
  destruct (accepted_move_world w st user buttonId n p icon Hs Hb Hacc Hwin Hicon)
    as (md & control & Hmd & Hclick).
  pose proof Hacc as (_ & _ & Hcp & _).
  exists md, control, next. split; [exact Hmd|]. split; [exact Hnext|].
  intros c1 c2 c3 turn. clear Hr.
  destruct w as [gs icons s reqs pend cons]. cbn [this_state] in Hs. subst s.
  cbn [pending requests] in *.
  set (st1 := set_acceptSelection false (marked st n)) in *.
  set (st2 := set_currentPlayerIndex (Some (opponent p)) st1).
  assert (Hc1 : possibleTurnsCount st1 <> 0)
    by (change (possibleTurnsCount st - 1 <> 0); lia).
  assert (Hu2 : currentPlayer st2 = Return next)
    by (unfold currentPlayer; change (players st2) with (players st);
        change (currentPlayerIndex st2) with (Some (opponent p));
        cbv iota beta; rewrite Hnext; reflexivity).
  rewrite run_cons, (click_last _ _ _ _ _ _ _ _ _ _ Hclick).
  rewrite run_cons, (controlReplaced_last _ _ st1 _ _ _ c1 Hc1 Htruthy).
  change (currentPlayerIndex st1) with (currentPlayerIndex st).
  rewrite Hcp, nextPlayer_opponent. fold st2.
  rewrite run_cons, (turnRetracted_last _ _ st2 _ _ _ _ next c2 Hu2).
  rewrite run_cons, turnSent_last.
  unfold with_requests, with_state.
  cbn [pending requests this_state this_gameSize this_playerIcons console run].
  rewrite <- !List.app_assoc. reflexivity.
Qed.

(** ** The start of the game, from the second join to the first turn *)

Lemma step_lobby l w w' st :
  Inv w -> this_state w = Some st -> started st = false ->
  step l w = Some w' ->
  exists st',
    this_state w' = Some st'
    /\ (started st' = false ->
        lastTurnMessageId st' = lastTurnMessageId st).
Proof.
  intros Hi Hs Hlobby Hstep.
  destruct l as [event | i r coin | i | i | args]; cbn [step] in Hstep.
  - injection Hstep as <-. destruct event as [u|u|u b|]; cbn [onEvent].
    + destruct w as [gs icons s reqs pend cons]. cbn in Hs. subst s.
      mrun_post.
      all: eexists; (split; [reflexivity|]); ffin.
    + destruct w as [gs icons s reqs pend cons]. cbn in Hs. subst s.
      mrun_post.
      all: eexists; (split; [reflexivity|]); ffin.
    + pose proof (click_summary w st u b Hs) as Hsum. cbv zeta in Hsum.
      destruct Hsum as (_ & _ & [(Hst & _ & _) | (n & p & Hmove & Hsum)]).
      * exists st. split; [assumption|]. ffin.
      * destruct Hsum as [(line & _ & Hst & _) | [(_ & Hst & _) | (_ & Hst & _)]];
          eexists; (split; [exact Hst|]); unfold marked; ffin.
    + exists st. split; [assumption|]. ffin.
  - destruct (pending w !! i) as [[[|ms] k]|] eqn:Hk; try discriminate.
    destruct (resume k r coin) as [m|] eqn:Hr; [|discriminate].
    injection Hstep as <-.
    destruct Hi as (_ & _ & Hi). rewrite Hs in Hi.
    destruct Hi as (_ & Hnc & _ & Hfl). destruct (Hfl Hlobby) as [_ Hzero].
    pose proof (lookup_In _ _ _ Hk) as Hin.
    pose proof (inFlight_zero _ _ _ Hzero Hin) as Hnt.
    destruct w as [gs icons s reqs pend cons]. cbn in Hs, Hk, Hnc, Hin. subst s.
    destruct k, r; try discriminate Hr; try discriminate Hnt;
      cbn in Hr; injection Hr as <-.
    all: try (exfalso; eapply Hnc; eassumption).
    all: mrun_post.
    all: eexists; (split; [reflexivity|]); ffin.
  - destruct (pending w !! i) as [[[|ms] k]|] eqn:Hk; try discriminate.
    injection Hstep as <-. exists st. split; [assumption|]. ffin.
  - destruct (pending w !! i) as [[[|ms] k]|] eqn:Hk; try discriminate.
    destruct (fire k) as [m|] eqn:Hf; [|discriminate].
    injection Hstep as <-.
    destruct k; try discriminate Hf. cbn in Hf. injection Hf as <-.
    destruct w as [gs icons s reqs pend cons]. cbn in Hs. subst s.
    mrun_post.
    all: eexists; (split; [reflexivity|]); ffin.
  - apply (reload_world _ _ _ _ Hs) in Hstep as [Hstale ->].
    exists st. split; [reflexivity|]. ffin.
Qed.

Lemma reachable_lobby args w :
  reachable args w ->
  forall st, this_state w = Some st -> started st = false ->
             lastTurnMessageId st = None.
Proof.
  induction 1 as [|w l w' Hr IH Hstep]; [discriminate|].
  intros st' Hs' Hlobby.
  pose proof (reachable_Inv _ _ Hr) as Hi.
  destruct (this_state w) as [st|] eqn:Hs.
  - destruct (step_frame _ _ _ _ Hi Hs Hstep)
      as (x & Hx & _ & Hst & _).
    rewrite Hs' in Hx. injection Hx as <-.
    assert (Hl : started st = false)
      by (destruct (started st); [rewrite Hst in Hlobby by reflexivity;
                                  discriminate | reflexivity]).
    destruct (step_lobby _ _ _ _ Hi Hs Hl Hstep) as (y & Hy & Hlast).
    rewrite Hs' in Hy. injection Hy as <-.
    rewrite (Hlast Hlobby). exact (IH st eq_refl Hl).
  - destruct Hi as (_ & _ & Hp). rewrite Hs in Hp.
    destruct w as [gs icons s reqs pend cons]. cbn in Hs, Hp. subst s.
    destruct l as [event | i r coin | i | i | a]; cbn [step] in Hstep.
    + injection Hstep as <-. rewrite exec_uninitialised in Hs' by reflexivity.
      discriminate Hs'.
    + cbn in Hstep. destruct Hp as [-> | ->]; [destruct i; discriminate|].
      destruct i as [|i]; [|destruct i; discriminate]. cbn in Hstep.
      destruct r; try discriminate. cbn in Hstep. injection Hstep as <-.
      unfold exec in Hs'. cbn in Hs'. injection Hs' as <-. reflexivity.
    + cbn in Hstep. destruct (pend !! i) as [[[|ms] k]|]; try discriminate.
      injection Hstep as <-. discriminate Hs'.
    + cbn in Hstep. destruct Hp as [-> | ->]; [destruct i; discriminate|].
      destruct i as [|i]; [|destruct i; discriminate]. discriminate Hstep.
    + discriminate Hstep.
Qed.

Lemma join_start_last gs icons st reqs pend cons u1 u2 board :
  started st = false -> stale st = false -> players st = [u1] ->
  buildTicTacToe st false = Return board ->
  step (Deliver (JoinGameEvent u2))
    {| this_gameSize := gs; this_playerIcons := icons; this_state := Some st;
       requests := reqs; pending := pend; console := cons |}
  = Some {| this_gameSize := gs; this_playerIcons := icons;
            this_state := Some (set_started true (set_players [u1; u2] st));
            requests :=
              reqs ++ [addUserToChannel (user_id u2) (channelId st) true;
                       sendMessage
                         (lit "<@" ++ user_id u2 ++ lit "> joined the game."
                            ++ NL ++ lit "Starting game...")
                         (channelId st) noOptions;
                       sendMessage
                         (lit "<@" ++ user_id u1 ++ lit "> will use "
                            ++ tpl (icon0 (playerIcons st)) ++ NL
                            ++ lit "<@" ++ user_id u2 ++ lit "> will use "
                            ++ tpl (icon1 (playerIcons st)))
                         (channelId st)
                         {| components := Some board;
                            allowedMentions := None |}];
            pending := pend ++ [(HostReply, K_boardSent)];
            console := cons |}.
Proof.
  intros Hstarted Hstale Hp Hboard. cbn [step onEvent]. f_equal.
  unfold exec, handleJoin, startGame, bind, getState, modify, call, await, lift,
    ret, deref. cbn.
  rewrite Hstarted, Hstale. cbn. rewrite Hp. cbn.
  match goal with
  | |- context [buildTicTacToe ?s false] =>
      change (buildTicTacToe s false) with (buildTicTacToe st false)
  end.
  rewrite Hboard.
  change (iconsText (set_started true (set_players [u1; u2] st)))
    with (Return (lit "<@" ++ user_id u1 ++ lit "> will use "
                    ++ tpl (icon0 (playerIcons st)) ++ NL
                    ++ lit "<@" ++ user_id u2 ++ lit "> will use "
                    ++ tpl (icon1 (playerIcons st)))).
  cbn. rewrite <- !List.app_assoc. reflexivity.
Qed.

Lemma boardSent_last gs icons st reqs pend cons md coin first :
  truthy (lastTurnMessageId st) = false ->
  at_ (players st) (indexZ coin) = Some first ->
  step (Resolve (length pend) (Message md) coin)
    {| this_gameSize := gs; this_playerIcons := icons; this_state := Some st;
       requests := reqs; pending := pend ++ [(HostReply, K_boardSent)];
       console := cons |}
  = Some {| this_gameSize := gs; this_playerIcons := icons;
            this_state :=
              Some (set_currentPlayerIndex (Some coin)
                      (set_gameBoardMessageDescriptor (Some md) st));
            requests := reqs ++ [turnMessage st first];
            pending := pend ++ [(HostReply, K_turnSent ThenAcceptSelection)];
            console := cons |}.
Proof.
  intros Ht Hfirst. cbn [step pending]. rewrite lookup_last. cbn [resume].
  f_equal.
  unfold exec, sendTurnNotification, sendTurn, currentPlayer, bind, getState,
    modify, call, await, lift, ret, deref.
  cbn. rewrite Ht. cbn. rewrite Hfirst. cbn. rewrite delete_last. reflexivity.
Qed.

(** X28: the start of the game, end to end.  On a reachable session in the
    lobby with one player [u1], when [u2] joins and the host answers the
    two messages that follow, four requests are added to the log, in this
    order: [u2] is added to the channel, the notice that the game starts,
    the board message with the icons of both players, and a turn message
    for the player chosen by the coin, with no deletion before it.  The
    session is then started and accepts a selection, its players are [u1]
    and [u2], the board message and the turn message are recorded, and no
    callback is left over. *)
Theorem game_start_end_to_end args w st u1 u2 :
  reachable args w -> this_state w = Some st ->
  started st = false -> stale st = false -> players st = [u1] ->
  exists board,
    buildTicTacToe st false = Return board
    /\ forall md coin turn c,
         run [Deliver (JoinGameEvent u2);
              Resolve (length (pending w)) (Message md) coin;
              Resolve (length (pending w)) (Message turn) c] w
         = Some (with_requests
                   (requests w
                      ++ [addUserToChannel (user_id u2) (channelId st) true;
                          sendMessage
                            (lit "<@" ++ user_id u2 ++ lit "> joined the game."
                               ++ NL ++ lit "Starting game...")
                            (channelId st) noOptions;
                          sendMessage
                            (lit "<@" ++ user_id u1 ++ lit "> will use "
                               ++ tpl (icon0 (playerIcons st)) ++ NL
                               ++ lit "<@" ++ user_id u2 ++ lit "> will use "
                               ++ tpl (icon1 (playerIcons st)))
                            (channelId st)
                            {| components := Some board;
                               allowedMentions := None |};
                          turnMessage st
                            (match coin with P0 => u1 | P1 => u2 end)])
                   (with_state
                      (Some (set_acceptSelection true
                               (set_lastTurnMessageId
                                  (Some (md_messageId turn))
                                  (set_currentPlayerIndex (Some coin)
                                     (set_gameBoardMessageDescriptor (Some md)
                                        (set_started true
                                           (set_players [u1; u2] st)))))))
                      w)).
Proof.
  intros Hr Hs Hstarted Hstale Hp.
  pose proof (reachable_wf _ _ _ Hr Hs) as Hwf.
  pose proof (reachable_lobby _ _ Hr st Hs Hstarted) as Hlast.
  destruct (blank_board_renders st (proj1 (wf_board _ Hwf))
              (wf_lobby_board _ Hwf Hstarted)) as [board Hboard].
  exists board. split; [exact Hboard|]. intros md coin turn c. clear Hr.
  destruct w as [gs icons s reqs pend cons]. cbn [this_state] in Hs. subst s.
  cbn [pending requests].
  set (st1 := set_started true (set_players [u1; u2] st)).
  assert (Ht1 : truthy (lastTurnMessageId st1) = false)
    by (change (truthy (lastTurnMessageId st) = false); rewrite Hlast;
        reflexivity).
  assert (Hfirst : at_ (players st1) (indexZ coin)
                   = Some (match coin with P0 => u1 | P1 => u2 end))
    by (destruct coin; reflexivity).
  rewrite run_cons,
    (join_start_last _ _ st _ _ _ u1 u2 board Hstarted Hstale Hp Hboard).
  fold st1.
  rewrite run_cons, (boardSent_last _ _ st1 _ _ _ md coin _ Ht1 Hfirst).
  rewrite run_cons, turnSent_last.
  unfold with_requests, with_state.
  cbn [pending requests this_state this_gameSize this_playerIcons console run].
  rewrite <- !List.app_assoc. reflexivity.
Qed.


(** ** A mover without an icon *)

Lemma step_turn_kept l w w' st :
  Inv w -> this_state w = Some st -> inFlight (pending w) = 0%nat ->
  step l w = Some w' ->
  exists st',
    this_state w' = Some st'
    /\ currentPlayerIndex st' = currentPlayerIndex st.
Proof.
  intros Hi Hs Hzero Hstep.
  destruct l as [event | i r coin | i | i | args]; cbn [step] in Hstep.
  - injection Hstep as <-. destruct event as [u|u|u b|]; cbn [onEvent].
    + destruct w as [gs icons s reqs pend cons]. cbn in Hs. subst s.
      mrun_post.
      all: eexists; (split; [reflexivity|]); ffin.
    + destruct w as [gs icons s reqs pend cons]. cbn in Hs. subst s.
      mrun_post.
      all: eexists; (split; [reflexivity|]); ffin.
    + pose proof (click_summary w st u b Hs) as Hsum. cbv zeta in Hsum.
      destruct Hsum as (_ & _ & [(Hst & _ & _) | (n & p & Hmove & Hsum)]).
      * exists st. split; [assumption|]. ffin.
      * destruct Hsum as [(line & _ & Hst & _) | [(_ & Hst & _) | (_ & Hst & _)]];
          eexists; (split; [exact Hst|]); unfold marked; ffin.
    + exists st. split; [assumption|]. ffin.
  - destruct (pending w !! i) as [[[|ms] k]|] eqn:Hk; try discriminate.
    destruct (resume k r coin) as [m|] eqn:Hr; [|discriminate].
    injection Hstep as <-.
    destruct Hi as (_ & _ & Hi). rewrite Hs in Hi.
    destruct Hi as (_ & Hnc & _).
    pose proof (lookup_In _ _ _ Hk) as Hin.
    pose proof (inFlight_zero _ _ _ Hzero Hin) as Hnt.
    destruct w as [gs icons s reqs pend cons]. cbn in Hs, Hk, Hnc, Hin. subst s.
    destruct k, r; try discriminate Hr; try discriminate Hnt;
      cbn in Hr; injection Hr as <-.
    all: try (exfalso; eapply Hnc; eassumption).
    all: mrun_post.
    all: eexists; (split; [reflexivity|]); ffin.
  - destruct (pending w !! i) as [[[|ms] k]|] eqn:Hk; try discriminate.
    injection Hstep as <-. exists st. split; [assumption|]. ffin.
  - destruct (pending w !! i) as [[[|ms] k]|] eqn:Hk; try discriminate.
    destruct (fire k) as [m|] eqn:Hf; [|discriminate].
    injection Hstep as <-.
    destruct k; try discriminate Hf. cbn in Hf. injection Hf as <-.
    destruct w as [gs icons s reqs pend cons]. cbn in Hs. subst s.
    mrun_post.
    all: eexists; (split; [reflexivity|]); ffin.
  - apply (reload_world _ _ _ _ Hs) in Hstep as [Hstale ->].
    exists st. split; [reflexivity|]. ffin.
Qed.

Lemma run_turn_kept args ls : forall w st w',
  reachable args w -> this_state w = Some st ->
  started st = true -> acceptSelection st = false ->
  inFlight (pending w) = 0%nat ->
  run ls w = Some w' ->
  exists st',
    this_state w' = Some st'
    /\ currentPlayerIndex st' = currentPlayerIndex st.
Proof.
  induction ls as [|l ls IH]; intros w st w' Hr Hs Hstarted Haccept Hfl Hrun;
    cbn [run] in Hrun.
  - injection Hrun as <-. exists st. split; [assumption|reflexivity].
  - destruct (step l w) as [w1|] eqn:Hstep; [|discriminate].
    pose proof (reachable_Inv _ _ Hr) as Hi.
    destruct (step_stalled l w w1 st Hi Hs Hstarted Haccept Hfl Hstep)
      as (st1 & Hs1 & Hst1 & Ha1 & Hf1 & _).
    destruct (step_turn_kept l w w1 st Hi Hs Hfl Hstep) as (x & Hx & Hcp).
    rewrite Hs1 in Hx. injection Hx as <-.
    destruct (IH w1 st1 w' (reach_step _ _ _ _ Hr Hstep) Hs1 Hst1 Ha1 Hf1 Hrun)
      as (st' & Hs' & Hcp').
    exists st'. split; [exact Hs'|]. congruence.
Qed.

(** C7: the code at an input where the turn does not advance.  The
    constructor is given the one icon X, two users join, the coin gives
    the first turn to player 1, and that player clicks the free cell 4: an
    accepted move that completes no line and leaves eight free cells.
    [buildButton] throws on the undefined icon of player 1 after the cell
    is marked and before the control is replaced: the handler throws, no
    request is sent and no callback is registered, [currentPlayerIndex]
    is still 1, and in every execution from there it stays 1,
    [acceptSelection] stays false and no further move is accepted. *)
Theorem one_icon_turn_stalls :
  let w := oneIconWorld in
  let st := stateOf w in
  reachable oneIconArgs w
  /\ this_state w = Some st
  /\ accepted st bob (lit "4") 4 P1
  /\ checkForWin (marked st 4) = Return None
  /\ possibleTurnsCount st - 1 <> 0
  /\ iconOf (playerIcons st) P1 = None
  /\ fst (onEvent (ButtonClickGameEvent bob (lit "4")) w) = Throw
  /\ exists w1 st1,
       step (Deliver (ButtonClickGameEvent bob (lit "4"))) w = Some w1
       /\ this_state w1 = Some st1
       /\ moved w w1 = Some P1
       /\ ownerOf st1 4 = Some P1
       /\ currentPlayerIndex st1 = Some P1
       /\ requests w1 = requests w
       /\ pending w1 = []
       /\ forall ls w',
            run ls w1 = Some w' ->
            (exists st',
               this_state w' = Some st'
               /\ currentPlayerIndex st' = Some P1
               /\ acceptSelection st' = false)
            /\ movers ls w1 = [].
Proof.
  cbv zeta.
  assert (Hrun : run toSecondPlayersTurn (boot oneIconArgs) = Some oneIconWorld)
    by (vm_compute; reflexivity).
  pose proof (run_reachable _ _ _ _ (reach_boot oneIconArgs) Hrun) as Hr.
  split; [exact Hr|]. split; [vm_compute; reflexivity|].
  split.
  { repeat split; try (vm_compute; reflexivity).
    exists bob. split; vm_compute; reflexivity. }
  split; [vm_compute; reflexivity|]. split; [vm_compute; discriminate|].
  split; [vm_compute; reflexivity|]. split; [vm_compute; reflexivity|].
  set (w1 := exec (onEvent (ButtonClickGameEvent bob (lit "4"))) oneIconWorld).
  assert (Hstep : step (Deliver (ButtonClickGameEvent bob (lit "4"))) oneIconWorld
                  = Some w1) by reflexivity.
  assert (Hs1 : this_state w1 = Some (stateOf w1)) by (vm_compute; reflexivity).
  exists w1, (stateOf w1).
  split; [exact Hstep|]. split; [exact Hs1|].
  split; [vm_compute; reflexivity|]. split; [vm_compute; reflexivity|].
  split; [vm_compute; reflexivity|]. split; [vm_compute; reflexivity|].
  split; [vm_compute; reflexivity|].
  intros ls w' Hrun'.
  pose proof (reach_step _ _ _ _ Hr Hstep) as Hr1.
  assert (Hstarted : started (stateOf w1) = true) by (vm_compute; reflexivity).
  assert (Haccept : acceptSelection (stateOf w1) = false)
    by (vm_compute; reflexivity).
  assert (Hfl : inFlight (pending w1) = 0%nat) by (vm_compute; reflexivity).
  destruct (run_stalled oneIconArgs ls w1 (stateOf w1) w' Hr1 Hs1 Hstarted
              Haccept Hfl Hrun') as [(st' & Hs' & Ha' & _) Hm].
  destruct (run_turn_kept oneIconArgs ls w1 (stateOf w1) w' Hr1 Hs1 Hstarted
              Haccept Hfl Hrun') as (x & Hx & Hcp).
  rewrite Hs' in Hx. injection Hx as <-.
  split; [|exact Hm].
  exists st'. split; [exact Hs'|]. split; [|exact Ha'].
  rewrite Hcp. vm_compute. reflexivity.
Qed.

End Plugin.

(** * The theorems on a sample session *)

Lemma sample_reachable ls :
  run (lit "leave") ls (boot None) = Some (after (lit "leave") ls) ->
  reachable (lit "leave") None (after (lit "leave") ls).
Proof. apply run_reachable. constructor. Qed.

Lemma checkForWin_spec_witness :
  board3x3 topRowBoard /\ checkForWin topRowBoard = Return (Some [0; 1; 2]).
Proof.
  assert (H : board3x3 topRowBoard) by (vm_compute; repeat constructor).
  split; [exact H|].
  exact (proj1 (checkForWin_spec topRowBoard H)).
Defined.

Lemma stale_click_noop_witness :
  handleButtonClick alice (lit "4") (after (lit "leave") toStale)
  = (Return tt, after (lit "leave") toStale).
Proof.
  refine (proj1 (stale_click_noop (lit "leave") (after (lit "leave") toStale)
                   (stateOf (after (lit "leave") toStale)) alice (lit "4") _ _));
    vm_compute; reflexivity.
Defined.

Lemma click_guards_witness :
  handleButtonClick bob (lit "99") (after (lit "leave") toPlay)
  = (Return tt, after (lit "leave") toPlay).
Proof.
  refine (proj1 (click_guards (lit "leave") None (after (lit "leave") toPlay)
                   (stateOf (after (lit "leave") toPlay)) bob (lit "99") _ _) _).
  - apply sample_reachable. vm_compute. reflexivity.
  - vm_compute. reflexivity.
  - intros (_ & (n & Hn & Hr) & _). vm_compute in Hn. injection Hn as <-.
    vm_compute in Hr. destruct Hr as [_ Hr]. discriminate Hr.
Defined.

Lemma remaining_cells_invariant_witness :
  possibleTurnsCount (stateOf (after (lit "leave") twoMoves))
  + occupied (boardStates (stateOf (after (lit "leave") twoMoves)))
  = gameSize (stateOf (after (lit "leave") twoMoves)) ^ 2
  /\ possibleTurnsCount (stateOf (after (lit "leave") twoMoves)) = 7.
Proof.
  split; [|vm_compute; reflexivity].
  refine (proj1 (remaining_cells_invariant (lit "leave") None
                   (after (lit "leave") twoMoves)
                   (stateOf (after (lit "leave") twoMoves)) _ _)).
  - apply sample_reachable. vm_compute. reflexivity.
  - vm_compute. reflexivity.
Defined.

Lemma handleLeave_spec_witness :
  handleLeave (lit "leave") bob (after (lit "leave") toStale)
  = (Return tt, after (lit "leave") toStale).
Proof.
  refine (proj1 (handleLeave_spec (lit "leave") (after (lit "leave") toStale)
                   (stateOf (after (lit "leave") toStale)) bob _) _).
  - vm_compute. reflexivity.
  - vm_compute. intros H. exact H.
Defined.

Lemma join_starts_once_witness :
  starts (lit "leave") (joins [alice; bob; alice; bob]) (after (lit "leave") toLobby)
  = 1%nat.
Proof.
  destruct (proj2 (proj2 (proj2
              (join_starts_once (lit "leave") None (after (lit "leave") toLobby)
                 (stateOf (after (lit "leave") toLobby)) alice bob [alice; bob]
                 (sample_reachable toLobby ltac:(vm_compute; reflexivity))
                 ltac:(vm_compute; reflexivity))))
              ltac:(vm_compute; reflexivity) ltac:(vm_compute; reflexivity))
    as (w1 & st1 & w2 & st2 & text & board & _ & _ & _ & _ & _ & _ & _ & _ & _ & _ & H & _).
  exact H.
Defined.


Lemma destroy_initialize_roundtrip_witness :
  this_state (exec (initialize (Some (stateOf (after (lit "leave") toPlay))))
                (constructor None))
  = this_state (after (lit "leave") toPlay).
Proof.
  refine (proj1 (proj2 (proj2
            (proj2 (destroy_initialize_roundtrip (after (lit "leave") toPlay)
                      (stateOf (after (lit "leave") toPlay)) _)
               _ (constructor None))))).
  - vm_compute. reflexivity.
  - vm_compute. discriminate.
Defined.

Lemma turn_notification_order_witness :
  sendTurn ThenAcceptSelection (after (lit "leave") toPlay)
  = (Return tt,
     with_pending
       (pending (after (lit "leave") toPlay)
          ++ [(HostReply, K_turnSent ThenAcceptSelection)])
       (with_requests
          (requests (after (lit "leave") toPlay)
             ++ [turnMessage (stateOf (after (lit "leave") toPlay)) alice])
          (after (lit "leave") toPlay))).
Proof.
  refine (proj2 (proj2
            (proj1 (turn_notification_order (lit "leave") None
                      (after (lit "leave") toPlay)
                      (stateOf (after (lit "leave") toPlay)) _ _)
               ThenAcceptSelection alice _))).
  - apply sample_reachable. vm_compute. reflexivity.
  - vm_compute. reflexivity.
  - vm_compute. reflexivity.
Defined.

Lemma unparsable_click_noop_witness :
  exec (handleButtonClick alice (lit "leave")) (after (lit "leave") toPlay)
  = after (lit "leave") toPlay.
Proof.
  refine (proj1 (unparsable_click_noop (after (lit "leave") toPlay) alice
                   (lit "leave") _)).
  intros (n & Hn & _). vm_compute in Hn. discriminate Hn.
Defined.

Lemma getCoordFromIndex_roundtrip_witness :
  0 < gameSize topRowBoard < 2 ^ 53
  /\ getCoordFromIndex topRowBoard (1 * gameSize topRowBoard + 2) = (1, 2).
Proof.
  assert (Hg : 0 < gameSize topRowBoard < 2 ^ 53)
    by (vm_compute; split; reflexivity).
  split; [exact Hg|].
  apply (proj1 (getCoordFromIndex_roundtrip topRowBoard Hg) 1 2).
  - discriminate.
  - vm_compute. split; [discriminate | reflexivity].
  - vm_compute. reflexivity.
Defined.

Lemma control_id_decodes_witness :
  parseInt (custom_id sampleControl) = Some (1 * gameSize topRowBoard + 2)
  /\ getCoordFromIndex topRowBoard (1 * gameSize topRowBoard + 2) = (1, 2).
Proof.
  apply (control_id_decodes topRowBoard 1 2 false sampleControl).
  - reflexivity.
  - discriminate.
  - vm_compute. split; [discriminate | reflexivity].
  - reflexivity.
  - vm_compute. reflexivity.
Defined.

Lemma buildTicTacToe_grid_witness :
  buildTicTacToe topRowBoard true = Return sampleBoard
  /\ length sampleBoard = Z.to_nat (gameSize topRowBoard).
Proof.
  assert (H : buildTicTacToe topRowBoard true = Return sampleBoard)
    by (vm_compute; reflexivity).
  split; [exact H|].
  exact (proj1 (buildTicTacToe_grid topRowBoard true sampleBoard H)).
Defined.

Lemma highlight_restyles_witness :
  highlight topRowBoard [0; 1; 2] sampleBoard = Return sampleWinBoard
  /\ length sampleWinBoard = length sampleBoard.
Proof.
  assert (H : highlight topRowBoard [0; 1; 2] sampleBoard = Return sampleWinBoard)
    by (vm_compute; reflexivity).
  split; [exact H|].
  exact (proj1 (highlight_restyles topRowBoard [0; 1; 2] sampleBoard
                  sampleWinBoard ltac:(reflexivity) H)).
Defined.

Lemma marks_are_permanent_witness :
  exists st',
    this_state (after (lit "leave") twoMoves) = Some st'
    /\ (forall n p,
          ownerOf (stateOf (after (lit "leave") oneMove)) n = Some p ->
          ownerOf st' n = Some p)
    /\ possibleTurnsCount st'
       <= possibleTurnsCount (stateOf (after (lit "leave") oneMove))
    /\ occupied (boardStates (stateOf (after (lit "leave") oneMove)))
       <= occupied (boardStates st').
Proof.
  apply (marks_are_permanent (lit "leave") None
           [Deliver (ButtonClickGameEvent bob (lit "0"))]
           (after (lit "leave") oneMove)
           (stateOf (after (lit "leave") oneMove))
           (after (lit "leave") twoMoves)).
  - apply sample_reachable. vm_compute. reflexivity.
  - vm_compute. reflexivity.
  - vm_compute. reflexivity.
Defined.

Lemma stale_is_terminal_witness :
  (exists st',
     this_state (after (lit "leave") (toStale ++ [Deliver (JoinGameEvent bob)]))
     = Some st'
     /\ stale st' = true
     /\ boardStates st' = boardStates (stateOf (after (lit "leave") toStale))
     /\ possibleTurnsCount st'
        = possibleTurnsCount (stateOf (after (lit "leave") toStale))
     /\ (length (players st')
         <= length (players (stateOf (after (lit "leave") toStale))))%nat)
  /\ forall a, ~ In (Reload a) [Deliver (JoinGameEvent bob)].
Proof.
  apply (stale_is_terminal (lit "leave") None [Deliver (JoinGameEvent bob)]
           (after (lit "leave") toStale)
           (stateOf (after (lit "leave") toStale))
           (after (lit "leave") (toStale ++ [Deliver (JoinGameEvent bob)]))).
  - apply sample_reachable. vm_compute. reflexivity.
  - vm_compute. reflexivity.
  - vm_compute. reflexivity.
  - vm_compute. reflexivity.
Defined.

Lemma leave_closes_session_witness :
  destroy (exec (handleLeave (lit "leave") alice) (after (lit "leave") toPlay))
  = (Return None,
     exec (handleLeave (lit "leave") alice) (after (lit "leave") toPlay)).
Proof.
  refine (proj2 (proj2 (proj2
            (leave_closes_session (lit "leave") (after (lit "leave") toPlay)
               (stateOf (after (lit "leave") toPlay)) alice _ _)))).
  - vm_compute. reflexivity.
  - vm_compute. left. reflexivity.
Defined.

Lemma onEvent_returns_witness :
  fst (onEvent (lit "leave") (ButtonClickGameEvent alice (lit "4"))
         (after (lit "leave") toPlay))
  = Return tt.
Proof.
  refine (proj1 (onEvent_returns (lit "leave") None (after (lit "leave") toPlay)
                   (ButtonClickGameEvent alice (lit "4")) _)
            (stateOf (after (lit "leave") toPlay)) _ _).
  - apply sample_reachable. vm_compute. reflexivity.
  - vm_compute. reflexivity.
  - intros [|]; vm_compute; discriminate.
Defined.

Lemma stalled_session_witness :
  (exists st',
     this_state
       (after (lit "leave")
          (toFrozen ++ [Deliver (ButtonClickGameEvent alice (lit "4"))]))
     = Some st'
     /\ acceptSelection st' = false
     /\ boardStates st' = boardStates (stateOf (after (lit "leave") toFrozen))
     /\ possibleTurnsCount st'
        = possibleTurnsCount (stateOf (after (lit "leave") toFrozen)))
  /\ movers (lit "leave") [Deliver (ButtonClickGameEvent alice (lit "4"))]
       (after (lit "leave") toFrozen) = [].
Proof.
  apply (stalled_session (lit "leave") None
           [Deliver (ButtonClickGameEvent alice (lit "4"))]
           (after (lit "leave") toFrozen)
           (stateOf (after (lit "leave") toFrozen))
           (after (lit "leave")
              (toFrozen ++ [Deliver (ButtonClickGameEvent alice (lit "4"))]))).
  - apply sample_reachable. vm_compute. reflexivity.
  - vm_compute. reflexivity.
  - vm_compute. reflexivity.
  - vm_compute. reflexivity.
  - vm_compute. reflexivity.
  - vm_compute. reflexivity.
Defined.

Lemma failed_request_freezes_witness :
  exists w1,
    step (lit "leave") (Reject 0) (after (lit "leave") toBoard) = Some w1
    /\ this_state w1 = Some (stateOf (after (lit "leave") toBoard))
    /\ requests w1 = requests (after (lit "leave") toBoard)
    /\ forall ls w',
         run (lit "leave") ls w1 = Some w' ->
         (exists st',
            this_state w' = Some st'
            /\ acceptSelection st' = false
            /\ boardStates st'
               = boardStates (stateOf (after (lit "leave") toBoard))
            /\ possibleTurnsCount st'
               = possibleTurnsCount (stateOf (after (lit "leave") toBoard)))
         /\ movers (lit "leave") ls w1 = [].
Proof.
  apply (failed_request_freezes (lit "leave") None (after (lit "leave") toBoard)
           (stateOf (after (lit "leave") toBoard)) 0%nat K_boardSent).
  - apply sample_reachable. vm_compute. reflexivity.
  - vm_compute. reflexivity.
  - vm_compute. reflexivity.
  - reflexivity.
Defined.

Lemma winning_move_witness :
  In [0; 1; 2] winningLines
  /\ In 2 [0; 1; 2]
  /\ Forall (fun m =>
               ownerOf (marked (stateOf (after (lit "leave") beforeWin)) 2) m
               = Some P0) [0; 1; 2]
  /\ handleButtonClick alice (lit "2") (after (lit "leave") beforeWin)
     = (Return tt,
        with_pending
          (pending (after (lit "leave") beforeWin)
             ++ [(HostReply, K_winRetracted [0; 1; 2])])
          (with_requests
             (requests (after (lit "leave") beforeWin)
                ++ [deleteMessage
                      (channelId (stateOf (after (lit "leave") beforeWin)))
                      (lastTurnMessageId
                         (stateOf (after (lit "leave") beforeWin)))])
             (with_state
                (Some (set_stale true
                         (marked (stateOf (after (lit "leave") beforeWin)) 2)))
                (after (lit "leave") beforeWin)))).
Proof.
  apply (winning_move (lit "leave") None (after (lit "leave") beforeWin)
           (stateOf (after (lit "leave") beforeWin)) alice (lit "2") 2 P0
           [0; 1; 2]).
  - apply sample_reachable. vm_compute. reflexivity.
  - vm_compute. reflexivity.
  - repeat split; try (vm_compute; reflexivity).
    exists alice. split; vm_compute; reflexivity.
  - vm_compute. reflexivity.
Defined.

Lemma winning_line_is_shown_witness :
  exists md text board,
    gameBoardMessageDescriptor (stateOf (after (lit "leave") toWin)) = Some md
    /\ iconsText (stateOf (after (lit "leave") toWin)) = Return text
    /\ (forall coin,
          step (lit "leave") (Resolve 0 Void coin) (after (lit "leave") toWin)
          = Some (with_pending
                    (delete 0%nat (pending (after (lit "leave") toWin))
                       ++ [(HostReply, K_winEdited [0; 1; 2])])
                    (with_requests
                       (requests (after (lit "leave") toWin)
                          ++ [editMessage (md_channelId md) (md_messageId md)
                                text
                                {| components := Some board;
                                   allowedMentions := None |}])
                       (after (lit "leave") toWin))))
    /\ forall rowIndex index,
         0 <= rowIndex < 3 -> 0 <= index < 3 ->
         exists control,
           controlAt board rowIndex index = Some control
           /\ disabled control = true
           /\ custom_id control = toString (rowIndex * 3 + index)
           /\ (In (rowIndex * 3 + index) [0; 1; 2] -> style control = Success)
           /\ (~ In (rowIndex * 3 + index) [0; 1; 2] ->
               style control = Secondary).
Proof.
  apply (winning_line_is_shown (lit "leave") None (after (lit "leave") toWin)
           (stateOf (after (lit "leave") toWin)) 0%nat [0; 1; 2]).
  - apply sample_reachable. vm_compute. reflexivity.
  - vm_compute. reflexivity.
  - vm_compute. reflexivity.
  - vm_compute. reflexivity.
  - intros [|]; vm_compute; discriminate.
Defined.

Lemma winner_announcement_witness :
  exists p,
    In [0; 1; 2] winningLines
    /\ Forall (fun m =>
                 ownerOf (stateOf (after (lit "leave") toWinShown)) m = Some p)
         [0; 1; 2]
    /\ stale (stateOf (after (lit "leave") toWinShown)) = true
    /\ forall coin,
         step (lit "leave") (Resolve 0 Void coin)
           (after (lit "leave") toWinShown)
         = Some match at_ (players (stateOf (after (lit "leave") toWinShown)))
                        (indexZ p) with
                | Some winner =>
                    with_requests
                      (requests (after (lit "leave") toWinShown)
                         ++ [sendMessage
                               (lit "User <@" ++ user_id winner
                                  ++ lit "> won the game!" ++ NL
                                  ++ lit "Game over." ++ NL
                                  ++ lit "Leave the session")
                               (channelId
                                  (stateOf (after (lit "leave") toWinShown)))
                               {| components :=
                                    Some [[LEAVE_BUTTON (lit "leave")]];
                                  allowedMentions := Some [user_id winner] |}])
                      (with_pending
                         (delete 0%nat
                            (pending (after (lit "leave") toWinShown)))
                         (after (lit "leave") toWinShown))
                | None =>
                    with_pending
                      (delete 0%nat (pending (after (lit "leave") toWinShown)))
                      (after (lit "leave") toWinShown)
                end.
Proof.
  apply (winner_announcement (lit "leave") None (after (lit "leave") toWinShown)
           (stateOf (after (lit "leave") toWinShown)) 0%nat [0; 1; 2]).
  - apply sample_reachable. vm_compute. reflexivity.
  - vm_compute. reflexivity.
  - vm_compute. reflexivity.
Defined.

Lemma draw_resolution_witness :
  occupied (boardStates (stateOf (after (lit "leave") toDraw))) = 9
  /\ (forall line, In line winningLines ->
        ~ fullyOwned (stateOf (after (lit "leave") toDraw)) line)
  /\ forall coin,
       step (lit "leave") (Resolve 0 Void coin) (after (lit "leave") toDraw)
       = Some (with_requests
                 (requests (after (lit "leave") toDraw)
                    ++ [sendMessage
                          (lit "The game was ended in a draw." ++ NL
                             ++ lit "Leave the session")
                          (channelId (stateOf (after (lit "leave") toDraw)))
                          (leaveRow (lit "leave"))])
                 (with_state
                    (Some (set_stale true
                             (stateOf (after (lit "leave") toDraw))))
                    (with_pending
                       (delete 0%nat (pending (after (lit "leave") toDraw)))
                       (after (lit "leave") toDraw)))).
Proof.
  refine (proj2 (draw_resolution (lit "leave") None (after (lit "leave") toDraw)
                   (stateOf (after (lit "leave") toDraw)) 0%nat _ _) _).
  - apply sample_reachable. vm_compute. reflexivity.
  - vm_compute. reflexivity.
  - vm_compute. reflexivity.
Defined.

Lemma session_constants_witness :
  gameSize (stateOf (after (lit "leave") toLobby)) = 3
  /\ playerIcons (stateOf (after (lit "leave") toLobby))
     = this_playerIcons (constructor None)
  /\ exists st',
       this_state
         (after (lit "leave")
            (toLobby ++ [Deliver (JoinGameEvent alice);
                         Reload (Some (lit "A B"))]))
       = Some st'
       /\ channelId st' = channelId (stateOf (after (lit "leave") toLobby))
       /\ gameSize st' = gameSize (stateOf (after (lit "leave") toLobby))
       /\ playerIcons st' = playerIcons (stateOf (after (lit "leave") toLobby))
       /\ (started (stateOf (after (lit "leave") toLobby)) = true ->
           started st' = true)
       /\ (isDefined (gameBoardMessageDescriptor
                        (stateOf (after (lit "leave") toLobby))) = true ->
           isDefined (gameBoardMessageDescriptor st') = true).
Proof.
  apply (session_constants (lit "leave") None (after (lit "leave") toLobby)
           (stateOf (after (lit "leave") toLobby))
           [Deliver (JoinGameEvent alice); Reload (Some (lit "A B"))]
           (after (lit "leave")
              (toLobby ++ [Deliver (JoinGameEvent alice);
                           Reload (Some (lit "A B"))]))).
  - apply sample_reachable. vm_compute. reflexivity.
  - vm_compute. reflexivity.
  - vm_compute. reflexivity.
Defined.

Lemma players_fixed_while_active_witness :
  players (stateOf (after (lit "leave") oneMove))
  = players (stateOf (after (lit "leave") toPlay))
  /\ length (players (stateOf (after (lit "leave") toPlay))) = 2%nat
  /\ started (stateOf (after (lit "leave") oneMove)) = true.
Proof.
  apply (players_fixed_while_active (lit "leave") None
           (moveOf alice 4 (lit "turn2"))
           (after (lit "leave") toPlay)
           (stateOf (after (lit "leave") toPlay))
           (after (lit "leave") oneMove)
           (stateOf (after (lit "leave") oneMove))).
  - apply sample_reachable. vm_compute. reflexivity.
  - vm_compute. reflexivity.
  - vm_compute. reflexivity.
  - vm_compute. reflexivity.
  - vm_compute. reflexivity.
  - vm_compute. reflexivity.
Defined.

Lemma marks_are_balanced_witness :
  -1 <= marksOf (stateOf (after (lit "leave") oneMove)) P0
        - marksOf (stateOf (after (lit "leave") oneMove)) P1 <= 1
  /\ marksOf (stateOf (after (lit "leave") oneMove)) P0
     + marksOf (stateOf (after (lit "leave") oneMove)) P1
     = occupied (boardStates (stateOf (after (lit "leave") oneMove)))
  /\ marksOf (stateOf (after (lit "leave") oneMove)) P0
     + marksOf (stateOf (after (lit "leave") oneMove)) P1
     + possibleTurnsCount (stateOf (after (lit "leave") oneMove)) = 9.
Proof.
  apply (marks_are_balanced (lit "leave") None (after (lit "leave") oneMove)
           (stateOf (after (lit "leave") oneMove))).
  - apply sample_reachable. vm_compute. reflexivity.
  - vm_compute. reflexivity.
Defined.

Lemma deleted_messages_exist_witness :
  In (deleteMessage (lit "chan") (Some (lit "turn1")))
     (requests (after (lit "leave") oneMove))
  /\ Some (lit "turn1") <> None.
Proof.
  assert (H : In (deleteMessage (lit "chan") (Some (lit "turn1")))
                 (requests (after (lit "leave") oneMove)))
    by (vm_compute; tauto).
  split; [exact H|].
  exact (deleted_messages_exist (lit "leave") None (after (lit "leave") oneMove)
           (sample_reachable oneMove ltac:(vm_compute; reflexivity))
           (lit "chan") (Some (lit "turn1")) H).
Defined.

Lemma callbacks_return_witness :
  (forall k r coin m,
     pending (after (lit "leave") toLastMove) !! 0%nat = Some (HostReply, k) ->
     resume (lit "leave") k r coin = Some m ->
     fst (m (with_pending
               (delete 0%nat (pending (after (lit "leave") toLastMove)))
               (after (lit "leave") toLastMove)))
     = Return tt)
  /\ (forall ms k m,
        pending (after (lit "leave") toLastMove) !! 0%nat = Some (Timer ms, k) ->
        fire k = Some m ->
        fst (m (with_pending
                  (delete 0%nat (pending (after (lit "leave") toLastMove)))
                  (after (lit "leave") toLastMove)))
        = Return tt).
Proof.
  apply (callbacks_return (lit "leave") None (after (lit "leave") toLastMove)
           (stateOf (after (lit "leave") toLastMove)) 0%nat).
  - apply sample_reachable. vm_compute. reflexivity.
  - vm_compute. reflexivity.
  - vm_compute. reflexivity.
  - intros [|]; vm_compute; discriminate.
Defined.

Lemma your_turn_your_move_witness :
  exists p u,
    currentPlayerIndex (stateOf (after (lit "leave") toPlay)) = Some p
    /\ at_ (players (stateOf (after (lit "leave") toPlay))) (indexZ p) = Some u
    /\ isDefined (gameBoardMessageDescriptor
                    (stateOf (after (lit "leave") toPlay))) = true
    /\ isDefined (lastTurnMessageId (stateOf (after (lit "leave") toPlay)))
       = true
    /\ forall user n,
         user_id user = user_id u -> 0 <= n <= 8 ->
         ownerOf (stateOf (after (lit "leave") toPlay)) n = None ->
         accepted (stateOf (after (lit "leave") toPlay)) user (toString n) n p
         /\ exists w' st',
              step (lit "leave")
                (Deliver (ButtonClickGameEvent user (toString n)))
                (after (lit "leave") toPlay) = Some w'
              /\ this_state w' = Some st'
              /\ ownerOf st' n = Some p
              /\ possibleTurnsCount st'
                 = possibleTurnsCount (stateOf (after (lit "leave") toPlay)) - 1
              /\ (stale st' = true \/ acceptSelection st' = false).
Proof.
  apply (your_turn_your_move (lit "leave") None (after (lit "leave") toPlay)
           (stateOf (after (lit "leave") toPlay))).
  - apply sample_reachable. vm_compute. reflexivity.
  - vm_compute. reflexivity.
  - vm_compute. reflexivity.
  - vm_compute. reflexivity.
Defined.

Lemma one_turn_cycle_witness :
  (inFlight (pending (after (lit "leave") toBoard)) <= 1)%nat
  /\ forall st,
       this_state (after (lit "leave") toBoard) = Some st ->
       (started st = false ->
        acceptSelection st = false
        /\ inFlight (pending (after (lit "leave") toBoard)) = 0%nat)
       /\ (acceptSelection st = true ->
           inFlight (pending (after (lit "leave") toBoard)) = 0%nat).
Proof.
  apply (one_turn_cycle (lit "leave") None (after (lit "leave") toBoard)).
  apply sample_reachable. vm_compute. reflexivity.
Defined.

Lemma win_resolution_witness :
  exists md text board winner,
    gameBoardMessageDescriptor (stateOf (after (lit "leave") beforeWin))
    = Some md
    /\ at_ (players (stateOf (after (lit "leave") beforeWin))) (indexZ P0)
       = Some winner
    /\ user_id winner = user_id alice
    /\ forall c1 c2,
         run (lit "leave")
           [Deliver (ButtonClickGameEvent alice (lit "2"));
            Resolve (length (pending (after (lit "leave") beforeWin))) Void c1;
            Resolve (length (pending (after (lit "leave") beforeWin))) Void c2]
           (after (lit "leave") beforeWin)
         = Some (with_requests
                   (requests (after (lit "leave") beforeWin)
                      ++ [deleteMessage
                            (channelId (stateOf (after (lit "leave") beforeWin)))
                            (lastTurnMessageId
                               (stateOf (after (lit "leave") beforeWin)));
                          editMessage (md_channelId md) (md_messageId md) text
                            {| components := Some board;
                               allowedMentions := None |};
                          sendMessage
                            (lit "User <@" ++ user_id winner
                               ++ lit "> won the game!" ++ NL
                               ++ lit "Game over." ++ NL
                               ++ lit "Leave the session")
                            (channelId (stateOf (after (lit "leave") beforeWin)))
                            {| components :=
                                 Some [[LEAVE_BUTTON (lit "leave")]];
                               allowedMentions := Some [user_id winner] |}])
                   (with_state
                      (Some (set_stale true
                               (marked (stateOf (after (lit "leave") beforeWin))
                                  2)))
                      (after (lit "leave") beforeWin))).
Proof.
  apply (win_resolution (lit "leave") None (after (lit "leave") beforeWin)
           (stateOf (after (lit "leave") beforeWin)) alice (lit "2") 2 P0
           [0; 1; 2]).
  - apply sample_reachable. vm_compute. reflexivity.
  - vm_compute. reflexivity.
  - repeat split; try (vm_compute; reflexivity).
    exists alice. split; vm_compute; reflexivity.
  - vm_compute. reflexivity.
  - intros [|]; vm_compute; discriminate.
Defined.

Lemma draw_end_to_end_witness :
  exists md control,
    gameBoardMessageDescriptor (stateOf (after (lit "leave") beforeLast))
    = Some md
    /\ forall c1 c2,
         run (lit "leave")
           [Deliver (ButtonClickGameEvent alice (lit "8"));
            Resolve (length (pending (after (lit "leave") beforeLast))) Void c1;
            Resolve (length (pending (after (lit "leave") beforeLast))) Void c2]
           (after (lit "leave") beforeLast)
         = Some (with_requests
                   (requests (after (lit "leave") beforeLast)
                      ++ [replaceControl
                            (channelId (stateOf (after (lit "leave") beforeLast)))
                            (md_messageId md) (toString 8) control;
                          deleteMessage
                            (channelId (stateOf (after (lit "leave") beforeLast)))
                            (lastTurnMessageId
                               (stateOf (after (lit "leave") beforeLast)));
                          sendMessage
                            (lit "The game was ended in a draw." ++ NL
                               ++ lit "Leave the session")
                            (channelId (stateOf (after (lit "leave") beforeLast)))
                            (leaveRow (lit "leave"))])
                   (with_state
                      (Some (set_stale true
                               (set_acceptSelection false
                                  (marked
                                     (stateOf (after (lit "leave") beforeLast))
                                     8))))
                      (after (lit "leave") beforeLast))).
Proof.
  apply (draw_end_to_end (lit "leave") None (after (lit "leave") beforeLast)
           (stateOf (after (lit "leave") beforeLast)) alice (lit "8") 8 P0
           [10060%N]).
  - apply sample_reachable. vm_compute. reflexivity.
  - vm_compute. reflexivity.
  - repeat split; try (vm_compute; reflexivity).
    exists alice. split; vm_compute; reflexivity.
  - vm_compute. reflexivity.
  - vm_compute. reflexivity.
  - vm_compute. reflexivity.
Defined.

Lemma move_end_to_end_witness :
  exists md control next,
    gameBoardMessageDescriptor (stateOf (after (lit "leave") toPlay)) = Some md
    /\ at_ (players (stateOf (after (lit "leave") toPlay)))
         (indexZ (opponent P0)) = Some next
    /\ forall c1 c2 c3 turn,
         run (lit "leave")
           [Deliver (ButtonClickGameEvent alice (lit "4"));
            Resolve (length (pending (after (lit "leave") toPlay))) Void c1;
            Resolve (length (pending (after (lit "leave") toPlay))) Void c2;
            Resolve (length (pending (after (lit "leave") toPlay)))
              (Message turn) c3]
           (after (lit "leave") toPlay)
         = Some (with_requests
                   (requests (after (lit "leave") toPlay)
                      ++ [replaceControl
                            (channelId (stateOf (after (lit "leave") toPlay)))
                            (md_messageId md) (toString 4) control;
                          deleteMessage
                            (channelId (stateOf (after (lit "leave") toPlay)))
                            (lastTurnMessageId
                               (stateOf (after (lit "leave") toPlay)));
                          turnMessage (stateOf (after (lit "leave") toPlay))
                            next])
                   (with_state
                      (Some (set_acceptSelection true
                               (set_lastTurnMessageId
                                  (Some (md_messageId turn))
                                  (set_currentPlayerIndex (Some (opponent P0))
                                     (set_acceptSelection false
                                        (marked
                                           (stateOf
                                              (after (lit "leave") toPlay))
                                           4))))))
                      (after (lit "leave") toPlay))).
Proof.
  apply (move_end_to_end (lit "leave") None (after (lit "leave") toPlay)
           (stateOf (after (lit "leave") toPlay)) alice (lit "4") 4 P0
           [10060%N]).
  - apply sample_reachable. vm_compute. reflexivity.
  - vm_compute. reflexivity.
  - repeat split; try (vm_compute; reflexivity).
    exists alice. split; vm_compute; reflexivity.
  - vm_compute. reflexivity.
  - vm_compute. discriminate.
  - vm_compute. reflexivity.
  - vm_compute. reflexivity.
Defined.

Lemma game_start_end_to_end_witness :
  exists board,
    buildTicTacToe (stateOf (after (lit "leave") toWaiting)) false
    = Return board
    /\ forall md coin turn c,
         run (lit "leave")
           [Deliver (JoinGameEvent bob);
            Resolve (length (pending (after (lit "leave") toWaiting)))
              (Message md) coin;
            Resolve (length (pending (after (lit "leave") toWaiting)))
              (Message turn) c]
           (after (lit "leave") toWaiting)
         = Some (with_requests
                   (requests (after (lit "leave") toWaiting)
                      ++ [addUserToChannel (user_id bob)
                            (channelId (stateOf (after (lit "leave") toWaiting)))
                            true;
                          sendMessage
                            (lit "<@" ++ user_id bob ++ lit "> joined the game."
                               ++ NL ++ lit "Starting game...")
                            (channelId (stateOf (after (lit "leave") toWaiting)))
                            noOptions;
                          sendMessage
                            (lit "<@" ++ user_id alice ++ lit "> will use "
                               ++ tpl (icon0
                                         (playerIcons
                                            (stateOf
                                               (after (lit "leave") toWaiting))))
                               ++ NL
                               ++ lit "<@" ++ user_id bob ++ lit "> will use "
                               ++ tpl (icon1
                                         (playerIcons
                                            (stateOf
                                               (after (lit "leave") toWaiting)))))
                            (channelId (stateOf (after (lit "leave") toWaiting)))
                            {| components := Some board;
                               allowedMentions := None |};
                          turnMessage (stateOf (after (lit "leave") toWaiting))
                            (match coin with P0 => alice | P1 => bob end)])
                   (with_state
                      (Some (set_acceptSelection true
                               (set_lastTurnMessageId
                                  (Some (md_messageId turn))
                                  (set_currentPlayerIndex (Some coin)
                                     (set_gameBoardMessageDescriptor (Some md)
                                        (set_started true
                                           (set_players [alice; bob]
                                              (stateOf
                                                 (after (lit "leave")
                                                    toWaiting)))))))))
                      (after (lit "leave") toWaiting))).
Proof.
  apply (game_start_end_to_end (lit "leave") None
           (after (lit "leave") toWaiting)
           (stateOf (after (lit "leave") toWaiting)) alice bob).
  - apply sample_reachable. vm_compute. reflexivity.
  - vm_compute. reflexivity.
  - vm_compute. reflexivity.
  - vm_compute. reflexivity.
  - vm_compute. reflexivity.
Defined.

(** * The sample session, evaluated *)

Example parseInt_samples :
  parseInt (lit "7") = Some 7
  /\ parseInt (lit " 0x5") = Some 5
  /\ parseInt (lit "8th") = Some 8
  /\ parseInt (lit "-0") = Some 0
  /\ parseInt (lit "12") = Some 12
  /\ parseInt (lit "leave") = None
  /\ parseInt (lit "") = None.
Proof. vm_compute. repeat split. Qed.

(** Player 1 clicks while it is the turn of player 0: a notice, no state
    change. *)
Example out_of_turn_sample :
  let w := after (lit "leave") toPlay in
  let w' := exec (handleButtonClick bob (lit "4")) w in
  this_state w' = this_state w
  /\ pending w' = pending w ++ [(HostReply, K_noticeSent)]
  /\ console w' = console w.
Proof. vm_compute. repeat split. Qed.

(** Player 1 clicks the centre that player 0 has taken: a log line and
    nothing else. *)
Example occupied_cell_sample :
  let w := after (lit "leave") oneMove in
  let w' := exec (handleButtonClick bob (lit "4")) w in
  this_state w' = this_state w
  /\ requests w' = requests w
  /\ pending w' = pending w
  /\ console w'
     = console w ++ [lit "Wrong turn - that cell was already selected."].
Proof. vm_compute. repeat split. Qed.

(** The top row wins for player 0: the session is stale, nothing waits,
    and the last request announces the winner with the Leave control. *)
Example top_row_sample :
  let w := after (lit "leave") topRowGame in
  checkForWin (stateOf w) = Return (Some [0; 1; 2])
  /\ stale (stateOf w) = true
  /\ possibleTurnsCount (stateOf w) = 4
  /\ pending w = []
  /\ last (requests w)
     = Some (sendMessage
               (lit "User <@alice> won the game!" ++ NL ++ lit "Game over." ++ NL
                  ++ lit "Leave the session")
               (lit "chan")
               {| components := Some [[LEAVE_BUTTON (lit "leave")]];
                  allowedMentions := Some [lit "alice"] |}).
Proof. vm_compute. repeat split. Qed.
